(** * TempLog: the domain rules of the sector-monitoring logbook

    A shallow embedding of the logic layer of the TempLog web application:
    - the reading submission form ([RecordPage]: [formSchema],
      [isTempOutOfRange], [isHumidityOutOfRange], [onSubmit]),
    - the dashboard ([DashboardPage]: the per-sector shift status and
      [deleteSector]),
    - the history chart ([HistoryPage]: [chartData]),
    - the CSV export of the records dialog ([exportToCsv]).

    Conventions of the embedding.
    - A JavaScript [Date] and a stored timestamp are an integer number of
      milliseconds since the epoch ([Z]).  The device's time zone is a fixed
      offset [tz] in milliseconds east of UTC (no daylight-saving changes).
    - A JavaScript number is an IEEE 754 binary64 value.  A finite one is
      held as the rational it denotes ([Q]), and its comparisons are those
      of the rationals; NaN is [None] where it can arise (the result of
      [Number] on a form field).  Where the program computes with numbers
      (the sums and quotients of the chart) every result is rounded to the
      nearest binary64 value, see [Double].
    - A Firestore collection is a finite map from document ids to documents
      ([gmap string _]).  The remote store can fail: every store call takes
      its outcome from an explicit fault description. *)

From Stdlib Require Import ZArith QArith Qround Qabs Qpower Lqa String Ascii List Bool Lia.
From Stdlib Require Import Sorting.Sorted Sorting.Permutation.
From stdpp Require Import gmap strings list fin_maps pretty.

Close Scope Q_scope.
Open Scope Z_scope.

(* ===================================================================== *)
(** * Dates: local calendar arithmetic                                    *)
(* ===================================================================== *)

Module Time.

Definition ms_per_second : Z := 1000.
Definition ms_per_minute : Z := 60000.
Definition ms_per_hour : Z := 3600000.
Definition ms_per_day : Z := 86400000.

(** Proleptic Gregorian calendar: day number (days since 1970-01-01) of a
    civil date, and back.  [m] is the month 1..12. *)
Definition days_from_civil (y m d : Z) : Z :=
  let y' := if m <=? 2 then y - 1 else y in
  let era := y' / 400 in
  let yoe := y' - era * 400 in
  let mp := if 2 <? m then m - 3 else m + 9 in
  let doy := (153 * mp + 2) / 5 + d - 1 in
  let doe := yoe * 365 + yoe / 4 - yoe / 100 + doy in
  era * 146097 + doe - 719468.

Definition civil_from_days (n : Z) : Z * Z * Z :=
  let z := n + 719468 in
  let era := z / 146097 in
  let doe := z - era * 146097 in
  let yoe := (doe - doe / 1460 + doe / 36524 - doe / 146096) / 365 in
  let doy := doe - (365 * yoe + yoe / 4 - yoe / 100) in
  let mp := (5 * doy + 2) / 153 in
  let d := doy - (153 * mp + 2) / 5 + 1 in
  let m := if mp <? 10 then mp + 3 else mp - 9 in
  ((if m <=? 2 then yoe + era * 400 + 1 else yoe + era * 400), m, d).

Section Local.
(** Offset of local time from UTC, in milliseconds (east positive). *)
Variable tz : Z.

(** Day number of the local calendar day an instant falls in. *)
Definition local_day (t : Z) : Z := (t + tz) / ms_per_day.
(** Milliseconds elapsed since local midnight. *)
Definition ms_of_day (t : Z) : Z := (t + tz) mod ms_per_day.

Definition getFullYear (t : Z) : Z := fst (fst (civil_from_days (local_day t))).
(** [getMonth] is zero-based. *)
Definition getMonth (t : Z) : Z := snd (fst (civil_from_days (local_day t))) - 1.
Definition getDate (t : Z) : Z := snd (civil_from_days (local_day t)).
Definition getHours (t : Z) : Z := ms_of_day t / ms_per_hour.
Definition getMinutes (t : Z) : Z := (ms_of_day t mod ms_per_hour) / ms_per_minute.
Definition getSeconds (t : Z) : Z := (ms_of_day t mod ms_per_minute) / ms_per_second.

(** [new Date(year, monthIndex, day, hours, minutes, seconds, ms)]: the
    instant with these local-time fields. *)
Definition Date_of_fields (y mi d hh mm ss ms : Z) : Z :=
  days_from_civil y (mi + 1) d * ms_per_day
  + hh * ms_per_hour + mm * ms_per_minute + ss * ms_per_second + ms - tz.

(** [date.setHours(hh, mm, ss, ms)]: same local calendar day, new time. *)
Definition setHours (t hh mm ss ms : Z) : Z :=
  Date_of_fields (getFullYear t) (getMonth t) (getDate t) hh mm ss ms.

(** The first and the last millisecond of the local day of [t]. *)
Definition start_of_local_day (t : Z) : Z := local_day t * ms_per_day - tz.
Definition end_of_local_day (t : Z) : Z := start_of_local_day t + ms_per_day - 1.
End Local.

(** Decimal digits and zero padding, as date-fns' [format] prints them. *)
Definition digit (n : Z) : ascii := ascii_of_nat (48 + Z.to_nat (n mod 10)).

Definition pad2 (n : Z) : string :=
  String (digit (n / 10)) (String (digit n) EmptyString).

Definition pad4 (n : Z) : string :=
  String (digit (n / 1000)) (String (digit (n / 100)) (pad2 n)).

(** [format(d, 'yyyy-MM-dd')], [format(d, 'dd/MM')] and
    [format(d, 'yyyy-MM-dd HH:mm:ss')], all in local time. *)
Definition format_yyyy_MM_dd (tz t : Z) : string :=
  pad4 (getFullYear tz t) +:+ "-" +:+ pad2 (getMonth tz t + 1) +:+ "-"
  +:+ pad2 (getDate tz t).

Definition format_dd_MM (tz t : Z) : string :=
  pad2 (getDate tz t) +:+ "/" +:+ pad2 (getMonth tz t + 1).

Definition format_HH_mm_ss (tz t : Z) : string :=
  pad2 (getHours tz t) +:+ ":" +:+ pad2 (getMinutes tz t) +:+ ":"
  +:+ pad2 (getSeconds tz t).

Definition format_timestamp (tz t : Z) : string :=
  format_yyyy_MM_dd tz t +:+ " " +:+ format_HH_mm_ss tz t.

End Time.

(* ===================================================================== *)
(** * JavaScript numbers and their comparisons                            *)
(* ===================================================================== *)

Module Num.

(** The result of [Number(x)]: [None] is NaN. *)
Definition number : Type := option Q.

Definition Qltb (a b : Q) : bool := negb (Qle_bool b a).

(** [a < b] and [a > b] on numbers: every comparison with NaN is false. *)
Definition lt (a : number) (b : Q) : bool :=
  match a with Some x => Qltb x b | None => false end.

Definition gt (a : number) (b : Q) : bool :=
  match a with Some x => Qltb b x | None => false end.

(** The closed interval test [lo <= x <= hi]. *)
Definition within (lo hi x : Q) : bool := Qle_bool lo x && Qle_bool x hi.

End Num.

(* ===================================================================== *)
(** * Binary64 arithmetic                                                 *)
(* ===================================================================== *)

Module Double.
Import Time.

(** A JavaScript number: a finite one is held as the rational it denotes.
    The two zeros are not told apart: they are equal in every comparison
    and print alike once charted, and the program divides by no zero. *)
Inductive double : Type :=
| Finite (q : Q)
| Infinity (negative : bool)
| NaN.

Definition pow2 (e : Z) : Q := ((2 # 1) ^ e)%Q.

(** The binade of a [q] other than zero: the [e] with
    [2^e <= |q| < 2^(e+1)]. *)
Definition mag (q : Q) : Z :=
  let l := Z.log2 (Z.abs (Qnum q)) - Z.log2 (Z.pos (Qden q)) in
  if Qle_bool (pow2 l) (Qabs q) then l else l - 1.

(** Rounding to the nearest integer, to the even one on a tie. *)
Definition round_ties_even (s : Q) : Z :=
  let f := Qfloor s in
  match (s - inject_Z f ?= 1 # 2)%Q with
  | Lt => f
  | Gt => f + 1
  | Eq => if Z.even f then f else f + 1
  end.

(** The exponent of the last bit of the doubles next to [q]: 53 bits of
    precision, and [2^-1074] the least positive double. *)
Definition ulp_exponent (q : Q) : Z := Z.max (mag q - 52) (-1074).

(** The double nearest to [q], the one with an even last bit on a tie, as
    if the exponent had no upper bound. *)
Definition nearest (q : Q) : Q :=
  let e := ulp_exponent q in
  Qred (inject_Z (round_ties_even (q / pow2 e)) * pow2 e).

Definition negative (q : Q) : bool := negb (Qle_bool (0 # 1)%Q q).

(** The number that the rational [q] rounds to: the nearest double, or an
    infinity when that is [2^1024] or beyond.  It is [q] itself when [q] is
    a double; a number written as a decimal, such as the 22.4 of a reading,
    stands for the double nearest to it. *)
Definition of_Q (q : Q) : double :=
  let r := nearest q in
  if Qle_bool (pow2 1024) (Qabs r) then Infinity (negative r) else Finite r.

(** [a + b] *)
Definition add (a b : double) : double :=
  match a, b with
  | Finite x, Finite y => of_Q (x + y)%Q
  | Finite _, Infinity s => Infinity s
  | Infinity s, Finite _ => Infinity s
  | Infinity s, Infinity s' => if Bool.eqb s s' then Infinity s else NaN
  | NaN, _ => NaN
  | _, NaN => NaN
  end.

(** [a / b]; a divisor that is zero is taken as the positive zero. *)
Definition div (a b : double) : double :=
  match a, b with
  | Finite x, Finite y =>
      if Qeq_bool y (0 # 1)%Q
      then if Qeq_bool x (0 # 1)%Q then NaN else Infinity (negative x)
      else of_Q (x / y)%Q
  | Finite _, Infinity _ => Finite (0 # 1)%Q
  | Infinity s, Finite y => Infinity (xorb s (negative y))
  | Infinity _, Infinity _ => NaN
  | NaN, _ => NaN
  | _, NaN => NaN
  end.

(** The length of an array, as a number. *)
Definition of_nat (n : nat) : double := of_Q (inject_Z (Z.of_nat n)).

(** ** [String(x)]

    The text of a number is the shortest decimal that reads back as the
    same double; it is written in full when its decimal exponent lies
    between -6 and 21, and with an exponent part otherwise. *)

Definition pow10 (n : Z) : Q := ((10 # 1) ^ n)%Q.

(** The decimal exponent of a positive [q]: the [n] with
    [10^(n-1) <= q < 10^n], looked for upwards from 1 or downwards from 0. *)
Fixpoint exponent_up (fuel : nat) (q : Q) (n : Z) : Z :=
  match fuel with
  | O => n
  | S fuel' => if Qle_bool (pow10 n) q then exponent_up fuel' q (n + 1) else n
  end.

Fixpoint exponent_down (fuel : nat) (q : Q) (n : Z) : Z :=
  match fuel with
  | O => n
  | S fuel' =>
      if Qle_bool (pow10 (n - 1)) q then n else exponent_down fuel' q (n - 1)
  end.

Definition decimal_exponent (q : Q) : Z :=
  if Qle_bool (1 # 1)%Q q then exponent_up 400 q 1 else exponent_down 400 q 0.

(** The digits of the shortest decimal that reads back as the positive
    double [x]: the least [k] for which a decimal [s * 10^(n-k)] of [k]
    digits rounds to [x], and of the decimals of [k] digits that do, the
    one nearest to [x].  Only the two decimals of [k] digits next to [x]
    need to be tried.  The result is [(s, k, n)]. *)
Fixpoint shortest (fuel : nat) (k : nat) (x : Q) (n : Z) : Z * nat * Z :=
  let scale := pow10 (n - Z.of_nat k) in
  let lo := Qfloor (x / scale) in
  let hi := lo + 1 in
  match fuel with
  | O => (lo, k, n)
  | S fuel' =>
      let below := (x - inject_Z lo * scale)%Q in
      let above := (inject_Z hi * scale - x)%Q in
      let ok_lo := Qeq_bool (nearest (inject_Z lo * scale)) x in
      let ok_hi := Qeq_bool (nearest (inject_Z hi * scale)) x in
      let prefer_lo :=
        match (below ?= above)%Q with
        | Lt => true
        | Gt => false
        | Eq => Z.even lo
        end in
      if ok_lo && (negb ok_hi || prefer_lo) then (lo, k, n)
      else if ok_hi
      then if hi =? 10 ^ Z.of_nat k then (1, 1%nat, n + 1) else (hi, k, n)
      else shortest fuel' (S k) x n
  end.

(** The last [w] decimal digits of [v]. *)
Fixpoint digits (w : nat) (v : Z) : string :=
  match w with
  | O => EmptyString
  | S w' => String (digit (v / 10 ^ Z.of_nat w')) (digits w' v)
  end.

Fixpoint zeros (n : nat) : string :=
  match n with
  | O => EmptyString
  | S n' => String "0" (zeros n')
  end.

(** The text of the decimal [s * 10^(n-k)], [s] of [k] digits. *)
Definition decimal_text (s : Z) (k : nat) (n : Z) : string :=
  let kz := Z.of_nat k in
  if (kz <=? n) && (n <=? 21)
  then digits k s +:+ zeros (Z.to_nat (n - kz))
  else if (0 <? n) && (n <=? 21)
  then digits (Z.to_nat n) (s / 10 ^ (kz - n))
       +:+ "." +:+ digits (Z.to_nat (kz - n)) s
  else if (-6 <? n) && (n <=? 0)
  then "0." +:+ zeros (Z.to_nat (- n)) +:+ digits k s
  else (match k with
        | 1%nat => digits 1 s
        | _ => digits 1 (s / 10 ^ (kz - 1)) +:+ "." +:+ digits (k - 1) s
        end)
       +:+ "e" +:+ (if n - 1 <? 0 then "-" else "+") +:+ pretty (Z.abs (n - 1)).

Definition toString (x : double) : string :=
  match x with
  | NaN => "NaN"
  | Infinity false => "Infinity"
  | Infinity true => "-Infinity"
  | Finite q =>
      if Qeq_bool q (0 # 1)%Q then "0"
      else
        let '(s, k, n) := shortest 17 1 (Qabs q) (decimal_exponent (Qabs q)) in
        (if negative q then "-" else "") +:+ decimal_text s k n
  end.

(** The values of the format, the range of the exponent left open above:
    an integer of at most 53 bits times a power of two not below
    [2^-1074]. *)
Definition representable (x : Q) : Prop :=
  exists k e, -1074 <= e /\ Z.abs k <= 2 ^ 53 /\ (x == inject_Z k * pow2 e)%Q.

End Double.

(* ===================================================================== *)
(** * Documents of the store                                              *)
(* ===================================================================== *)

(** The three shifts: ['Manhã' | 'Tarde' | 'Noite']. *)
Inductive Turno : Type := Manha | Tarde | Noite.

#[global] Instance Turno_eq_dec : EqDecision Turno.
Proof. solve_decision. Defined.

Definition Turno_str (t : Turno) : string :=
  match t with
  | Manha => "Manhã"
  | Tarde => "Tarde"
  | Noite => "Noite"
  end.

(** A document of the [sectors] collection, with its id ([s_id]). *)
Record Sector : Type := mkSector {
  s_id : string;
  name : string;
  temp_min : Q;
  temp_max : Q;
  humidity_min : Q;
  humidity_max : Q;
  admin_uid : string
}.

(** A document of the [records] collection (a reading).  Its id is the key
    under which the collection holds it. *)
Record RecordDoc : Type := mkRecord {
  temperature : Q;
  humidity : Q;
  turno : Turno;
  observation : string;
  sector_id : string;
  timestamp : Z;
  is_temp_ok : bool;
  is_humidity_ok : bool;
  rec_admin_uid : string
}.

(** The remote database: two collections. *)
Record Db : Type := mkDb {
  sectors : gmap string Sector;
  records : gmap string RecordDoc
}.

(* ===================================================================== *)
(** * The reading submission page ([RecordPage])                          *)
(* ===================================================================== *)

Module Submission.
Import Time Num.

(** What a numeric form field can hold at run time: [undefined], the empty
    string of an untouched or cleared input, a text that [Number] reads as
    the number [q], or a text that [Number] reads as NaN. *)
Inductive FieldValue : Type :=
| FUndefined
| FEmpty
| FNumeric (q : Q)
| FOther.

(** [Number(v)]: [Number(undefined)] is NaN and [Number('')] is [0]. *)
Definition Number (v : FieldValue) : number :=
  match v with
  | FUndefined => None
  | FEmpty => Some (0 # 1)%Q
  | FNumeric q => Some q
  | FOther => None
  end.

(** The raw state of the form, as [form.watch] shows it. *)
Record FormState : Type := mkForm {
  f_temperature : FieldValue;
  f_humidity : FieldValue;
  f_turno : option Turno;
  f_observation : option string
}.

(** The values [formSchema] hands to [onSubmit]. *)
Record Values : Type := mkValues {
  v_temperature : Q;
  v_humidity : Q;
  v_turno : Turno;
  v_observation : option string
}.

(** [z.coerce.number()]: [Number(input)], rejected when the result is NaN. *)
Definition coerce_number (v : FieldValue) : option Q := Number v.

(** [s.length], the number of UTF-16 code units of a text.  A text is held
    as its UTF-8 bytes: the first byte of a character counts once, or twice
    when it opens a character of four bytes (one beyond the basic plane,
    which UTF-16 writes as a pair of surrogates); the bytes that continue a
    character do not count. *)
Definition code_units (c : ascii) : nat :=
  let b := nat_of_ascii c in
  if (b <? 128)%nat then 1%nat
  else if (b <? 192)%nat then 0%nat
  else if (b <? 240)%nat then 1%nat
  else 2%nat.

Fixpoint length_utf16 (s : string) : nat :=
  match s with
  | EmptyString => 0%nat
  | String c rest => (code_units c + length_utf16 rest)%nat
  end.

(** [formSchema]: [None] is a validation error, shown next to the field
    before any call to the store. *)
Definition formSchema (f : FormState) : option Values :=
  match coerce_number (f_temperature f), coerce_number (f_humidity f), f_turno f with
  | Some t, Some h, Some s =>
      if within (0 # 1)%Q (100 # 1)%Q h
         && (match f_observation f with
             | Some o => Nat.leb (length_utf16 o) 500
             | None => true
             end)
      then Some (mkValues t h s (f_observation f))
      else None
  | _, _, _ => None
  end.

(** A JavaScript value that the [&&] chains of [isTempOutOfRange] and
    [isHumidityOutOfRange] can produce: [null] (no sector loaded) or a
    boolean. *)
Inductive Flag : Type :=
| JNull
| JBool (b : bool).

Definition truthy (x : Flag) : bool :=
  match x with JNull => false | JBool b => b end.

(** [!x] *)
Definition not_ (x : Flag) : bool := negb (truthy x).

(** [sector && v !== undefined && v !== '' && (Number(v) < lo || Number(v) > hi)] *)
Definition out_of_range (sector : option Sector) (lo hi : Sector -> Q)
    (v : FieldValue) : Flag :=
  match sector with
  | None => JNull
  | Some s =>
      match v with
      | FUndefined => JBool false
      | FEmpty => JBool false
      | _ => JBool (lt (Number v) (lo s) || gt (Number v) (hi s))
      end
  end.

Definition isTempOutOfRange (sector : option Sector) (f : FormState) : Flag :=
  out_of_range sector temp_min temp_max (f_temperature f).

Definition isHumidityOutOfRange (sector : option Sector) (f : FormState) : Flag :=
  out_of_range sector humidity_min humidity_max (f_humidity f).

(** What the environment contributes to one submission: the device clock
    and time zone, the server clock that [serverTimestamp()] resolves to,
    the id [addDoc] generates, and whether the two store calls succeed. *)
Record Env : Type := mkEnv {
  now : Z;
  tz : Z;
  server_time : Z;
  new_id : string;
  getDocs_ok : bool;
  addDoc_ok : bool
}.

(** The toast [onSubmit] ends with ([NoSector]: it returned at once). *)
Inductive Outcome : Type :=
| NoSector
| DuplicateShift     (* 'Registro Duplicado' *)
| Saved              (* 'Sucesso!' *)
| SubmitFailed.      (* 'Falha no Envio' *)

(** The day window of the duplicate check:
    [new Date(y, m, d, 0, 0, 0)] and [new Date(y, m, d, 23, 59, 59)]. *)
Definition startOfDay (e : Env) : Z :=
  Date_of_fields (tz e) (getFullYear (tz e) (now e)) (getMonth (tz e) (now e))
    (getDate (tz e) (now e)) 0 0 0 0.

Definition endOfDay (e : Env) : Z :=
  Date_of_fields (tz e) (getFullYear (tz e) (now e)) (getMonth (tz e) (now e))
    (getDate (tz e) (now e)) 23 59 59 0.

(** The filter of the query [q]: same sector, same shift, timestamp within
    the window. *)
Definition matches (sid : string) (s : Turno) (lo hi : Z) (r : RecordDoc) : bool :=
  bool_decide (sector_id r = sid) && bool_decide (turno r = s)
  && (lo <=? timestamp r) && (timestamp r <=? hi).

(** [getDocs(q)]: the documents of [records] that pass the filter. *)
Definition duplicateQuery (e : Env) (sector : Sector) (values : Values)
    (recs : gmap string RecordDoc) : gmap string RecordDoc :=
  filter (fun kv => matches (s_id sector) (v_turno values) (startOfDay e) (endOfDay e)
                      (snd kv) = true) recs.

(** [querySnapshot.empty] *)
Definition snapshot_empty (snap : gmap string RecordDoc) : bool :=
  Nat.eqb (size snap) 0.

(** [values.observation || ''] *)
Definition observation_or_empty (o : option string) : string :=
  match o with Some s => s | None => "" end.

(** [dataToSave] *)
Definition dataToSave (e : Env) (sector : Sector) (f : FormState)
    (values : Values) : RecordDoc :=
  {| temperature := v_temperature values;
     humidity := v_humidity values;
     turno := v_turno values;
     observation := observation_or_empty (v_observation values);
     sector_id := s_id sector;
     timestamp := server_time e;
     is_temp_ok := not_ (isTempOutOfRange (Some sector) f);
     is_humidity_ok := not_ (isHumidityOutOfRange (Some sector) f);
     rec_admin_uid := admin_uid sector |}.

(** [onSubmit(values)], run in the render that saw the form state [f] and the
    loaded [sector]: the toast shown and the [records] collection left
    behind. *)
Definition onSubmit (e : Env) (sector : option Sector) (f : FormState)
    (values : Values) (recs : gmap string RecordDoc)
    : Outcome * gmap string RecordDoc :=
  match sector with
  | None => (NoSector, recs)
  | Some s =>
      if negb (getDocs_ok e) then (SubmitFailed, recs)
      else if negb (snapshot_empty (duplicateQuery e s values recs))
      then (DuplicateShift, recs)
      else if negb (addDoc_ok e) then (SubmitFailed, recs)
      else (Saved, <[new_id e := dataToSave e s f values]> recs)
  end.

(** [form.handleSubmit(onSubmit)]: validate, and submit what validation
    produced.  [None]: validation failed and [onSubmit] did not run. *)
Definition handleSubmit (e : Env) (sector : option Sector) (f : FormState)
    (recs : gmap string RecordDoc) : option (Outcome * gmap string RecordDoc) :=
  match formSchema f with
  | Some values => Some (onSubmit e sector f values recs)
  | None => None
  end.

End Submission.

(* ===================================================================== *)
(** * JavaScript arrays: [sort] and [join]                                *)
(* ===================================================================== *)

Module JSArray.

Section Sort.
Context {A : Type}.
(** The comparator of [Array.prototype.sort]: negative, zero or positive. *)
Variable cmp : A -> A -> Z.

Fixpoint insert_by (x : A) (l : list A) : list A :=
  match l with
  | [] => [x]
  | h :: t => if cmp x h <=? 0 then x :: h :: t else h :: insert_by x t
  end.

(** [l.sort(cmp)].  The sort is stable: of two elements the comparator
    does not separate, the one that came first stays first. *)
Definition sort_by (l : list A) : list A := foldr insert_by [] l.
End Sort.

(** [l.join(sep)] on an array of strings. *)
Fixpoint join (sep : string) (l : list string) : string :=
  match l with
  | [] => ""
  | [x] => x
  | x :: rest => x +:+ sep +:+ join sep rest
  end.

End JSArray.

(* ===================================================================== *)
(** * The dashboard ([DashboardPage])                                     *)
(* ===================================================================== *)

Module Dashboard.
Import Time.

(** The object [{ 'Manhã': _, 'Tarde': _, 'Noite': _ }]. *)
Record Shifts : Type := mkShifts {
  sh_Manha : bool;
  sh_Tarde : bool;
  sh_Noite : bool
}.

Definition all_false : Shifts := mkShifts false false false.

(** [shifts[t]] *)
Definition get_shift (t : Turno) (s : Shifts) : bool :=
  match t with
  | Manha => sh_Manha s
  | Tarde => sh_Tarde s
  | Noite => sh_Noite s
  end.

(** [shifts[t] = true] *)
Definition set_shift (t : Turno) (s : Shifts) : Shifts :=
  match t with
  | Manha => mkShifts true (sh_Tarde s) (sh_Noite s)
  | Tarde => mkShifts (sh_Manha s) true (sh_Noite s)
  | Noite => mkShifts (sh_Manha s) (sh_Tarde s) true
  end.

(** An entry of [SectorStatus]. *)
Record StatusEntry : Type := mkEntry {
  st_name : string;
  shifts : Shifts
}.

(** [initialStatus]: every sector with its three shifts false. *)
Definition initialStatus (sectorsData : list Sector) : gmap string StatusEntry :=
  foldl (fun st sector => <[s_id sector := mkEntry (name sector) all_false]> st)
        ∅ sectorsData.

(** Today's window: [today.setHours(0, 0, 0, 0)], then
    [today.setHours(23, 59, 59, 999)] on the same (already mutated) date. *)
Definition startOfDay (tz now : Z) : Z := setHours tz now 0 0 0 0.
Definition endOfDay (tz now : Z) : Z := setHours tz (startOfDay tz now) 23 59 59 999.

Definition in_window (lo hi : Z) (r : RecordDoc) : bool :=
  (lo <=? timestamp r) && (timestamp r <=? hi).

(** The documents a snapshot of [qRecords] holds for [sector]. *)
Definition recordsSnapshot (tz now : Z) (sector : Sector)
    (recs : gmap string RecordDoc) : list RecordDoc :=
  snd <$> map_to_list
    (filter (fun kv => sector_id (snd kv) = s_id sector
                       ∧ in_window (startOfDay tz now) (endOfDay tz now) (snd kv) = true)
            recs).

(** [newStatus[k].shifts = ...], guarded by [if (newStatus[k])]: [alter]
    leaves a map without the key as it is. *)
Definition reset_shifts (e : StatusEntry) : StatusEntry :=
  mkEntry (st_name e) all_false.

Definition mark_shift (t : Turno) (e : StatusEntry) : StatusEntry :=
  mkEntry (st_name e) (set_shift t (shifts e)).

(** The state update a snapshot of [sector]'s records of today triggers. *)
Definition onRecordsSnapshot (sector : Sector) (docs : list RecordDoc)
    (prevStatus : gmap string StatusEntry) : gmap string StatusEntry :=
  let newStatus := alter reset_shifts (s_id sector) prevStatus in
  foldl (fun st record => alter (mark_shift (turno record)) (sector_id record) st)
        newStatus docs.

(** The status after the snapshots of the sectors in [delivered] arrived, in
    that order (a sector's listener may fire several times, listeners of
    different sectors fire in any order). *)
Definition sectorsStatus (tz now : Z) (sectorsData : list Sector)
    (recs : gmap string RecordDoc) (delivered : list Sector)
    : gmap string StatusEntry :=
  foldl (fun st sector => onRecordsSnapshot sector (recordsSnapshot tz now sector recs) st)
        (initialStatus sectorsData) delivered.

(** The faults of the store during one [deleteSector]. *)
Record Faults : Type := mkFaults {
  getDocs_fails : bool;
  deleteRecord_fails : string -> bool;
  deleteSectorDoc_fails : bool
}.

Inductive DeleteOutcome : Type :=
| Deleted          (* 'Setor e todos os seus registros foram deletados.' *)
| DeleteFailed.    (* 'Erro ao deletar setor' *)

(** The ids of the documents [getDocs(recordsQuery)] returns. *)
Definition recordsOfSector (sectorId : string) (recs : gmap string RecordDoc)
    : list string :=
  fst <$> map_to_list (filter (fun kv => sector_id (snd kv) = sectorId) recs).

(** [deleteSector(sectorId)].  Every [deleteDoc] of a record is started
    before [Promise.all] is awaited, so the deletions that succeed take
    effect even when another one fails; the sector document is deleted only
    after all of them succeeded. *)
Definition deleteSector (fl : Faults) (sectorId : string) (db : Db)
    : DeleteOutcome * Db :=
  if getDocs_fails fl then (DeleteFailed, db)
  else
    let ids := recordsOfSector sectorId (records db) in
    let recs' :=
      foldl (fun m k => if deleteRecord_fails fl k then m else delete k m)
            (records db) ids in
    if existsb (deleteRecord_fails fl) ids then (DeleteFailed, mkDb (sectors db) recs')
    else if deleteSectorDoc_fails fl then (DeleteFailed, mkDb (sectors db) recs')
    else (Deleted, mkDb (delete sectorId (sectors db)) recs').

End Dashboard.

(* ===================================================================== *)
(** * The history chart ([HistoryPage])                                   *)
(* ===================================================================== *)

Module History.
Import Time JSArray Double.

(** A value of [groupedByDay]. *)
Record Group : Type := mkGroup {
  temps : list double;
  humids : list double
}.

(** A point of the chart. *)
Record Point : Type := mkPoint {
  date : string;
  Temperatura : double;
  Umidade : double
}.

(** [record.temperature] and [record.humidity], the numbers of a stored
    reading. *)
Definition temperature_of (r : RecordDoc) : double := of_Q (temperature r).
Definition humidity_of (r : RecordDoc) : double := of_Q (humidity r).

(** [groupedByDay] is an object with string keys: [Object.entries] lists
    them in the order they were first assigned. *)
Fixpoint push_reading (day : string) (t h : double) (g : list (string * Group))
    : list (string * Group) :=
  match g with
  | [] => [(day, mkGroup [t] [h])]
  | (k, v) :: rest =>
      if String.eqb k day
      then (k, mkGroup (temps v ++ [t]) (humids v ++ [h])) :: rest
      else (k, v) :: push_reading day t h rest
  end.

Definition groupedByDay (tz : Z) (recs : list RecordDoc) : list (string * Group) :=
  foldl (fun g record =>
           push_reading (format_yyyy_MM_dd tz (timestamp record))
                        (temperature_of record) (humidity_of record) g)
        [] recs.

(** [l.reduce((a, b) => a + b, 0) / l.length]: every sum and the quotient
    are rounded to a double. *)
Definition sum (l : list double) : double := foldl add (Finite (0 # 1)%Q) l.
Definition average (l : list double) : double := div (sum l) (of_nat (length l)).

(** [x.toFixed(1)] for a finite [x] of magnitude below [10^21], as the
    number of tenths its digits spell: the integer [n] with [n / 10]
    nearest to the exact value of [x], the larger one on a tie; a negative
    [x] is printed as the sign followed by [(-x).toFixed(1)]. *)
Definition toFixed_1 (x : Q) : Z :=
  if Qle_bool (0 # 1)%Q x
  then Qfloor (x * (10 # 1) + (1 # 2))%Q
  else - Qfloor ((- x) * (10 # 1) + (1 # 2))%Q.

(** [parseFloat] of such a numeral: the double nearest to it. *)
Definition parseFloat_tenths (n : Z) : double := of_Q (n # 10).

(** [parseFloat(x.toFixed(1))].  [toFixed] writes a number of magnitude
    [10^21] or more, an infinity and NaN the way [String] does, and
    [parseFloat] reads these back as they were. *)
Definition round1 (x : double) : double :=
  match x with
  | Finite q =>
      if Qle_bool (inject_Z (10 ^ 21)) (Qabs q) then x
      else parseFloat_tenths (toFixed_1 q)
  | Infinity _ => x
  | NaN => x
  end.

(** Reading a decimal digit. *)
Definition digit_value (c : ascii) : option Z :=
  let n := Z.of_nat (nat_of_ascii c) in
  if (48 <=? n) && (n <=? 57) then Some (n - 48) else None.

(** [new Date(day)] for a date-only text [yyyy-MM-dd]: midnight of that date
    in UTC.  [None]: an invalid date, on which [format] throws. *)
Definition Date_parse (day : string) : option Z :=
  match day with
  | String y3 (String y2 (String y1 (String y0 (String "-"%char
      (String m1 (String m0 (String "-"%char
        (String d1 (String d0 EmptyString))))))))) =>
      match digit_value y3, digit_value y2, digit_value y1, digit_value y0,
            digit_value m1, digit_value m0, digit_value d1, digit_value d0 with
      | Some a, Some b, Some c, Some d, Some e, Some f, Some g, Some h =>
          let m := e * 10 + f in
          let dd := g * 10 + h in
          if (1 <=? m) && (m <=? 12) && (1 <=? dd) && (dd <=? 31)
          then Some (days_from_civil (a * 1000 + b * 100 + c * 10 + d) m dd
                     * ms_per_day)
          else None
      | _, _, _, _, _, _, _, _ => None
      end
  | _ => None
  end.

(** The callback of [Object.entries(groupedByDay).map]. *)
Definition point_of (tz : Z) (entry : string * Group) : option Point :=
  match Date_parse (fst entry) with
  | Some t =>
      Some (mkPoint (format_dd_MM tz t)
                    (round1 (average (temps (snd entry))))
                    (round1 (average (humids (snd entry)))))
  | None => None
  end.

(** [a.localeCompare(b)] on labels [dd/MM]: on texts of digits with the
    separator at the same place, the order of the characters. *)
Definition localeCompare (a b : string) : Z :=
  match String.compare a b with
  | Lt => -1
  | Eq => 0
  | Gt => 1
  end.

Definition by_date (a b : Point) : Z := localeCompare (date a) (date b).

(** [chartData].  [None]: [format] threw on an invalid date. *)
Definition chartData (tz : Z) (recs : list RecordDoc) : option (list Point) :=
  match recs with
  | [] => Some []
  | _ => sort_by by_date <$> mapM (point_of tz) (groupedByDay tz recs)
  end.

(** The chart, day by day.  A day is the number of a local calendar day.
    [daily_point] is the point the code makes of the readings of a day: the
    means are computed as [point_of] computes them, and the label is the
    one [point_of] prints, the local date of midnight UTC of the day.  That
    is the date of the day itself only on a device on or east of UTC. *)
Definition day_of_reading (tz : Z) (r : RecordDoc) : Z := local_day tz (timestamp r).

Definition readings_of_day (tz d : Z) (recs : list RecordDoc) : list RecordDoc :=
  filter (fun r => day_of_reading tz r = d) recs.

(** The distinct elements of a list, in the order of their first
    occurrence. *)
Definition first_occurrences {A : Type} `{EqDecision A} (l : list A) : list A :=
  foldl (fun acc x => if decide (x ∈ acc) then acc else acc ++ [x]) [] l.

Definition days_with_readings (tz : Z) (recs : list RecordDoc) : list Z :=
  first_occurrences (day_of_reading tz <$> recs).

Definition daily_point (tz : Z) (recs : list RecordDoc) (d : Z) : Point :=
  mkPoint (format_dd_MM tz (d * ms_per_day))
          (round1 (average (temperature_of <$> readings_of_day tz d recs)))
          (round1 (average (humidity_of <$> readings_of_day tz d recs))).

Definition daily_means (tz : Z) (recs : list RecordDoc) : list Point :=
  daily_point tz recs <$> days_with_readings tz recs.

(** The arithmetic mean as the specification words it, on the rationals:
    the sum of the numbers over their count, with no rounding. *)
Definition exact_mean (l : list Q) : Q :=
  (foldr Qplus (0 # 1) l / inject_Z (Z.of_nat (length l)))%Q.

(** The group of a day and the key [yyyy-MM-dd] of a day, for comparison
    with [groupedByDay]. *)
Definition group_of_day (tz : Z) (recs : list RecordDoc) (d : Z) : Group :=
  mkGroup (temperature_of <$> readings_of_day tz d recs)
          (humidity_of <$> readings_of_day tz d recs).

Definition key_of_day (d : Z) : string :=
  let '(y, m, dd) := civil_from_days d in
  pad4 y +:+ "-" +:+ pad2 m +:+ "-" +:+ pad2 dd.

(** The timestamps whose local date has a year of four digits, 0000 to
    9999: the dates that [yyyy-MM-dd] prints and [new Date] reads back. *)
Definition four_digit_year (tz t : Z) : Prop :=
  -719528 <= local_day tz t <= 2932896.

End History.

(* ===================================================================== *)
(** * The CSV export of the records dialog ([ViewRecordsDialog])          *)
(* ===================================================================== *)

Module Csv.
Import Time JSArray.

(** The quotation mark. *)
Definition dquote : ascii := ascii_of_nat 34.

Definition headers : list string :=
  ["Horário"; "Turno"; "Temperatura (°C)"; "Temp OK"; "Umidade (%)";
   "Umidade OK"; "Observações"].

(** The [replace] of the observation cell: every quotation mark of the text
    is written twice. *)
Fixpoint double_quotes (s : string) : string :=
  match s with
  | EmptyString => EmptyString
  | String c rest =>
      if Ascii.eqb c dquote
      then String dquote (String dquote (double_quotes rest))
      else String c (double_quotes rest)
  end.


(** The template that wraps the observation in quotation marks. *)
Definition quoted (s : string) : string :=
  String dquote (double_quotes s +:+ String dquote EmptyString).

(** [String(x)] for the number of a reading. *)
Definition Number_toString (x : Q) : string := Double.toString (Double.of_Q x).

Definition Boolean_toString (b : bool) : string :=
  if b then "true" else "false".

(** The comparator [a.timestamp.toDate().getTime() - b.timestamp.toDate().getTime()]. *)
Definition by_time (a b : RecordDoc) : Z := timestamp a - timestamp b.

(** The seven cells of a row, in the order of the array literal. *)
Definition cells (tz : Z) (r : RecordDoc) : list string :=
  [ format_timestamp tz (timestamp r);
    Turno_str (turno r);
    Number_toString (temperature r);
    Boolean_toString (is_temp_ok r);
    Number_toString (humidity r);
    Boolean_toString (is_humidity_ok r);
    quoted (observation r) ].

Definition row (tz : Z) (r : RecordDoc) : string := join "," (cells tz r).

(** [rows] *)
Definition rows (tz : Z) (recs : list RecordDoc) : list string :=
  row tz <$> sort_by by_time recs.

(** [[headers.join(','), ...rows]] *)
Definition csvLines (tz : Z) (recs : list RecordDoc) : list string :=
  join "," headers :: rows tz recs.

(** [csvContent], the text handed to the browser for download. *)
Definition csvContent (tz : Z) (recs : list RecordDoc) : string :=
  "data:text/csv;charset=utf-8," +:+ join (String (ascii_of_nat 10) EmptyString)
                                          (csvLines tz recs).

End Csv.

(* ===================================================================== *)
(** * Sample data                                                         *)
(* ===================================================================== *)

(** Concrete sectors, readings and clocks, on which the operations are run
    in the examples below. *)
Module Samples.
Import Time Submission.

(** UTC-3, the offset of Brasília. *)
Definition brt : Z := -10800000.

Definition lab : Sector :=
  mkSector "sec1" "Lab" (18 # 1)%Q (25 # 1)%Q (40 # 1)%Q (60 # 1)%Q "admin1".

(** A reading of [lab] with both flags true. *)
Definition reading (t h : Q) (s : Turno) (o : string) (ts : Z) : RecordDoc :=
  mkRecord t h s o "sec1" ts true true "admin1".

(** 15 March 2024, local time [hh:mm:ss.ms] in [brt]. *)
Definition mar15 (hh mm ss ms : Z) : Z := Date_of_fields brt 2024 2 15 hh mm ss ms.

(** A submission at 10:00 of a morning reading of 22 degrees and 50%. *)
Definition env_10h : Env :=
  mkEnv (mar15 10 0 0 0) brt (mar15 10 0 1 0) "new" true true.

Definition form_ok : FormState :=
  mkForm (FNumeric (22 # 1)%Q) (FNumeric (50 # 1)%Q) (Some Manha) None.

Definition values_ok : Values := mkValues (22 # 1)%Q (50 # 1)%Q Manha None.

(** The morning reading of [lab] already taken at 08:00. *)
Definition morning_8h : RecordDoc := reading (21 # 1)%Q (55 # 1)%Q Manha "" (mar15 8 0 0 0).

Definition one_morning : gmap string RecordDoc := {[ "r1" := morning_8h ]}.

(** A night reading taken half a second before the end of the day, and a
    second night submission three tenths of a second later. *)
Definition night_late : RecordDoc :=
  reading (21 # 1)%Q (55 # 1)%Q Noite "" (mar15 23 59 59 500).

Definition one_night : gmap string RecordDoc := {[ "r1" := night_late ]}.

Definition env_late : Env :=
  mkEnv (mar15 23 59 59 800) brt (mar15 23 59 59 900) "new" true true.

Definition form_night : FormState :=
  mkForm (FNumeric (22 # 1)%Q) (FNumeric (50 # 1)%Q) (Some Noite) None.

Definition values_night : Values := mkValues (22 # 1)%Q (50 # 1)%Q Noite None.

(** A form whose observation is 260 times the letter c with cedilla: 260
    UTF-16 code units, 520 bytes of UTF-8. *)
Fixpoint repeat_text (n : nat) (s : string) : string :=
  match n with
  | O => EmptyString
  | S n' => s +:+ repeat_text n' s
  end.

Definition accented : string := repeat_text 260 "ç".

Definition form_accented : FormState :=
  mkForm (FNumeric (22 # 1)%Q) (FNumeric (50 # 1)%Q) (Some Manha) (Some accented).

Definition values_accented : Values :=
  mkValues (22 # 1)%Q (50 # 1)%Q Manha (Some accented).

(** Forms with a field left empty. *)
Definition form_hot_no_humidity : FormState :=
  mkForm (FNumeric (30 # 1)%Q) FEmpty None None.

Definition form_untouched : FormState :=
  mkForm FEmpty FEmpty (Some Manha) None.



Definition R2 : RecordDoc :=
  mkRecord (61 # 2)%Q (40 # 1)%Q Tarde "" "sec1" (mar15 14 0 0 0)
           false true "admin1".




(** Readings of [lab] for the chart: three on 31 January 2024 and one on
    1 February 2024, on a device whose clock is on UTC. *)
Definition utc : Z := 0.

Definition jan31 (hh : Z) : Z := Date_of_fields utc 2024 0 31 hh 0 0 0.
Definition feb01 (hh : Z) : Z := Date_of_fields utc 2024 1 1 hh 0 0 0.

Definition mar15_utc (hh : Z) : Z := Date_of_fields utc 2024 2 15 hh 0 0 0.
Definition mar16_utc (hh : Z) : Z := Date_of_fields utc 2024 2 16 hh 0 0 0.

(** Three readings on 15 March 2024 and one on the 16th. *)
Definition march_readings : list RecordDoc :=
  [ reading (20 # 1)%Q (50 # 1)%Q Manha "" (mar15_utc 8);
    reading (22 # 1)%Q (52 # 1)%Q Tarde "" (mar15_utc 14);
    reading (24 # 1)%Q (54 # 1)%Q Noite "" (mar15_utc 22);
    reading (18 # 1)%Q (60 # 1)%Q Manha "" (mar16_utc 8) ].

(** The same readings taken in Brasília: three on 15 March 2024 and one on
    the 16th, local time. *)
Definition mar16 (hh mm ss ms : Z) : Z := Date_of_fields brt 2024 2 16 hh mm ss ms.

Definition march_readings_brt : list RecordDoc :=
  [ reading (20 # 1)%Q (50 # 1)%Q Manha "" (mar15 8 0 0 0);
    reading (22 # 1)%Q (52 # 1)%Q Tarde "" (mar15 14 0 0 0);
    reading (24 # 1)%Q (54 # 1)%Q Noite "" (mar15 22 0 0 0);
    reading (18 # 1)%Q (60 # 1)%Q Manha "" (mar16 8 0 0 0) ].

(** Two readings of 22.4 and 22.5 degrees on 15 March 2024. *)
Definition tie_readings : list RecordDoc :=
  [ reading (224 # 10)%Q (50 # 1)%Q Manha "" (mar15_utc 8);
    reading (225 # 10)%Q (50 # 1)%Q Tarde "" (mar15_utc 14) ].

Definition four_readings : list RecordDoc :=
  [ reading (20 # 1)%Q (50 # 1)%Q Manha "" (jan31 8);
    reading (22 # 1)%Q (52 # 1)%Q Tarde "" (jan31 14);
    reading (24 # 1)%Q (54 # 1)%Q Noite "" (jan31 22);
    reading (18 # 1)%Q (60 # 1)%Q Manha "" (feb01 8) ].

End Samples.

(* ===================================================================== *)
(** * Queries ordered by time                                             *)
(* ===================================================================== *)

Module Query.
Import JSArray.

(** The number a three-way comparison stands for. *)
Definition comparison_sign (c : comparison) : Z :=
  match c with
  | Lt => -1
  | Eq => 0
  | Gt => 1
  end.

(** The order of a snapshot with [orderBy('timestamp', 'asc')]: ascending
    timestamps, documents of equal timestamp in the order of their ids. *)
Definition by_time_then_id (a b : string * RecordDoc) : Z :=
  if timestamp (snd a) =? timestamp (snd b)
  then comparison_sign (String.compare (fst a) (fst b))
  else timestamp (snd a) - timestamp (snd b).

(** [snapshot.docs] of a query over [records] with a filter and
    [orderBy('timestamp', 'asc')], each document with its id. *)
Definition ordered_docs (P : RecordDoc -> bool) (recs : gmap string RecordDoc)
    : list (string * RecordDoc) :=
  sort_by by_time_then_id
    (map_to_list (filter (fun kv => P (snd kv) = true) recs)).

End Query.

(* ===================================================================== *)
(** * Loading the submission page ([fetchSectorAndRecords])               *)
(* ===================================================================== *)

Module RecordPageLoad.
Import Time Query.

(** [{ id: docSnap.id, ...docSnap.data() }] *)
Definition with_id (k : string) (s : Sector) : Sector :=
  mkSector k (name s) (temp_min s) (temp_max s) (humidity_min s)
           (humidity_max s) (admin_uid s).

(** How loading ends: [Loaded]: the sector was set; [NotFound]: the toast
    'Setor não encontrado.'; [LoadFailed]: the toast 'Falha ao buscar
    detalhes do setor.'.  In the last two cases the page shows 'Setor Não
    Encontrado'. *)
Inductive Load : Type :=
| Loaded (s : Sector)
| NotFound
| LoadFailed.

(** [getDoc(doc(db, 'sectors', sectorId))] and what follows it. *)
Definition fetchSector (getDoc_ok : bool) (sectorId : string) (db : Db) : Load :=
  if getDoc_ok
  then match sectors db !! sectorId with
       | Some s => Loaded (with_id sectorId s)
       | None => NotFound
       end
  else LoadFailed.

(** The [sector] state after loading. *)
Definition sector_state (l : Load) : option Sector :=
  match l with
  | Loaded s => Some s
  | _ => None
  end.

(** The filter of [recordsQuery]: the sector's readings from
    [today.setHours(0, 0, 0, 0)] to [today.setHours(23, 59, 59, 999)]. *)
Definition today_of_sector (tz now : Z) (sectorId : string) (r : RecordDoc) : bool :=
  bool_decide (sector_id r = sectorId)
  && Dashboard.in_window (Dashboard.startOfDay tz now) (Dashboard.endOfDay tz now) r.

(** [dailyRecords], the table 'Registros de Hoje'. *)
Definition dailyRecords (tz now : Z) (sectorId : string)
    (recs : gmap string RecordDoc) : list (string * RecordDoc) :=
  ordered_docs (today_of_sector tz now sectorId) recs.

End RecordPageLoad.

(* ===================================================================== *)
(** * The sector form of the dashboard                                    *)
(* ===================================================================== *)

Module SectorForm.
Import Num.

(** A document of [sectors] as the dashboard reads and writes it. *)
Record SectorDoc : Type := mkSectorDoc {
  d_name : string;
  d_location : string;
  d_responsible_name : string;
  d_temp_min : Q;
  d_temp_max : Q;
  d_humidity_min : Q;
  d_humidity_max : Q;
  d_admin_uid : string
}.

(** The sector the submission page sees in such a document. *)
Definition as_Sector (k : string) (d : SectorDoc) : Sector :=
  mkSector k (d_name d) (d_temp_min d) (d_temp_max d) (d_humidity_min d)
           (d_humidity_max d) (d_admin_uid d).

(** The raw state of the form. *)
Record FormState : Type := mkForm {
  f_name : string;
  f_location : string;
  f_responsible_name : string;
  f_temp_min : Submission.FieldValue;
  f_temp_max : Submission.FieldValue;
  f_humidity_min : Submission.FieldValue;
  f_humidity_max : Submission.FieldValue
}.

(** The values [sectorSchema] hands to [onSubmit]. *)
Record Values : Type := mkValues {
  v_name : string;
  v_location : string;
  v_responsible_name : string;
  v_temp_min : Q;
  v_temp_max : Q;
  v_humidity_min : Q;
  v_humidity_max : Q
}.

(** [z.string().min(1, _)] *)
Definition min1 (s : string) : bool := Nat.leb 1 (String.length s).

(** [sectorSchema]: the object schema, then the two refinements. *)
Definition sectorSchema (f : FormState) : option Values :=
  match Submission.coerce_number (f_temp_min f),
        Submission.coerce_number (f_temp_max f),
        Submission.coerce_number (f_humidity_min f),
        Submission.coerce_number (f_humidity_max f) with
  | Some tmin, Some tmax, Some hmin, Some hmax =>
      if min1 (f_name f) && min1 (f_location f) && min1 (f_responsible_name f)
         && within (0 # 1)%Q (100 # 1)%Q hmin
         && within (0 # 1)%Q (100 # 1)%Q hmax
         && Qltb tmin tmax      (* data.temp_max > data.temp_min *)
         && Qltb hmin hmax      (* data.humidity_max > data.humidity_min *)
      then Some (mkValues (f_name f) (f_location f) (f_responsible_name f)
                          tmin tmax hmin hmax)
      else None
  | _, _, _, _ => None
  end.

(** [defaultFormValues] *)
Definition defaultFormValues : FormState :=
  mkForm "" "" "" (Submission.FNumeric (18 # 1)%Q) (Submission.FNumeric (25 # 1)%Q)
         (Submission.FNumeric (40 # 1)%Q) (Submission.FNumeric (60 # 1)%Q).

(** [form.reset(sector)] *)
Definition form_of_sector (d : SectorDoc) : FormState :=
  mkForm (d_name d) (d_location d) (d_responsible_name d)
         (Submission.FNumeric (d_temp_min d)) (Submission.FNumeric (d_temp_max d))
         (Submission.FNumeric (d_humidity_min d))
         (Submission.FNumeric (d_humidity_max d)).

(** The state of the page the form handlers act on. *)
Record Page : Type := mkPage {
  editingSector : option string;   (* the id of the sector being edited *)
  form : FormState;
  isFormOpen : bool
}.

(** [handleFormOpenChange(open)] *)
Definition handleFormOpenChange (open : bool) (p : Page) : Page :=
  if open then mkPage (editingSector p) (form p) true
  else mkPage None defaultFormValues false.

(** [handleEditClick(sector)] *)
Definition handleEditClick (k : string) (d : SectorDoc) (p : Page) : Page :=
  mkPage (Some k) (form_of_sector d) true.

(** The signed-in user, the id [addDoc] generates and the outcome of the
    store call. *)
Record Env : Type := mkEnv {
  user : option string;
  new_id : string;
  store_ok : bool
}.

Inductive Outcome : Type :=
| NotSignedIn    (* 'Você precisa estar logado para realizar esta ação.' *)
| Updated        (* 'Setor atualizado com sucesso.' *)
| Added          (* 'Setor adicionado com sucesso.' *)
| Failed.        (* the toast 'Erro' with the store's message *)

(** [{ ...values, admin_uid: user.uid }] *)
Definition doc_of_values (v : Values) (uid : string) : SectorDoc :=
  mkSectorDoc (v_name v) (v_location v) (v_responsible_name v)
              (v_temp_min v) (v_temp_max v) (v_humidity_min v)
              (v_humidity_max v) uid.

(** [onSubmit(values)].  [updateDoc] writes every field of the document
    and fails on a document that does not exist.  After a success the form
    is reset and closed. *)
Definition onSubmit (e : Env) (values : Values) (p : Page)
    (secs : gmap string SectorDoc) : Outcome * Page * gmap string SectorDoc :=
  match user e with
  | None => (NotSignedIn, p, secs)
  | Some uid =>
      match editingSector p with
      | Some k =>
          match secs !! k with
          | Some _ =>
              if store_ok e
              then (Updated, handleFormOpenChange false p,
                    <[k := doc_of_values values uid]> secs)
              else (Failed, p, secs)
          | None => (Failed, p, secs)
          end
      | None =>
          if store_ok e
          then (Added, handleFormOpenChange false p,
                <[new_id e := doc_of_values values uid]> secs)
          else (Failed, p, secs)
      end
  end.

(** [form.handleSubmit(onSubmit)]: [None] when validation fails. *)
Definition handleSubmit (e : Env) (p : Page) (secs : gmap string SectorDoc)
    : option (Outcome * Page * gmap string SectorDoc) :=
  match sectorSchema (form p) with
  | Some values => Some (onSubmit e values p secs)
  | None => None
  end.

(** The invariant of a sector document that the form enforces. *)
Definition valid_sector (d : SectorDoc) : Prop :=
  (d_temp_min d < d_temp_max d)%Q
  /\ (d_humidity_min d < d_humidity_max d)%Q
  /\ (0 <= d_humidity_min d)%Q /\ (d_humidity_max d <= 100)%Q
  /\ d_name d <> "" /\ d_location d <> "" /\ d_responsible_name d <> "".

End SectorForm.

(* ===================================================================== *)
(** * The sectors of the dashboard                                        *)
(* ===================================================================== *)

Module DashboardQuery.

(** [sectorsData]: the documents of [qSectors], the sectors whose
    [admin_uid] is the user's; no user, no sectors. *)
Definition sectorsData (user : option string) (db : Db) : list Sector :=
  match user with
  | None => []
  | Some uid =>
      (fun kv => RecordPageLoad.with_id (fst kv) (snd kv))
        <$> map_to_list (filter (fun kv => admin_uid (snd kv) = uid) (sectors db))
  end.

End DashboardQuery.

(* ===================================================================== *)
(** * The records of the history page                                     *)
(* ===================================================================== *)

Module HistoryQuery.
Import Time Query.

Inductive Period : Type := week | month.

(** [period === 'week' ? 7 : 30] *)
Definition days (p : Period) : Z :=
  match p with
  | week => 7
  | month => 30
  end.

(** [getMilliseconds] *)
Definition getMilliseconds (tz t : Z) : Z := ms_of_day tz t mod ms_per_second.

(** date-fns' [subDays(date, n)]: the date of the month is set back by [n],
    the time of day stays. *)
Definition subDays (tz t n : Z) : Z :=
  Date_of_fields tz (getFullYear tz t) (getMonth tz t) (getDate tz t - n)
    (getHours tz t) (getMinutes tz t) (getSeconds tz t) (getMilliseconds tz t).

(** date-fns' [startOfDay(date)] *)
Definition startOfDay (tz t : Z) : Z := setHours tz t 0 0 0 0.

(** [startDate] *)
Definition startDate (tz now : Z) (p : Period) : Z :=
  startOfDay tz (subDays tz now (days p - 1)).

(** The filter of the query: the sector's readings from [startDate] on. *)
Definition since (tz now : Z) (p : Period) (sectorId : string) (r : RecordDoc) : bool :=
  bool_decide (sector_id r = sectorId) && (startDate tz now p <=? timestamp r).

(** [records] *)
Definition records (tz now : Z) (p : Period) (sectorId : string)
    (recs : gmap string RecordDoc) : list RecordDoc :=
  snd <$> ordered_docs (since tz now p sectorId) recs.

End HistoryQuery.

(* ===================================================================== *)
(** * The records dialog ([ViewRecordsDialog])                            *)
(* ===================================================================== *)

Module RecordsDialog.
Import Time Query.

(** The filter of the query: the sector's readings of the chosen day, from
    [setHours(0, 0, 0, 0)] to [setHours(23, 59, 59, 999)] of [date]. *)
Definition on_day (tz date : Z) (sectorId : string) (r : RecordDoc) : bool :=
  bool_decide (sector_id r = sectorId)
  && Dashboard.in_window (setHours tz date 0 0 0 0) (setHours tz date 23 59 59 999) r.

(** [records]: empty while the dialog is closed or no date is chosen. *)
Definition records (tz : Z) (isOpen : bool) (date : option Z) (sectorId : string)
    (recs : gmap string RecordDoc) : list RecordDoc :=
  match date with
  | Some d =>
      if isOpen then snd <$> ordered_docs (on_day tz d sectorId) recs else []
  | None => []
  end.


End RecordsDialog.

(* ===================================================================== *)
(** * Reading a row of the export back                                    *)
(* ===================================================================== *)

Module CsvReader.
Import Csv.

Definition comma : ascii := ascii_of_nat 44.

(** A character a reader of CSV takes as it is outside quotation marks. *)
Definition plain_char (c : ascii) : bool :=
  negb (Ascii.eqb c comma) && negb (Ascii.eqb c dquote).

Fixpoint plain (s : string) : bool :=
  match s with
  | EmptyString => true
  | String c rest => plain_char c && plain rest
  end.

(** Splitting a row into its cells the way a reader of CSV does: a comma
    outside quotation marks ends a cell; a quotation mark opens a quoted
    stretch, which runs to the next quotation mark that is not doubled, a
    doubled one standing for one mark.  [cur] is the cell read so far. *)
Fixpoint split_row (quoted : bool) (cur : string) (s : string) : list string :=
  match s with
  | EmptyString => [cur]
  | String c rest =>
      if quoted
      then if Ascii.eqb c dquote
           then match rest with
                | String c' rest' =>
                    if Ascii.eqb c' dquote
                    then split_row true (cur +:+ String dquote EmptyString) rest'
                    else if Ascii.eqb c' comma
                    then cur :: split_row false EmptyString rest'
                    else split_row false (cur +:+ String c' EmptyString) rest'
                | EmptyString => [cur]
                end
           else split_row true (cur +:+ String c EmptyString) rest
      else if Ascii.eqb c comma then cur :: split_row false EmptyString rest
      else if Ascii.eqb c dquote then split_row true cur rest
      else split_row false (cur +:+ String c EmptyString) rest
  end.

Definition read_row (s : string) : list string := split_row false EmptyString s.

End CsvReader.

(* ===================================================================== *)
(** * More sample data                                                    *)
(* ===================================================================== *)

Module Scenarios.

(** The document of the laboratory as the dashboard holds it, its owner
    signed in, and the form filled in for a second sector. *)
Definition lab_doc : SectorForm.SectorDoc :=
  SectorForm.mkSectorDoc "Lab" "Bloco A" "Ana" (18 # 1)%Q (25 # 1)%Q
                         (40 # 1)%Q (60 # 1)%Q "admin1".

Definition owner : SectorForm.Env := SectorForm.mkEnv (Some "admin1") "sec2" true.

Definition cold_room_form : SectorForm.FormState :=
  SectorForm.mkForm "Camara fria" "Bloco B" "Rui"
    (Submission.FNumeric (2 # 1)%Q) (Submission.FNumeric (8 # 1)%Q)
    (Submission.FNumeric (30 # 1)%Q) (Submission.FNumeric (50 # 1)%Q).

Definition adding : SectorForm.Page := SectorForm.mkPage None cold_room_form true.

Definition cold_room_doc : SectorForm.SectorDoc :=
  SectorForm.mkSectorDoc "Camara fria" "Bloco B" "Rui" (2 # 1)%Q (8 # 1)%Q
                         (30 # 1)%Q (50 # 1)%Q "admin1".

Definition one_sector : gmap string SectorForm.SectorDoc := {[ "sec1" := lab_doc ]}.

End Scenarios.

(* ===================================================================== *)
(** * Facts about dates                                                   *)
(* ===================================================================== *)

Module TimeFacts.
Import Time.

Ltac zdiv := Z.div_mod_to_equations; lia.

(** The day of the 400-year era and the year of the era that
    [civil_from_days] computes are in range. *)
Lemma doe_range z : 0 <= z - z / 146097 * 146097 <= 146096.
Proof. zdiv. Qed.

Lemma yoe_range doe :
  0 <= doe <= 146096 ->
  0 <= (doe - doe / 1460 + doe / 36524 - doe / 146096) / 365 <= 399.
Proof. intros. zdiv. Qed.

Lemma doy_range doe :
  0 <= doe <= 146096 ->
  let yoe := (doe - doe / 1460 + doe / 36524 - doe / 146096) / 365 in
  0 <= doe - (365 * yoe + yoe / 4 - yoe / 100) <= 365.
Proof. intros. subst yoe. zdiv. Qed.

(** The month and the day of the month are those of a calendar date. *)
Lemma civil_from_days_range n :
  let '(_, m, d) := civil_from_days n in 1 <= m <= 12 /\ 1 <= d <= 31.
Proof.
  unfold civil_from_days. cbv zeta.
  pose proof (doe_range (n + 719468)) as Hdoe.
  set (doe := n + 719468 - (n + 719468) / 146097 * 146097) in *. clearbody doe.
  pose proof (doy_range doe Hdoe) as Hdoy. cbv zeta in Hdoy.
  set (yoe := (doe - doe / 1460 + doe / 36524 - doe / 146096) / 365) in *.
  set (doy := doe - (365 * yoe + yoe / 4 - yoe / 100)) in *.
  clearbody doy. clearbody yoe. clear Hdoe.
  set (mp := (5 * doy + 2) / 153).
  assert (Hmp : 0 <= mp <= 11) by (unfold mp; zdiv).
  assert (Hd : 1 <= doy - (153 * mp + 2) / 5 + 1 <= 31) by (unfold mp; zdiv).
  clearbody mp.
  destruct (mp <? 10) eqn:E; [apply Z.ltb_lt in E | apply Z.ltb_ge in E];
    split; lia.
Qed.

(** Turning a day number into a date and back gives the day number. *)
Lemma days_from_civil_from_days n :
  let '(y, m, d) := civil_from_days n in days_from_civil y m d = n.
Proof.
  unfold civil_from_days. cbv zeta.
  set (era := (n + 719468) / 146097).
  pose proof (doe_range (n + 719468)) as Hdoe. fold era in Hdoe.
  set (doe := n + 719468 - era * 146097) in *.
  assert (Hn : n = era * 146097 + doe - 719468) by (unfold doe; lia).
  clearbody doe. clearbody era.
  pose proof (yoe_range doe Hdoe) as Hyoe.
  pose proof (doy_range doe Hdoe) as Hdoy. cbv zeta in Hdoy.
  set (yoe := (doe - doe / 1460 + doe / 36524 - doe / 146096) / 365) in *.
  set (doy := doe - (365 * yoe + yoe / 4 - yoe / 100)) in *.
  assert (Hdoe2 : doe = yoe * 365 + yoe / 4 - yoe / 100 + doy) by (unfold doy; lia).
  clearbody doy. clearbody yoe.
  set (mp := (5 * doy + 2) / 153).
  assert (Hmp : 0 <= mp <= 11) by (unfold mp; zdiv).
  set (d := doy - (153 * mp + 2) / 5 + 1).
  assert (Hd : doy = (153 * mp + 2) / 5 + d - 1) by (unfold d; lia).
  clearbody d. clearbody mp.
  unfold days_from_civil.
  destruct (mp <? 10) eqn:E; [apply Z.ltb_lt in E | apply Z.ltb_ge in E].
  - replace (mp + 3 <=? 2) with false by (symmetry; apply Z.leb_gt; lia).
    replace (2 <? mp + 3) with true by (symmetry; apply Z.ltb_lt; lia).
    cbv zeta.
    replace ((yoe + era * 400) / 400) with era by zdiv.
    replace (yoe + era * 400 - era * 400) with yoe by lia.
    replace (mp + 3 - 3) with mp by lia. lia.
  - replace (mp - 9 <=? 2) with true by (symmetry; apply Z.leb_le; lia).
    replace (2 <? mp - 9) with false by (symmetry; apply Z.ltb_ge; lia).
    cbv zeta.
    replace (yoe + era * 400 + 1 - 1) with (yoe + era * 400) by lia.
    replace ((yoe + era * 400) / 400) with era by zdiv.
    replace (yoe + era * 400 - era * 400) with yoe by lia.
    replace (mp - 9 + 9) with mp by lia. lia.
Qed.

(** Building a date from the calendar fields of [t] lands on the local day
    of [t]. *)
Lemma Date_of_fields_same_day tz t hh mm ss ms :
  Date_of_fields tz (getFullYear tz t) (getMonth tz t) (getDate tz t) hh mm ss ms
  = local_day tz t * ms_per_day
    + hh * ms_per_hour + mm * ms_per_minute + ss * ms_per_second + ms - tz.
Proof.
  unfold Date_of_fields, getFullYear, getMonth, getDate.
  pose proof (days_from_civil_from_days (local_day tz t)) as H.
  destruct (civil_from_days (local_day tz t)) as [[y m] d]. simpl.
  replace (m - 1 + 1) with m by lia. rewrite H. reflexivity.
Qed.

Lemma setHours_spec tz t hh mm ss ms :
  setHours tz t hh mm ss ms
  = local_day tz t * ms_per_day
    + hh * ms_per_hour + mm * ms_per_minute + ss * ms_per_second + ms - tz.
Proof. apply Date_of_fields_same_day. Qed.

(** An instant lies between the first and the last millisecond of its own
    local day, and these are a day apart. *)
Lemma local_day_bounds tz t :
  start_of_local_day tz t <= t <= end_of_local_day tz t.
Proof.
  unfold end_of_local_day, start_of_local_day, local_day, ms_per_day. zdiv.
Qed.

Lemma local_day_of_start tz t : local_day tz (start_of_local_day tz t) = local_day tz t.
Proof.
  unfold start_of_local_day, local_day, ms_per_day.
  replace ((t + tz) / 86400000 * 86400000 - tz + tz)
    with ((t + tz) / 86400000 * 86400000) by lia.
  apply Z.div_mul. lia.
Qed.


(** The years of the day numbers from 0000-01-01 to 9999-12-31. *)
Lemma civil_year_range n :
  -719528 <= n <= 2932896 ->
  0 <= fst (fst (civil_from_days n)) <= 9999.
Proof.
  intros Hn. unfold civil_from_days. cbv zeta.
  set (era := (n + 719468) / 146097).
  pose proof (doe_range (n + 719468)) as Hdoe. fold era in Hdoe.
  set (doe := n + 719468 - era * 146097) in *.
  assert (Hera : -1 <= era <= 24) by (unfold era; zdiv).
  assert (Hlo : era = -1 -> 146037 <= doe) by (unfold doe; lia).
  assert (Hhi : era = 24 -> doe <= 146036) by (unfold doe; lia).
  clearbody doe. clearbody era. clear Hn.
  pose proof (yoe_range doe Hdoe) as Hyoe.
  pose proof (doy_range doe Hdoe) as Hdoy. cbv zeta in Hdoy.
  set (yoe := (doe - doe / 1460 + doe / 36524 - doe / 146096) / 365) in *.
  assert (Hy1 : 146037 <= doe -> yoe = 399) by (unfold yoe; zdiv).
  set (doy := doe - (365 * yoe + yoe / 4 - yoe / 100)) in *.
  assert (Hd1 : 146037 <= doe -> 306 <= doy)
    by (intros H; specialize (Hy1 H); unfold doy; rewrite Hy1; zdiv).
  assert (Hd2 : doe <= 146036 -> yoe = 399 -> doy <= 305)
    by (intros H E; unfold doy; rewrite E; zdiv).
  clearbody doy. clearbody yoe.
  set (mp := (5 * doy + 2) / 153).
  assert (Hmp : 0 <= mp <= 11) by (unfold mp; zdiv).
  assert (Hm1 : 306 <= doy -> 10 <= mp) by (unfold mp; zdiv).
  assert (Hm2 : doy <= 305 -> mp <= 9) by (unfold mp; zdiv).
  clearbody mp. cbn [fst].
  destruct (mp <? 10) eqn:E; [apply Z.ltb_lt in E | apply Z.ltb_ge in E].
  - replace (mp + 3 <=? 2) with false by (symmetry; apply Z.leb_gt; lia). lia.
  - replace (mp - 9 <=? 2) with true by (symmetry; apply Z.leb_le; lia). lia.
Qed.

End TimeFacts.

(* ===================================================================== *)
(** * Facts about binary64 rounding                                       *)
(* ===================================================================== *)

Module DoubleFacts.
Import Double.
Local Open Scope Q_scope.

Lemma pow2_pos e : 0 < pow2 e.
Proof. apply Qpower_0_lt. reflexivity. Qed.

Lemma pow2_add a b : pow2 (a + b) == pow2 a * pow2 b.
Proof. apply Qpower_plus. discriminate. Qed.

Lemma pow2_lt a b : (a < b)%Z -> pow2 a < pow2 b.
Proof. intros H. apply Qpower_lt_compat_l; [exact H | reflexivity]. Qed.

Lemma pow2_le a b : (a <= b)%Z -> pow2 a <= pow2 b.
Proof. intros H. apply Qpower_le_compat_l; [exact H | discriminate]. Qed.

Lemma pow2_lt_inv a b : pow2 a < pow2 b -> (a < b)%Z.
Proof. intros H. apply (Qpower_lt_compat_l_inv (2 # 1)); [exact H | reflexivity]. Qed.

Lemma pow2_inject e : (0 <= e)%Z -> pow2 e == inject_Z (2 ^ e).
Proof. intros H. unfold pow2. rewrite Zpower_Qpower by exact H. reflexivity. Qed.

Lemma pow2_succ e : pow2 (e + 1) == 2 * pow2 e.
Proof. rewrite pow2_add. change (pow2 1) with (2 # 1). ring. Qed.

Lemma Qabs_num_den q :
  Qabs q * inject_Z (Z.pos (Qden q)) == inject_Z (Z.abs (Qnum q)).
Proof.
  destruct q as [n d]. unfold Qabs, Qeq, Qmult, inject_Z. cbn [Qnum Qden]. lia.
Qed.

Lemma log2_bounds n : (0 < n)%Z ->
  pow2 (Z.log2 n) <= inject_Z n /\ inject_Z n < pow2 (Z.log2 n + 1).
Proof.
  intros H. destruct (Z.log2_spec n H) as [H1 H2].
  rewrite !pow2_inject by (pose proof (Z.log2_nonneg n); lia).
  rewrite <- Zle_Qle, <- Zlt_Qlt. rewrite <- Z.add_1_r in H2. split; assumption.
Qed.

Lemma mag_spec q : ~ q == 0 ->
  pow2 (mag q) <= Qabs q /\ Qabs q < pow2 (mag q + 1).
Proof.
  intros Hq.
  assert (Hn : (0 < Z.abs (Qnum q))%Z).
  { destruct q as [n d]. unfold Qeq in Hq. cbn in *. lia. }
  assert (Hd : (0 < Z.pos (Qden q))%Z) by reflexivity.
  pose proof (Qabs_num_den q) as Hnd.
  destruct (log2_bounds _ Hn) as [N1 N2]. destruct (log2_bounds _ Hd) as [D1 D2].
  unfold mag.
  set (a := Z.log2 (Z.abs (Qnum q))) in *.
  set (b := Z.log2 (Z.pos (Qden q))) in *.
  set (N := inject_Z (Z.abs (Qnum q))) in *.
  set (D := inject_Z (Z.pos (Qden q))) in *.
  assert (HD : 0 < D) by (unfold D; rewrite <- (Zlt_Qlt 0); reflexivity).
  pose proof (Qabs_nonneg q) as Hq0.
  pose proof (pow2_pos b) as Pb. pose proof (pow2_pos (a - b)) as Pab.
  assert (E1 : pow2 (a - b + 1) * pow2 b == pow2 (a + 1)).
  { rewrite <- pow2_add. replace (a - b + 1 + b)%Z with (a + 1)%Z by lia. reflexivity. }
  assert (E2 : pow2 (a - b - 1) * pow2 (b + 1) == pow2 a).
  { rewrite <- pow2_add. replace (a - b - 1 + (b + 1))%Z with a by lia. reflexivity. }
  assert (U : Qabs q < pow2 (a - b + 1)) by nra.
  assert (L : pow2 (a - b - 1) <= Qabs q).
  { pose proof (pow2_pos (a - b - 1)). nra. }
  destruct (Qle_bool (pow2 (a - b)) (Qabs q)) eqn:E.
  - apply Qle_bool_iff in E. split; assumption.
  - replace (a - b - 1 + 1)%Z with (a - b)%Z by lia. split; [exact L |].
    apply Qnot_le_lt. intros H. apply Qle_bool_iff in H. congruence.
Qed.

Lemma mag_unique q e : pow2 e <= Qabs q -> Qabs q < pow2 (e + 1) -> mag q = e.
Proof.
  intros H1 H2.
  assert (Hq : ~ q == 0).
  { intros H. rewrite H in H1. pose proof (pow2_pos e). change (Qabs 0) with 0 in H1. lra. }
  destruct (mag_spec q Hq) as [M1 M2].
  assert (mag q < e + 1)%Z by (apply pow2_lt_inv; lra).
  assert (e < mag q + 1)%Z by (apply pow2_lt_inv; lra).
  lia.
Qed.

Lemma mag_Qeq q q' : ~ q == 0 -> q == q' -> mag q = mag q'.
Proof.
  intros Hq H. symmetry. destruct (mag_spec q Hq) as [M1 M2].
  apply mag_unique; rewrite <- H; assumption.
Qed.

Lemma round_ties_even_Qeq s s' : s == s' -> round_ties_even s = round_ties_even s'.
Proof.
  intros H. unfold round_ties_even.
  rewrite (Qfloor_comp _ _ H).
  rewrite (Qcompare_comp (s - inject_Z (Qfloor s')) (s' - inject_Z (Qfloor s'))
             (Qplus_comp _ _ H _ _ (Qeq_refl _)) (1 # 2) (1 # 2) (Qeq_refl _)).
  reflexivity.
Qed.

Lemma round_ties_even_error s :
  Qabs (inject_Z (round_ties_even s) - s) <= 1 # 2.
Proof.
  unfold round_ties_even.
  pose proof (Qfloor_le s) as H1. pose proof (Qlt_floor s) as H2.
  rewrite inject_Z_plus in H2. change (inject_Z 1) with 1 in H2.
  set (f := Qfloor s) in *.
  destruct (Qcompare_spec (s - inject_Z f) (1 # 2)) as [E | E | E].
  - destruct (Z.even f);
      [| rewrite inject_Z_plus; change (inject_Z 1) with 1];
      apply Qabs_Qle_condition; split; lra.
  - apply Qabs_Qle_condition; split; lra.
  - rewrite inject_Z_plus; change (inject_Z 1) with 1.
    apply Qabs_Qle_condition; split; lra.
Qed.

Lemma round_ties_even_near s k :
  Qabs (s - inject_Z k) < 1 # 2 -> round_ties_even s = k.
Proof.
  intros H. apply Qabs_Qlt_condition in H. destruct H as [Hl Hu].
  unfold round_ties_even.
  pose proof (Qfloor_le s) as H1. pose proof (Qlt_floor s) as H2.
  rewrite inject_Z_plus in H2. change (inject_Z 1) with 1 in H2.
  set (f := Qfloor s) in *.
  assert (F1 : (f < k + 1)%Z).
  { rewrite Zlt_Qlt. rewrite inject_Z_plus. change (inject_Z 1) with 1. lra. }
  assert (F2 : (k < f + 2)%Z).
  { rewrite Zlt_Qlt. rewrite inject_Z_plus. change (inject_Z 2) with 2. lra. }
  assert (Hf : f = k \/ f = (k - 1)%Z) by lia.
  destruct Hf as [-> | Hf].
  - destruct (Qcompare_spec (s - inject_Z k) (1 # 2)) as [E | E | E];
      [lra | reflexivity | lra].
  - assert (HfQ : inject_Z f == inject_Z k - 1).
    { rewrite Hf. unfold Z.sub. rewrite inject_Z_plus. reflexivity. }
    destruct (Qcompare_spec (s - inject_Z f) (1 # 2)) as [E | E | E];
      [lra | lra | lia].
Qed.

Lemma round_ties_even_inject k : round_ties_even (inject_Z k) = k.
Proof.
  apply round_ties_even_near.
  setoid_replace (inject_Z k - inject_Z k) with 0 using relation Qeq by ring.
  reflexivity.
Qed.

Lemma round_ties_even_bound s K :
  Qabs s <= inject_Z K -> (Z.abs (round_ties_even s) <= K)%Z.
Proof.
  intros H. pose proof (round_ties_even_error s) as E.
  apply Qabs_Qle_condition in H. apply Qabs_Qle_condition in E.
  set (m := round_ties_even s) in *.
  assert (m < K + 1)%Z.
  { rewrite Zlt_Qlt. rewrite inject_Z_plus. change (inject_Z 1) with 1. lra. }
  assert (- K < m + 1)%Z.
  { rewrite Zlt_Qlt. rewrite inject_Z_plus, inject_Z_opp.
    change (inject_Z 1) with 1. lra. }
  lia.
Qed.

Lemma nearest_eq q :
  nearest q == inject_Z (round_ties_even (q / pow2 (ulp_exponent q)))
               * pow2 (ulp_exponent q).
Proof. unfold nearest. apply Qred_correct. Qed.

Lemma Qdiv_zero q p : q == 0 -> q / p == 0.
Proof. intros H. unfold Qdiv. rewrite H. ring. Qed.

Lemma Qdiv_Qeq q q' p : q == q' -> q / p == q' / p.
Proof. intros H. rewrite H. reflexivity. Qed.

Lemma nearest_zero q : q == 0 -> nearest q = 0.
Proof.
  intros H. unfold nearest.
  rewrite (round_ties_even_Qeq _ 0) by (apply Qdiv_zero, H).
  change (round_ties_even 0) with 0%Z.
  transitivity (Qred 0); [apply Qred_complete; ring | reflexivity].
Qed.

Lemma nearest_Qeq q q' : q == q' -> nearest q = nearest q'.
Proof.
  intros H. destruct (Qeq_dec q 0) as [Hq | Hq].
  - rewrite (nearest_zero q Hq). rewrite nearest_zero by (rewrite <- H; exact Hq).
    reflexivity.
  - unfold nearest, ulp_exponent. rewrite <- (mag_Qeq q q' Hq H).
    apply Qred_complete.
    rewrite (round_ties_even_Qeq (q / _) (q' / pow2 (Z.max (mag q - 52) (-1074))))
      by (apply Qdiv_Qeq, H).
    reflexivity.
Qed.

Lemma Qred_eq a b : a == b -> Qred a = Qred b.
Proof. apply Qred_complete. Qed.

Lemma ulp_exponent_min q : (-1074 <= ulp_exponent q)%Z.
Proof. unfold ulp_exponent. lia. Qed.

Lemma scaled_bound q : ~ q == 0 ->
  Qabs (q / pow2 (ulp_exponent q)) < inject_Z (2 ^ 53).
Proof.
  intros Hq. destruct (mag_spec q Hq) as [_ M2].
  set (e := ulp_exponent q).
  assert (He : (mag q + 1 <= e + 53)%Z) by (unfold e, ulp_exponent; lia).
  pose proof (pow2_le _ _ He) as Hle. rewrite (pow2_add e 53) in Hle.
  rewrite (pow2_inject 53) in Hle by lia.
  pose proof (pow2_pos e) as Pe.
  unfold Qdiv. rewrite Qabs_Qmult. rewrite (Qabs_pos (/ pow2 e)).
  2:{ apply Qlt_le_weak, Qinv_lt_0_compat, Pe. }
  apply Qlt_shift_div_r; [exact Pe |]. lra.
Qed.

Lemma nearest_representable q : representable (nearest q).
Proof.
  exists (round_ties_even (q / pow2 (ulp_exponent q))), (ulp_exponent q).
  split; [apply ulp_exponent_min |]. split; [| apply nearest_eq].
  destruct (Qeq_dec q 0) as [Hq | Hq].
  - rewrite (round_ties_even_Qeq _ 0) by (apply Qdiv_zero, Hq).
    change (round_ties_even 0) with 0%Z. simpl. lia.
  - apply round_ties_even_bound. apply Qlt_le_weak, scaled_bound, Hq.
Qed.

Lemma Qabs_inject_mult k e : Qabs (inject_Z k * pow2 e) == inject_Z (Z.abs k) * pow2 e.
Proof.
  rewrite Qabs_Qmult. rewrite (Qabs_pos (pow2 e)) by apply Qlt_le_weak, pow2_pos.
  apply Qmult_comp; [| reflexivity].
  unfold Qabs, inject_Z. reflexivity.
Qed.

Lemma mag_inject_mult k e : k <> 0%Z -> mag (inject_Z k * pow2 e) = (Z.log2 (Z.abs k) + e)%Z.
Proof.
  intros Hk. assert (Hpos : (0 < Z.abs k)%Z) by lia.
  destruct (log2_bounds _ Hpos) as [L1 L2].
  pose proof (pow2_pos e) as Pe.
  apply mag_unique; rewrite Qabs_inject_mult.
  - rewrite pow2_add. nra.
  - replace (Z.log2 (Z.abs k) + e + 1)%Z with (Z.log2 (Z.abs k) + 1 + e)%Z by lia.
    rewrite pow2_add. nra.
Qed.

Lemma nearest_of_representable x : representable x -> nearest x == x.
Proof.
  intros (k & e & He & Hk & Hx).
  destruct (Z.eq_dec k 0%Z) as [-> | Hk0].
  - assert (H0 : x == 0) by (rewrite Hx; ring).
    rewrite (nearest_zero x H0). symmetry. exact H0.
  - rewrite (nearest_Qeq x _ Hx). rewrite nearest_eq.
    unfold ulp_exponent. rewrite (mag_inject_mult k e Hk0).
    set (c := Z.log2 (Z.abs k)).
    assert (Hc : (c <= 53)%Z).
    { unfold c. change 53%Z with (Z.log2 (2 ^ 53)). apply Z.log2_le_mono. exact Hk. }
    pose proof (pow2_pos e) as Pe.
    destruct (Z.eq_dec c 53%Z) as [Ec | Ec].
    + assert (Hpos : (0 < Z.abs k)%Z) by lia.
      destruct (Z.log2_spec _ Hpos) as [S1 _]. fold c in S1. rewrite Ec in S1.
      assert (Habs : Z.abs k = (2 ^ 53)%Z) by lia.
      replace (Z.max (c + e - 52) (-1074)) with (e + 1)%Z by lia.
      assert (Hk2 : k = (2 * (k / 2))%Z).
      { destruct (Z.abs_eq_or_opp k) as [A | A]; rewrite A in Habs.
        - rewrite Habs. reflexivity.
        - assert (k = - 2 ^ 53)%Z by lia. subst k. reflexivity. }
      assert (HkQ : inject_Z k == 2 * inject_Z (k / 2)).
      { change 2 with (inject_Z 2). rewrite <- inject_Z_mult, <- Hk2. reflexivity. }
      assert (Hs : inject_Z k * pow2 e / pow2 (e + 1) == inject_Z (k / 2)).
      { rewrite HkQ, pow2_succ. field. lra. }
      rewrite (round_ties_even_Qeq _ _ Hs), round_ties_even_inject.
      rewrite Hx, pow2_succ, HkQ. ring.
    + set (e' := Z.max (c + e - 52) (-1074)).
      assert (He' : (e' <= e)%Z) by (unfold e'; lia).
      assert (Hp : pow2 e == inject_Z (2 ^ (e - e')) * pow2 e').
      { rewrite <- pow2_inject by lia. rewrite <- pow2_add.
        replace (e - e' + e')%Z with e by lia. reflexivity. }
      pose proof (pow2_pos e') as Pe'.
      assert (Hs : inject_Z k * pow2 e / pow2 e' == inject_Z (k * 2 ^ (e - e'))).
      { rewrite Hp, inject_Z_mult. field. lra. }
      rewrite (round_ties_even_Qeq _ _ Hs), round_ties_even_inject.
      rewrite Hx, Hp, inject_Z_mult. ring.
Qed.

Lemma nearest_idem q : nearest (nearest q) = nearest q.
Proof.
  pose proof (nearest_of_representable _ (nearest_representable q)) as H.
  unfold nearest at 1. unfold nearest at 3.
  apply Qred_complete.
  transitivity (nearest (nearest q)); [symmetry; apply nearest_eq |].
  transitivity (nearest q); [exact H | apply nearest_eq].
Qed.

Lemma nearest_error q :
  Qabs (nearest q - q) <= pow2 (ulp_exponent q - 1).
Proof.
  rewrite nearest_eq. set (e := ulp_exponent q).
  pose proof (round_ties_even_error (q / pow2 e)) as E.
  pose proof (pow2_pos e) as Pe.
  set (m := inject_Z (round_ties_even (q / pow2 e))) in *.
  assert (Hh : pow2 (e - 1) == pow2 e * (1 # 2)).
  { unfold Z.sub. rewrite pow2_add. change (pow2 (-1)) with (1 # 2). reflexivity. }
  rewrite Hh.
  setoid_replace (m * pow2 e - q) with ((m - q / pow2 e) * pow2 e)
    using relation Qeq by (field; lra).
  rewrite Qabs_Qmult, (Qabs_pos (pow2 e)) by lra.
  rewrite (Qmult_comm (pow2 e)). apply Qmult_le_compat_r; [exact E | lra].
Qed.

Lemma round_ties_even_ge s K : inject_Z K <= s -> (K <= round_ties_even s)%Z.
Proof.
  intros H. pose proof (round_ties_even_error s) as E.
  apply Qabs_Qle_condition in E.
  assert (K < round_ties_even s + 1)%Z; [| lia].
  rewrite Zlt_Qlt, inject_Z_plus. change (inject_Z 1) with 1. lra.
Qed.

Lemma round_ties_even_le s K : s <= inject_Z K -> (round_ties_even s <= K)%Z.
Proof.
  intros H. pose proof (round_ties_even_error s) as E.
  apply Qabs_Qle_condition in E.
  assert (round_ties_even s < K + 1)%Z; [| lia].
  rewrite Zlt_Qlt, inject_Z_plus. change (inject_Z 1) with 1. lra.
Qed.

(** ** Numbers *)

Lemma of_Q_Qeq q q' : q == q' -> of_Q q = of_Q q'.
Proof. intros H. unfold of_Q. rewrite (nearest_Qeq q q' H). reflexivity. Qed.

Lemma of_Q_nearest q : of_Q (nearest q) = of_Q q.
Proof. unfold of_Q. rewrite nearest_idem. reflexivity. Qed.

Lemma of_Q_cases q :
  of_Q q = Finite (nearest q) \/ exists s, of_Q q = Infinity s.
Proof.
  unfold of_Q. destruct (Qle_bool (pow2 1024) (Qabs (nearest q)));
    [right; eexists; reflexivity | left; reflexivity].
Qed.

(** Adding a number to zero and dividing it by one leave it as it is. *)
Lemma add_zero_l q : add (Finite 0) (of_Q q) = of_Q q.
Proof.
  destruct (of_Q_cases q) as [H | [s H]]; rewrite H; cbn [add]; [| reflexivity].
  rewrite (of_Q_Qeq _ (nearest q)) by ring. rewrite of_Q_nearest. exact H.
Qed.

Lemma of_nat_1 : of_nat 1 = Finite 1.
Proof. vm_compute. reflexivity. Qed.

Lemma div_one q : div (of_Q q) (of_nat 1) = of_Q q.
Proof.
  rewrite of_nat_1.
  destruct (of_Q_cases q) as [H | [s H]]; rewrite H; cbn [div].
  - change (Qeq_bool 1 (0 # 1)) with false. cbn iota.
    rewrite (of_Q_Qeq _ (nearest q)) by (field; discriminate).
    rewrite of_Q_nearest. exact H.
  - change (negative 1) with false. rewrite xorb_false_r. reflexivity.
Qed.

End DoubleFacts.

(* ===================================================================== *)
(** * Facts about the submission page                                     *)
(* ===================================================================== *)

Module SubmissionFacts.
Import Time Num Submission TimeFacts.

(** The window of the duplicate check starts at local midnight and ends at
    23:59:59.000, 999 ms before the last millisecond of the day. *)
Lemma check_startOfDay_spec e : startOfDay e = start_of_local_day (tz e) (now e).
Proof.
  unfold startOfDay. rewrite Date_of_fields_same_day.
  unfold start_of_local_day. lia.
Qed.

Lemma check_endOfDay_spec e : endOfDay e = end_of_local_day (tz e) (now e) - 999.
Proof.
  unfold endOfDay. rewrite Date_of_fields_same_day.
  unfold end_of_local_day, start_of_local_day, ms_per_day, ms_per_hour,
    ms_per_minute, ms_per_second. lia.
Qed.

(** What the filter of the query accepts. *)
Lemma matches_true sid s lo hi r :
  matches sid s lo hi r = true
  <-> sector_id r = sid /\ turno r = s /\ lo <= timestamp r <= hi.
Proof.
  unfold matches. rewrite !andb_true_iff, !bool_decide_eq_true.
  rewrite Z.leb_le, Z.leb_le. tauto.
Qed.

(** The snapshot is empty exactly when no stored reading passes the filter. *)
Lemma snapshot_empty_iff e s values (recs : gmap string RecordDoc) :
  snapshot_empty (duplicateQuery e s values recs) = true
  <-> forall k r, recs !! k = Some r ->
        ~ (sector_id r = s_id s /\ turno r = v_turno values
           /\ startOfDay e <= timestamp r <= endOfDay e).
Proof.
  unfold snapshot_empty, duplicateQuery.
  rewrite Nat.eqb_eq, map_size_empty_iff. split.
  - intros Hempty k r Hk Hm.
    eapply (map_filter_empty_not_lookup _ _ k r Hempty); [| exact Hk].
    simpl. apply matches_true. exact Hm.
  - intros Hnone. apply map_empty. intros k.
    apply map_lookup_filter_None. destruct (recs !! k) as [r|] eqn:Hk; [right | left; reflexivity].
    intros x Hx Hp. simpl in Hp. apply matches_true in Hp.
    inversion Hx; subst x. exact (Hnone k r Hk Hp).
Qed.

(** [!x] of an out-of-range flag on an entered number is the closed
    interval test. *)
Lemma not_out_of_range_numeric s lo hi q :
  not_ (out_of_range (Some s) lo hi (FNumeric q)) = within (lo s) (hi s) q.
Proof.
  unfold not_, out_of_range, truthy, Number, lt, gt, Qltb, within.
  destruct (Qle_bool (lo s) q), (Qle_bool q (hi s)); reflexivity.
Qed.

Lemma within_true lo hi x :
  within lo hi x = true <-> (lo <= x /\ x <= hi)%Q.
Proof. unfold within. rewrite andb_true_iff, !Qle_bool_iff. tauto. Qed.

(** What [onSubmit] leaves in the store: the store it found, or that store
    with one more document. *)
Lemma onSubmit_cases e s f values recs :
  onSubmit e (Some s) f values recs
    = (Saved, <[new_id e := dataToSave e s f values]> recs)
  \/ (fst (onSubmit e (Some s) f values recs) <> Saved
      /\ snd (onSubmit e (Some s) f values recs) = recs).
Proof.
  unfold onSubmit.
  destruct (getDocs_ok e); simpl; [| right; split; [discriminate | reflexivity]].
  destruct (snapshot_empty _); simpl; [| right; split; [discriminate | reflexivity]].
  destruct (addDoc_ok e); simpl; [left; reflexivity |].
  right; split; [discriminate | reflexivity].
Qed.

(** A match of the existence check ends the submission without a write. *)
Lemma onSubmit_rejects_match e s f values (recs : gmap string RecordDoc) :
  getDocs_ok e = true ->
  (exists k r, recs !! k = Some r
               /\ sector_id r = s_id s /\ turno r = v_turno values
               /\ startOfDay e <= timestamp r <= endOfDay e) ->
  onSubmit e (Some s) f values recs = (DuplicateShift, recs).
Proof.
  intros Hget (k & r & Hk & Hm). unfold onSubmit. rewrite Hget. simpl.
  destruct (snapshot_empty (duplicateQuery e s values recs)) eqn:Hemp;
    [| reflexivity].
  exfalso. exact (proj1 (snapshot_empty_iff e s values recs) Hemp k r Hk Hm).
Qed.

(** Without a match the document is added. *)
Lemma onSubmit_saves_fresh e s f values (recs : gmap string RecordDoc) :
  getDocs_ok e = true ->
  (forall k r, recs !! k = Some r ->
     ~ (sector_id r = s_id s /\ turno r = v_turno values
        /\ startOfDay e <= timestamp r <= endOfDay e)) ->
  addDoc_ok e = true ->
  onSubmit e (Some s) f values recs
  = (Saved, <[new_id e := dataToSave e s f values]> recs).
Proof.
  intros Hget Hnone Hadd. unfold onSubmit. rewrite Hget, Hadd. simpl.
  apply snapshot_empty_iff in Hnone. rewrite Hnone. reflexivity.
Qed.

(** C1.  When the existence check finds a stored reading of the same sector
    and shift inside the day window of the check, the submission is rejected
    as a duplicate shift and the store is left as it was; when it finds none,
    the reading is persisted (the store calls succeeding). *)
Theorem duplicate_shift_guard e s f values (recs : gmap string RecordDoc) :
  getDocs_ok e = true ->
  ((exists k r, recs !! k = Some r
                /\ sector_id r = s_id s /\ turno r = v_turno values
                /\ startOfDay e <= timestamp r <= endOfDay e) ->
   onSubmit e (Some s) f values recs = (DuplicateShift, recs))
  /\ ((forall k r, recs !! k = Some r ->
         ~ (sector_id r = s_id s /\ turno r = v_turno values
            /\ startOfDay e <= timestamp r <= endOfDay e)) ->
      addDoc_ok e = true ->
      onSubmit e (Some s) f values recs
      = (Saved, <[new_id e := dataToSave e s f values]> recs)).
Proof.
  intros Hget. split.
  - intros Hmatch. apply onSubmit_rejects_match; assumption.
  - intros Hnone Hadd. apply onSubmit_saves_fresh; assumption.
Qed.

Lemma duplicate_shift_guard_witness :
  getDocs_ok Samples.env_10h = true
  /\ onSubmit Samples.env_10h (Some Samples.lab) Samples.form_ok Samples.values_ok
       Samples.one_morning
     = (DuplicateShift, Samples.one_morning).
Proof.
  split; [reflexivity |].
  apply (proj1 (duplicate_shift_guard Samples.env_10h Samples.lab Samples.form_ok
                  Samples.values_ok Samples.one_morning eq_refl)).
  exists "r1"%string, Samples.morning_8h.
  split; [reflexivity |]. split; [reflexivity |]. split; [reflexivity |].
  split; apply Z.leb_le; vm_compute; reflexivity.
Defined.

(** A submission that ends with the success toast passed validation and
    added the document built from the validated values. *)
Lemma handleSubmit_saved e s f (recs recs' : gmap string RecordDoc) :
  handleSubmit e (Some s) f recs = Some (Saved, recs') ->
  exists values,
    formSchema f = Some values
    /\ recs' = <[new_id e := dataToSave e s f values]> recs.
Proof.
  unfold handleSubmit. destruct (formSchema f) as [values|]; [| discriminate].
  intros Hsub. exists values. split; [reflexivity |].
  destruct (onSubmit_cases e s f values recs) as [Hsaved | [Hns Hsame]].
  - rewrite Hsaved in Hsub. congruence.
  - destruct (onSubmit e (Some s) f values recs) as [o st]. simpl in *. congruence.
Qed.

(** Validation hands on the numbers that were entered. *)
Lemma formSchema_numeric f t h values :
  f_temperature f = FNumeric t ->
  f_humidity f = FNumeric h ->
  formSchema f = Some values ->
  v_temperature values = t /\ v_humidity values = h.
Proof.
  intros Ht Hh. unfold formSchema, coerce_number. rewrite Ht, Hh. cbn [Number].
  destruct (f_turno f); [| discriminate].
  destruct (_ && _); [| discriminate].
  intros [= <-]. split; reflexivity.
Qed.

(** C2.  An accepted reading with an entered temperature [t] and humidity
    [h] is persisted with [is_temp_ok] equal to the closed interval test
    [temp_min <= t <= temp_max] and [is_humidity_ok] equal to
    [humidity_min <= h <= humidity_max]: a temperature on either bound is
    flagged OK, each flag depends on its own value only, and a reading with
    only the temperature out of bounds has exactly one flag false. *)
Theorem persisted_flags_closed_interval e s f t h
    (recs recs' : gmap string RecordDoc) :
  f_temperature f = FNumeric t ->
  f_humidity f = FNumeric h ->
  (temp_min s < temp_max s)%Q ->
  (humidity_min s < humidity_max s)%Q ->
  handleSubmit e (Some s) f recs = Some (Saved, recs') ->
  exists r,
    recs' !! new_id e = Some r
    /\ temperature r = t /\ humidity r = h
    /\ is_temp_ok r = within (temp_min s) (temp_max s) t
    /\ is_humidity_ok r = within (humidity_min s) (humidity_max s) h
    /\ (is_temp_ok r = true <-> (temp_min s <= t /\ t <= temp_max s)%Q)
    /\ (is_humidity_ok r = true <-> (humidity_min s <= h /\ h <= humidity_max s)%Q)
    /\ ((t == temp_min s \/ t == temp_max s)%Q -> is_temp_ok r = true)
    /\ (~ (temp_min s <= t /\ t <= temp_max s)%Q ->
        (humidity_min s <= h /\ h <= humidity_max s)%Q ->
        is_temp_ok r = false /\ is_humidity_ok r = true).
Proof.
  intros Ht Hh Htb Hhb Hsub.
  apply handleSubmit_saved in Hsub as (values & Hval & ->).
  destruct (formSchema_numeric f t h values Ht Hh Hval) as [Hvt Hvh].
  exists (dataToSave e s f values).
  split; [apply lookup_insert_eq |].
  split; [exact Hvt |]. split; [exact Hvh |].
  assert (Etemp : is_temp_ok (dataToSave e s f values)
                  = within (temp_min s) (temp_max s) t).
  { cbn [dataToSave is_temp_ok]. unfold isTempOutOfRange. rewrite Ht.
    apply not_out_of_range_numeric. }
  assert (Ehum : is_humidity_ok (dataToSave e s f values)
                 = within (humidity_min s) (humidity_max s) h).
  { cbn [dataToSave is_humidity_ok]. unfold isHumidityOutOfRange. rewrite Hh.
    apply not_out_of_range_numeric. }
  rewrite Etemp, Ehum.
  split; [reflexivity |]. split; [reflexivity |].
  split; [apply within_true |]. split; [apply within_true |]. split.
  - intros [Heq | Heq]; apply within_true; rewrite Heq; split;
      auto using Qle_refl, Qlt_le_weak.
  - intros Hout Hin. split; [| apply within_true; exact Hin].
    destruct (within (temp_min s) (temp_max s) t) eqn:E; [| reflexivity].
    apply within_true in E. contradiction.
Qed.

Lemma persisted_flags_closed_interval_witness :
  exists r,
    (<[ "new"%string := dataToSave Samples.env_10h Samples.lab Samples.form_ok
                          Samples.values_ok ]> (∅ : gmap string RecordDoc))
      !! new_id Samples.env_10h = Some r
    /\ temperature r = (22 # 1)%Q /\ is_temp_ok r = true.
Proof.
  destruct (persisted_flags_closed_interval Samples.env_10h Samples.lab
              Samples.form_ok (22 # 1)%Q (50 # 1)%Q ∅
              (<[ "new"%string := dataToSave Samples.env_10h Samples.lab
                                    Samples.form_ok Samples.values_ok ]> ∅)
              eq_refl eq_refl)
    as (r & Hr & Ht & _ & Hok & _).
  - reflexivity.
  - reflexivity.
  - reflexivity.
  - exists r. split; [exact Hr |]. split; [exact Ht |].
    rewrite Hok. reflexivity.
Defined.

(** The check window is short of the local day: a reading of the same
    sector and shift stored in the last 999 ms of the day is not found, and
    the second submission of that shift is saved. *)
Lemma late_reading_not_found e s f values (recs : gmap string RecordDoc) k r :
  getDocs_ok e = true -> addDoc_ok e = true ->
  recs = {[ k := r ]} ->
  end_of_local_day (tz e) (now e) - 999 < timestamp r ->
  fst (onSubmit e (Some s) f values recs) = Saved.
Proof.
  intros Hget Hadd -> Hlate.
  rewrite onSubmit_saves_fresh; [reflexivity | exact Hget | | exact Hadd].
  intros k' r' Hk' (_ & _ & _ & Hhi).
  apply lookup_singleton_Some in Hk' as [_ <-].
  rewrite check_endOfDay_spec in Hhi. lia.
Qed.

(** C7, on the code: a night reading of the sector stored at 23:59:59.500 of
    the local day lies within the day of a night submission made at
    23:59:59.800, yet the submission is saved as a second reading of that
    shift. *)
Theorem duplicate_check_misses_final_second :
  Samples.one_night !! "r1"%string = Some Samples.night_late
  /\ sector_id Samples.night_late = s_id Samples.lab
  /\ turno Samples.night_late = v_turno Samples.values_night
  /\ start_of_local_day (tz Samples.env_late) (now Samples.env_late)
       <= timestamp Samples.night_late
       <= end_of_local_day (tz Samples.env_late) (now Samples.env_late)
  /\ onSubmit Samples.env_late (Some Samples.lab) Samples.form_night
       Samples.values_night Samples.one_night
     = (Saved,
        <[ "new"%string := dataToSave Samples.env_late Samples.lab Samples.form_night
                             Samples.values_night ]> Samples.one_night).
Proof.
  split; [reflexivity |]. split; [reflexivity |]. split; [reflexivity |].
  split; [split; apply Z.leb_le; vm_compute; reflexivity |].
  apply onSubmit_saves_fresh; [reflexivity | | reflexivity].
  intros k r Hk (_ & _ & _ & Hhi). unfold Samples.one_night in Hk.
  apply lookup_singleton_Some in Hk as [_ <-].
  apply Z.leb_le in Hhi. vm_compute in Hhi. discriminate.
Qed.

(** The out-of-range indicator of a field that holds no entered value. *)
Lemma out_of_range_not_entered sector lo hi v :
  v = FUndefined \/ v = FEmpty ->
  truthy (out_of_range sector lo hi v) = false.
Proof. intros [-> | ->]; destruct sector; reflexivity. Qed.

(** C8 as stated fails: with 30 degrees entered for a sector whose range is
    18 to 25 and the humidity field still empty, the temperature is already
    classified as out of range. *)
Lemma verdict_before_both_numeric :
  ~ (forall s f,
       f_temperature f = FEmpty \/ f_humidity f = FEmpty ->
       truthy (isTempOutOfRange (Some s) f) = false
       /\ truthy (isHumidityOutOfRange (Some s) f) = false).
Proof.
  intros H.
  destruct (H Samples.lab Samples.form_hot_no_humidity (or_intror eq_refl)) as [Ht _].
  vm_compute in Ht. discriminate.
Qed.

(** C8, amended.  Each field is judged on its own.  While a field holds no
    entered value its out-of-range indicator is not raised, whatever the
    other field holds; once it holds a number [q] and the sector is loaded,
    the indicator is raised exactly when [q] is below the minimum or above
    the maximum, whether or not the other field is numeric. *)
Theorem out_of_range_per_field s f :
  ((f_temperature f = FUndefined \/ f_temperature f = FEmpty) ->
   truthy (isTempOutOfRange (Some s) f) = false)
  /\ ((f_humidity f = FUndefined \/ f_humidity f = FEmpty) ->
      truthy (isHumidityOutOfRange (Some s) f) = false)
  /\ (forall q, f_temperature f = FNumeric q ->
        isTempOutOfRange (Some s) f
        = JBool (negb (within (temp_min s) (temp_max s) q)))
  /\ (forall q, f_humidity f = FNumeric q ->
        isHumidityOutOfRange (Some s) f
        = JBool (negb (within (humidity_min s) (humidity_max s) q))).
Proof.
  unfold isTempOutOfRange, isHumidityOutOfRange.
  split; [apply out_of_range_not_entered |].
  split; [apply out_of_range_not_entered |].
  split; intros q ->; unfold out_of_range, Number, lt, gt, Qltb, within; f_equal.
  - destruct (Qle_bool (temp_min s) q), (Qle_bool q (temp_max s)); reflexivity.
  - destruct (Qle_bool (humidity_min s) q), (Qle_bool q (humidity_max s)); reflexivity.
Qed.

Lemma out_of_range_per_field_witness :
  truthy (isHumidityOutOfRange (Some Samples.lab) Samples.form_hot_no_humidity) = false
  /\ isTempOutOfRange (Some Samples.lab) Samples.form_hot_no_humidity = JBool true.
Proof.
  destruct (out_of_range_per_field Samples.lab Samples.form_hot_no_humidity)
    as (_ & Hh & Ht & _).
  split.
  - apply Hh. right. reflexivity.
  - rewrite (Ht (30 # 1)%Q eq_refl). reflexivity.
Defined.

(** An untouched form with a shift chosen passes validation ([Number] of the
    empty text is [0]) and is persisted as a reading of 0 degrees flagged
    OK, although 0 is below the sector's minimum of 18. *)
Example empty_field_persisted_as_ok :
  exists recs',
    handleSubmit Samples.env_10h (Some Samples.lab) Samples.form_untouched ∅
      = Some (Saved, recs')
    /\ exists r, recs' !! "new"%string = Some r
         /\ temperature r = (0 # 1)%Q /\ is_temp_ok r = true
         /\ within (temp_min Samples.lab) (temp_max Samples.lab) (temperature r) = false.
Proof.
  eexists. split; [reflexivity |].
  eexists. split; [apply lookup_insert_eq |].
  repeat split.
Qed.

(** C10.  Every document a submission adds to or changes in the store
    references the loaded sector and carries that sector's [admin_uid]. *)
Theorem written_reading_has_sector_admin e sector f values
    (recs : gmap string RecordDoc) k r :
  snd (onSubmit e sector f values recs) !! k = Some r ->
  recs !! k <> Some r ->
  exists s, sector = Some s
    /\ fst (onSubmit e sector f values recs) = Saved
    /\ k = new_id e
    /\ sector_id r = s_id s
    /\ rec_admin_uid r = admin_uid s.
Proof.
  intros Hk Hnew.
  destruct sector as [s|]; [| simpl in Hk; congruence].
  destruct (onSubmit_cases e s f values recs) as [Hsaved | [_ Hsame]].
  - rewrite Hsaved in *. simpl in Hk.
    destruct (decide (k = new_id e)) as [-> | Hne].
    + rewrite lookup_insert_eq in Hk. injection Hk as <-.
      exists s. repeat split.
    + rewrite lookup_insert_ne in Hk by congruence. congruence.
  - rewrite Hsame in Hk. congruence.
Qed.

Lemma written_reading_has_sector_admin_witness :
  exists s, Some Samples.lab = Some s
    /\ fst (onSubmit Samples.env_10h (Some Samples.lab) Samples.form_ok
              Samples.values_ok ∅) = Saved
    /\ "new"%string = new_id Samples.env_10h
    /\ sector_id (dataToSave Samples.env_10h Samples.lab Samples.form_ok
                    Samples.values_ok) = s_id s
    /\ rec_admin_uid (dataToSave Samples.env_10h Samples.lab Samples.form_ok
                        Samples.values_ok) = admin_uid s.
Proof.
  apply (written_reading_has_sector_admin Samples.env_10h (Some Samples.lab)
           Samples.form_ok Samples.values_ok ∅ "new"%string).
  - reflexivity.
  - discriminate.
Defined.

End SubmissionFacts.

(* ===================================================================== *)
(** * Facts about the dashboard                                           *)
(* ===================================================================== *)

Module DashboardFacts.
Import Time Dashboard TimeFacts.

(** Today's window of the dashboard is the whole local day. *)
Lemma today_startOfDay_spec tz now : startOfDay tz now = start_of_local_day tz now.
Proof.
  unfold startOfDay. rewrite setHours_spec. unfold start_of_local_day. lia.
Qed.

Lemma today_endOfDay_spec tz now : endOfDay tz now = end_of_local_day tz now.
Proof.
  unfold endOfDay. rewrite setHours_spec, today_startOfDay_spec, local_day_of_start.
  unfold end_of_local_day, start_of_local_day, ms_per_day, ms_per_hour,
    ms_per_minute, ms_per_second. lia.
Qed.

Lemma in_window_true lo hi r :
  in_window lo hi r = true <-> lo <= timestamp r <= hi.
Proof. unfold in_window. rewrite andb_true_iff, !Z.leb_le. tauto. Qed.

(** The readings a snapshot holds. *)
Lemma elem_of_recordsSnapshot tz now s (recs : gmap string RecordDoc) r :
  r ∈ recordsSnapshot tz now s recs
  <-> exists k, recs !! k = Some r /\ sector_id r = s_id s
        /\ start_of_local_day tz now <= timestamp r <= end_of_local_day tz now.
Proof.
  unfold recordsSnapshot. rewrite list_elem_of_fmap. split.
  - intros ([k r'] & -> & Hin). apply elem_of_map_to_list in Hin.
    apply map_lookup_filter_Some in Hin as [Hk [Hsid Hwin]].
    apply in_window_true in Hwin. rewrite today_startOfDay_spec, today_endOfDay_spec in Hwin.
    exists k. split; [exact Hk |]. split; [exact Hsid | exact Hwin].
  - intros (k & Hk & Hsid & Hwin). exists (k, r). split; [reflexivity |].
    apply elem_of_map_to_list. apply map_lookup_filter_Some.
    split; [exact Hk |]. split; [exact Hsid |].
    apply in_window_true. rewrite today_startOfDay_spec, today_endOfDay_spec. exact Hwin.
Qed.

Lemma get_set_shift t t' sh :
  get_shift t (set_shift t' sh) = true <-> t = t' \/ get_shift t sh = true.
Proof.
  destruct t, t', sh as [a b c]; simpl; split; intros H;
    try tauto; try (destruct H as [H | H]; congruence).
Qed.

(** Marking the shifts of a list of readings one after the other. *)
Lemma get_shift_marked t (docs : list RecordDoc) sh :
  get_shift t (foldl (fun sh r => set_shift (turno r) sh) sh docs) = true
  <-> get_shift t sh = true \/ exists r, r ∈ docs /\ turno r = t.
Proof.
  revert sh. induction docs as [| d docs IH]; intros sh; simpl.
  - split; [tauto |]. intros [H | (r & Hr & _)]; [exact H |].
    apply elem_of_nil in Hr. contradiction.
  - rewrite IH, get_set_shift. split.
    + intros [[-> | H] | (r & Hr & Ht)].
      * right. exists d. split; [left | reflexivity].
      * left. exact H.
      * right. exists r. split; [right; exact Hr | exact Ht].
    + intros [H | (r & Hr & Ht)].
      * left. right. exact H.
      * apply elem_of_cons in Hr as [-> | Hr].
        -- left. left. symmetry. exact Ht.
        -- right. exists r. split; assumption.
Qed.

Lemma all_false_iff sh : sh = all_false <-> forall t, get_shift t sh <> true.
Proof.
  split.
  - intros -> t. destruct t; discriminate.
  - intros H. destruct sh as [a b c].
    pose proof (H Manha) as Ha. pose proof (H Tarde) as Hb. pose proof (H Noite) as Hc.
    simpl in *. destruct a, b, c; try reflexivity; exfalso; auto.
Qed.

(** The loop over the documents of a snapshot touches the entry of the
    sector the readings belong to, and no other. *)
Lemma mark_docs_lookup sid (docs : list RecordDoc) (st : gmap string StatusEntry) k :
  Forall (fun r => sector_id r = sid) docs ->
  foldl (fun st record => alter (mark_shift (turno record)) (sector_id record) st)
        st docs !! k
  = if decide (k = sid)
    then (fun e => mkEntry (st_name e)
                     (foldl (fun sh r => set_shift (turno r) sh) (shifts e) docs))
           <$> st !! k
    else st !! k.
Proof.
  intros Hall. revert st. induction Hall as [| d docs Hd Hall IH]; intros st; simpl.
  - destruct (decide (k = sid)); [| reflexivity].
    destruct (st !! k) as [[n sh]|]; reflexivity.
  - rewrite IH. rewrite Hd. destruct (decide (k = sid)) as [-> | Hne].
    + rewrite lookup_alter_eq. destruct (st !! sid) as [[n sh]|]; reflexivity.
    + rewrite lookup_alter_ne by congruence. reflexivity.
Qed.

(** One snapshot: the entry of its sector gets the shifts of the snapshot's
    readings, the name and all other entries stay. *)
Lemma onRecordsSnapshot_lookup tz now s (recs : gmap string RecordDoc)
    (st : gmap string StatusEntry) k :
  onRecordsSnapshot s (recordsSnapshot tz now s recs) st !! k
  = if decide (k = s_id s)
    then (fun e => mkEntry (st_name e)
                     (foldl (fun sh r => set_shift (turno r) sh) all_false
                            (recordsSnapshot tz now s recs)))
           <$> st !! k
    else st !! k.
Proof.
  unfold onRecordsSnapshot. rewrite (mark_docs_lookup (s_id s)).
  - destruct (decide (k = s_id s)) as [-> | Hne].
    + rewrite lookup_alter_eq. destruct (st !! s_id s) as [[n sh]|]; reflexivity.
    + rewrite lookup_alter_ne by congruence. reflexivity.
  - apply Forall_forall. intros r Hr.
    apply elem_of_recordsSnapshot in Hr as (_ & _ & Hsid & _). exact Hsid.
Qed.

(** [initialStatus] has an entry with all shifts false for every sector,
    and no other entry. *)
Lemma initialStatus_from (acc : gmap string StatusEntry) (l : list Sector) k :
  foldl (fun st sector => <[s_id sector := mkEntry (name sector) all_false]> st) acc l !! k
  = match last (filter (fun s => s_id s = k) l) with
    | Some s => Some (mkEntry (name s) all_false)
    | None => acc !! k
    end.
Proof.
  revert acc. induction l as [| s l IH]; intros acc; simpl; [reflexivity |].
  rewrite IH. rewrite filter_cons. destruct (decide (s_id s = k)) as [<- | Hne].
  - destruct (filter (fun s0 => s_id s0 = s_id s) l) as [| x xs].
    + simpl. apply lookup_insert_eq.
    + rewrite last_cons_cons. destruct (last (x :: xs)) eqn:E; [reflexivity |].
      apply last_None in E. discriminate.
  - destruct (last (filter (fun s0 => s_id s0 = k) l)); [reflexivity |].
    apply lookup_insert_ne. exact Hne.
Qed.

Lemma initialStatus_lookup (sectorsData : list Sector) s :
  s ∈ sectorsData ->
  exists e, initialStatus sectorsData !! s_id s = Some e /\ shifts e = all_false.
Proof.
  intros Hin. unfold initialStatus. rewrite initialStatus_from.
  destruct (last (filter (fun s0 => s_id s0 = s_id s) sectorsData)) as [s'|] eqn:E.
  - eexists. split; reflexivity.
  - apply last_None in E.
    assert (Hs : s ∈ filter (fun s0 => s_id s0 = s_id s) sectorsData)
      by (apply list_elem_of_filter; split; [reflexivity | exact Hin]).
    rewrite E in Hs. apply elem_of_nil in Hs. contradiction.
Qed.

(** The status while snapshots arrive: an entry is that of [initialStatus]
    until the snapshot of its sector is delivered, and reflects today's
    readings of the sector from then on. *)
Lemma sectorsStatus_invariant tz now sectorsData (recs : gmap string RecordDoc)
    delivered k :
  match initialStatus sectorsData !! k with
  | None => sectorsStatus tz now sectorsData recs delivered !! k = None
  | Some e0 =>
      exists e, sectorsStatus tz now sectorsData recs delivered !! k = Some e
        /\ st_name e = st_name e0
        /\ forall t, get_shift t (shifts e) = true
             <-> (exists s, s ∈ delivered /\ s_id s = k)
                 /\ exists key r, recs !! key = Some r /\ sector_id r = k
                      /\ turno r = t
                      /\ start_of_local_day tz now <= timestamp r
                           <= end_of_local_day tz now
  end.
Proof.
  unfold sectorsStatus.
  induction delivered as [| s done IH] using rev_ind.
  - simpl. destruct (initialStatus sectorsData !! k) as [e0|] eqn:E0; [| reflexivity].
    exists e0. split; [reflexivity |]. split; [reflexivity |].
    intros t. split.
    + intros Ht. exfalso.
      unfold initialStatus in E0. rewrite initialStatus_from in E0.
      destruct (last _); [| rewrite lookup_empty in E0; discriminate].
      injection E0 as <-. destruct t; discriminate.
    + intros [(s & Hs & _) _]. apply elem_of_nil in Hs. contradiction.
  - rewrite foldl_app. simpl. rewrite onRecordsSnapshot_lookup.
    destruct (initialStatus sectorsData !! k) as [e0|] eqn:E0.
    + destruct IH as (e & He & Hname & Hshifts).
      destruct (decide (k = s_id s)) as [-> | Hne].
      * rewrite He. simpl. eexists. split; [reflexivity |]. split; [exact Hname |].
        intros t. simpl. rewrite get_shift_marked. split.
        -- intros [H | (r & Hr & Ht)]; [destruct t; discriminate |].
           apply elem_of_recordsSnapshot in Hr as (key & Hkey & Hsid & Hwin).
           split; [exists s; split; [apply elem_of_app; right; left | reflexivity] |].
           exists key, r. auto.
        -- intros [_ (key & r & Hkey & Hsid & Ht & Hwin)]. right.
           exists r. split; [| exact Ht].
           apply elem_of_recordsSnapshot. exists key. auto.
      * exists e. split; [exact He |]. split; [exact Hname |].
        intros t. rewrite Hshifts. split.
        -- intros [(s' & Hs' & Hid) Hr]. split; [| exact Hr].
           exists s'. split; [apply elem_of_app; left; exact Hs' | exact Hid].
        -- intros [(s' & Hs' & Hid) Hr]. split; [| exact Hr].
           apply elem_of_app in Hs' as [Hs' | Hs'].
           ++ exists s'. split; assumption.
           ++ apply list_elem_of_singleton in Hs'. subst s'. congruence.
    + destruct (decide (k = s_id s)); rewrite IH; reflexivity.
Qed.

(** C3.  For every sector of the dashboard: its three shifts start false;
    once the snapshots of the sectors have been delivered (in any order, any
    number of times), a shift is true exactly when the store holds at least
    one reading of that sector and shift within today's window; a sector
    without readings today has all three shifts false. *)
Theorem daily_status tz now sectorsData (recs : gmap string RecordDoc)
    delivered s :
  s ∈ sectorsData ->
  (forall s', s' ∈ sectorsData -> exists d, d ∈ delivered /\ s_id d = s_id s') ->
  (exists e0, initialStatus sectorsData !! s_id s = Some e0
              /\ shifts e0 = all_false)
  /\ exists e,
       sectorsStatus tz now sectorsData recs delivered !! s_id s = Some e
       /\ (forall t, get_shift t (shifts e) = true
             <-> exists key r, recs !! key = Some r /\ sector_id r = s_id s
                   /\ turno r = t
                   /\ start_of_local_day tz now <= timestamp r
                        <= end_of_local_day tz now)
       /\ ((forall key r, recs !! key = Some r -> sector_id r = s_id s ->
              ~ start_of_local_day tz now <= timestamp r
                  <= end_of_local_day tz now) ->
           shifts e = all_false).
Proof.
  intros Hs Hall.
  destruct (initialStatus_lookup sectorsData s Hs) as (e0 & He0 & Hfalse).
  split; [exists e0; split; assumption |].
  pose proof (sectorsStatus_invariant tz now sectorsData recs delivered (s_id s)) as Hinv.
  rewrite He0 in Hinv. destruct Hinv as (e & He & _ & Hshifts).
  exists e. split; [exact He |].
  assert (Hiff : forall t, get_shift t (shifts e) = true
             <-> exists key r, recs !! key = Some r /\ sector_id r = s_id s
                   /\ turno r = t
                   /\ start_of_local_day tz now <= timestamp r
                        <= end_of_local_day tz now).
  { intros t. rewrite Hshifts. split; [intros [_ H]; exact H |].
    intros H. split; [apply Hall; exact Hs | exact H]. }
  split; [exact Hiff |].
  intros Hnone. apply all_false_iff. intros t Ht.
  apply Hiff in Ht as (key & r & Hkey & Hsid & _ & Hwin).
  exact (Hnone key r Hkey Hsid Hwin).
Qed.

Lemma daily_status_witness :
  exists e,
    sectorsStatus Samples.brt (Samples.mar15 10 0 0 0) [Samples.lab]
      Samples.one_morning [Samples.lab] !! s_id Samples.lab = Some e
    /\ get_shift Manha (shifts e) = true.
Proof.
  destruct (daily_status Samples.brt (Samples.mar15 10 0 0 0) [Samples.lab]
              Samples.one_morning [Samples.lab] Samples.lab)
    as (_ & e & He & Hiff & _).
  - apply list_elem_of_here.
  - intros s' Hs'. exists s'. split; [exact Hs' | reflexivity].
  - exists e. split; [exact He |]. apply Hiff.
    exists "r1"%string, Samples.morning_8h.
    split; [reflexivity |]. split; [reflexivity |]. split; [reflexivity |].
    split; apply Z.leb_le; vm_compute; reflexivity.
Defined.

(** The status has no entry for an id that is not a sector's. *)
Lemma sectorsStatus_no_other_entry tz now sectorsData
    (recs : gmap string RecordDoc) delivered k :
  (forall s, s ∈ sectorsData -> s_id s <> k) ->
  sectorsStatus tz now sectorsData recs delivered !! k = None.
Proof.
  intros Hk.
  pose proof (sectorsStatus_invariant tz now sectorsData recs delivered k) as Hinv.
  destruct (initialStatus sectorsData !! k) as [e0|] eqn:E0; [| exact Hinv].
  exfalso. unfold initialStatus in E0. rewrite initialStatus_from in E0.
  destruct (last (filter (fun s => s_id s = k) sectorsData)) as [s|] eqn:E;
    [| rewrite lookup_empty in E0; discriminate].
  apply last_Some_elem_of in E. apply list_elem_of_filter in E as [Hid Hin].
  exact (Hk s Hin Hid).
Qed.

(** The deletions of [Promise.all]: an id of the list whose deletion does
    not fail is gone, every other document stays. *)
Lemma delete_all_lookup (fails : string -> bool) (ids : list string)
    (m : gmap string RecordDoc) j :
  foldl (fun m k => if fails k then m else delete k m) m ids !! j
  = if decide (j ∈ ids /\ fails j = false) then None else m !! j.
Proof.
  revert m. induction ids as [| i ids IH]; intros m; cbn [foldl].
  - case_decide as H; [| reflexivity].
    destruct H as [H _]. apply elem_of_nil in H. contradiction.
  - rewrite IH.
    destruct (decide (j ∈ ids /\ fails j = false)) as [[Hin Hf] | Hn].
    + rewrite decide_True; [reflexivity |]. split; [right; exact Hin | exact Hf].
    + destruct (decide (j = i)) as [-> | Hne].
      * destruct (fails i) eqn:Hf.
        -- rewrite decide_False; [reflexivity |]. intros [_ H]. discriminate.
        -- rewrite lookup_delete_eq. rewrite decide_True; [reflexivity |].
           split; [left | reflexivity].
      * assert (Hm : (if fails i then m else delete i m) !! j = m !! j).
        { destruct (fails i); [reflexivity |]. apply lookup_delete_ne. congruence. }
        rewrite Hm. rewrite decide_False; [reflexivity |].
        intros [Hin Hf]. apply elem_of_cons in Hin as [-> | Hin]; [congruence |].
        apply Hn. split; assumption.
Qed.

Lemma elem_of_recordsOfSector sid (recs : gmap string RecordDoc) k :
  k ∈ recordsOfSector sid recs
  <-> exists r, recs !! k = Some r /\ sector_id r = sid.
Proof.
  unfold recordsOfSector. rewrite list_elem_of_fmap. split.
  - intros ([k' r] & -> & Hin). apply elem_of_map_to_list in Hin.
    apply map_lookup_filter_Some in Hin as [Hk Hsid]. exists r. split; assumption.
  - intros (r & Hk & Hsid). exists (k, r). split; [reflexivity |].
    apply elem_of_map_to_list. apply map_lookup_filter_Some. split; assumption.
Qed.

(** C9.  After [deleteSector] ended with the success toast, the sector
    document is gone and no reading of the store references the sector; the
    readings of other sectors and the other sectors are as before. *)
Theorem deleteSector_cascades fl sid db db' :
  deleteSector fl sid db = (Deleted, db') ->
  sectors db' !! sid = None
  /\ (forall k r, records db' !! k = Some r -> sector_id r <> sid)
  /\ (forall k r, records db !! k = Some r -> sector_id r <> sid ->
        records db' !! k = Some r)
  /\ (forall k, k <> sid -> sectors db' !! k = sectors db !! k).
Proof.
  unfold deleteSector.
  destruct (getDocs_fails fl); [discriminate |].
  destruct (existsb _ _) eqn:Hex; [discriminate |].
  destruct (deleteSectorDoc_fails fl); [discriminate |].
  intros [= <-]. cbn [sectors records].
  assert (Hok : forall k, k ∈ recordsOfSector sid (records db) ->
                          deleteRecord_fails fl k = false).
  { intros k Hk. destruct (deleteRecord_fails fl k) eqn:E; [| reflexivity].
    assert (Htrue : existsb (deleteRecord_fails fl)
                      (recordsOfSector sid (records db)) = true).
    { apply existsb_exists. exists k. split; [apply list_elem_of_In; exact Hk | exact E]. }
    congruence. }
  split; [apply lookup_delete_eq |]. split; [| split].
  - intros k r Hk Hsid. rewrite delete_all_lookup in Hk.
    case_decide as Hn; [discriminate |].
    apply Hn. assert (Hin : k ∈ recordsOfSector sid (records db))
      by (apply elem_of_recordsOfSector; exists r; split; assumption).
    split; [exact Hin | exact (Hok k Hin)].
  - intros k r Hk Hsid. rewrite delete_all_lookup.
    rewrite decide_False; [exact Hk |].
    intros [Hin _]. apply elem_of_recordsOfSector in Hin as (r' & Hk' & Hsid').
    congruence.
  - intros k Hne. apply lookup_delete_ne. congruence.
Qed.

Lemma deleteSector_cascades_witness :
  sectors (snd (deleteSector (mkFaults false (fun _ => false) false) "sec1"
                  (mkDb {[ "sec1"%string := Samples.lab ]} Samples.one_morning)))
    !! "sec1"%string = None.
Proof.
  apply (deleteSector_cascades (mkFaults false (fun _ => false) false) "sec1"%string
           (mkDb {[ "sec1"%string := Samples.lab ]} Samples.one_morning)).
  vm_compute. reflexivity.
Defined.

End DashboardFacts.

(* ===================================================================== *)
(** * Facts about arrays                                                  *)
(* ===================================================================== *)

Module JSArrayFacts.
Import JSArray.

Section Sort.
Context {A : Type}.
Variable cmp : A -> A -> Z.

Lemma insert_by_Permutation x (l : list A) : insert_by cmp x l ≡ₚ x :: l.
Proof.
  induction l as [| h t IH]; simpl; [reflexivity |].
  destruct (cmp x h <=? 0); [reflexivity |].
  rewrite IH. apply Permutation_swap.
Qed.

(** Sorting rearranges: no element is lost, added or changed. *)
Lemma sort_by_Permutation (l : list A) : sort_by cmp l ≡ₚ l.
Proof.
  induction l as [| x l IH]; simpl; [reflexivity |].
  rewrite insert_by_Permutation. rewrite IH. reflexivity.
Qed.

Lemma sort_by_length (l : list A) : length (sort_by cmp l) = length l.
Proof. apply Permutation_length, sort_by_Permutation. Qed.

(** For a comparator that is a total preorder, the result is ordered. *)
Hypothesis cmp_total : forall x y, cmp x y <= 0 \/ cmp y x <= 0.
Hypothesis cmp_trans : forall x y z, cmp x y <= 0 -> cmp y z <= 0 -> cmp x z <= 0.

Lemma insert_by_sorted x (l : list A) :
  StronglySorted (fun a b => cmp a b <= 0) l ->
  StronglySorted (fun a b => cmp a b <= 0) (insert_by cmp x l).
Proof.
  induction 1 as [| h t Hs IH Hh]; simpl.
  - constructor; constructor.
  - destruct (cmp x h <=? 0) eqn:E.
    + apply Z.leb_le in E. constructor; [constructor; assumption |].
      constructor; [exact E |].
      eapply Forall_impl; [exact Hh |]. intros y Hy. simpl in Hy.
      exact (cmp_trans x h y E Hy).
    + apply Z.leb_gt in E. constructor; [exact IH |].
      assert (Hhx : cmp h x <= 0) by (destruct (cmp_total x h); lia).
      rewrite insert_by_Permutation. constructor; assumption.
Qed.

Lemma sort_by_sorted (l : list A) :
  StronglySorted (fun a b => cmp a b <= 0) (sort_by cmp l).
Proof.
  induction l as [| x l IH]; simpl; [constructor |].
  apply insert_by_sorted. exact IH.
Qed.
End Sort.

End JSArrayFacts.

(* ===================================================================== *)
(** * Facts about the history chart                                       *)
(* ===================================================================== *)

Module HistoryFacts.
Import Time JSArray Double History TimeFacts JSArrayFacts DoubleFacts.

(** ** Keys: printing a day and reading it back *)

Lemma digit_value_digit n : digit_value (digit n) = Some (n mod 10).
Proof.
  unfold digit_value, digit.
  assert (Hr : 0 <= n mod 10 < 10) by (apply Z.mod_pos_bound; lia).
  rewrite nat_ascii_embedding by lia.
  replace (Z.of_nat (48 + Z.to_nat (n mod 10))) with (48 + n mod 10) by lia.
  replace (48 <=? 48 + n mod 10) with true by (symmetry; apply Z.leb_le; lia).
  replace (48 + n mod 10 <=? 57) with true by (symmetry; apply Z.leb_le; lia).
  simpl. f_equal. lia.
Qed.

Lemma Date_parse_pads y m d :
  0 <= y <= 9999 -> 1 <= m <= 12 -> 1 <= d <= 31 ->
  Date_parse (pad4 y +:+ "-" +:+ pad2 m +:+ "-" +:+ pad2 d)
  = Some (days_from_civil y m d * ms_per_day).
Proof.
  intros Hy Hm Hd. unfold pad4, pad2. cbv [append].
  unfold Date_parse. rewrite !digit_value_digit.
  replace (y / 1000 mod 10 * 1000 + y / 100 mod 10 * 100 + y / 10 mod 10 * 10 + y mod 10)
    with y by zdiv.
  replace (m / 10 mod 10 * 10 + m mod 10) with m by zdiv.
  replace (d / 10 mod 10 * 10 + d mod 10) with d by zdiv.
  replace (1 <=? m) with true by (symmetry; apply Z.leb_le; lia).
  replace (m <=? 12) with true by (symmetry; apply Z.leb_le; lia).
  replace (1 <=? d) with true by (symmetry; apply Z.leb_le; lia).
  replace (d <=? 31) with true by (symmetry; apply Z.leb_le; lia).
  reflexivity.
Qed.

(** The key of a reading is the key of its local day. *)
Lemma format_key tz t : format_yyyy_MM_dd tz t = key_of_day (local_day tz t).
Proof.
  unfold format_yyyy_MM_dd, key_of_day, getFullYear, getMonth, getDate.
  destruct (civil_from_days (local_day tz t)) as [[y m] d]. cbn [fst snd].
  replace (m - 1 + 1) with m by lia. reflexivity.
Qed.

(** [new Date] reads the key of a day back as midnight UTC of that day. *)
Lemma Date_parse_key d :
  -719528 <= d <= 2932896 ->
  Date_parse (key_of_day d) = Some (d * ms_per_day).
Proof.
  intros Hd. unfold key_of_day.
  pose proof (civil_year_range d Hd) as Hy.
  pose proof (civil_from_days_range d) as Hr.
  pose proof (days_from_civil_from_days d) as Hrt.
  destruct (civil_from_days d) as [[y m] dd]. cbn [fst] in Hy.
  rewrite Date_parse_pads by tauto. rewrite Hrt. reflexivity.
Qed.

(** Different days have different keys. *)
Lemma key_of_day_inj d d' :
  -719528 <= d <= 2932896 -> -719528 <= d' <= 2932896 ->
  key_of_day d = key_of_day d' -> d = d'.
Proof.
  intros Hd Hd' Heq.
  pose proof (Date_parse_key d Hd) as H1.
  pose proof (Date_parse_key d' Hd') as H2.
  rewrite Heq, H2 in H1. injection H1 as H1. unfold ms_per_day in H1. lia.
Qed.

(** ** The distinct days *)

Section FirstOccurrences.
Context {A : Type} `{EqDecision A}.

Lemma first_occurrences_snoc (l : list A) x :
  first_occurrences (l ++ [x])
  = if decide (x ∈ first_occurrences l)
    then first_occurrences l else first_occurrences l ++ [x].
Proof. unfold first_occurrences. rewrite foldl_app. reflexivity. Qed.

Lemma elem_of_first_occurrences (l : list A) x :
  x ∈ first_occurrences l <-> x ∈ l.
Proof.
  induction l as [| y l IH] using rev_ind.
  - reflexivity.
  - rewrite first_occurrences_snoc.
    destruct (decide (y ∈ first_occurrences l)) as [Hin | Hnin].
    + rewrite IH, elem_of_app, list_elem_of_singleton.
      split; [tauto |]. intros [H | ->]; [exact H | apply IH; exact Hin].
    + rewrite !elem_of_app, IH. reflexivity.
Qed.

Lemma NoDup_first_occurrences (l : list A) : NoDup (first_occurrences l).
Proof.
  induction l as [| y l IH] using rev_ind.
  - constructor.
  - rewrite first_occurrences_snoc.
    destruct (decide (y ∈ first_occurrences l)) as [Hin | Hnin]; [exact IH |].
    apply NoDup_app. split; [exact IH |]. split; [| apply NoDup_singleton].
    intros x Hx Hx'. apply list_elem_of_singleton in Hx'. subst x. contradiction.
Qed.
End FirstOccurrences.

Lemma days_with_readings_snoc tz recs r :
  days_with_readings tz (recs ++ [r])
  = if decide (day_of_reading tz r ∈ days_with_readings tz recs)
    then days_with_readings tz recs
    else days_with_readings tz recs ++ [day_of_reading tz r].
Proof.
  unfold days_with_readings. rewrite fmap_app. apply first_occurrences_snoc.
Qed.

Lemma elem_of_days_with_readings tz recs d :
  d ∈ days_with_readings tz recs
  <-> exists r, r ∈ recs /\ day_of_reading tz r = d.
Proof.
  unfold days_with_readings.
  rewrite elem_of_first_occurrences, list_elem_of_fmap.
  split; intros (r & H1 & H2); exists r; split; auto.
Qed.

Lemma readings_of_day_snoc tz d recs r :
  readings_of_day tz d (recs ++ [r])
  = readings_of_day tz d recs
    ++ (if decide (day_of_reading tz r = d) then [r] else []).
Proof.
  unfold readings_of_day. rewrite filter_app. reflexivity.
Qed.

Lemma readings_of_day_empty tz d recs :
  d ∉ days_with_readings tz recs -> readings_of_day tz d recs = [].
Proof.
  intros Hd. unfold readings_of_day.
  destruct (filter (fun r => day_of_reading tz r = d) recs) as [| r l] eqn:E;
    [reflexivity |].
  exfalso. apply Hd. apply elem_of_days_with_readings.
  assert (Hr : r ∈ filter (fun r => day_of_reading tz r = d) recs)
    by (rewrite E; left).
  apply list_elem_of_filter in Hr as [Hday Hin]. exists r. split; assumption.
Qed.

(** ** The groups *)

(** Pushing a reading of day [d0] onto the groups of the days [ds]. *)
Lemma push_reading_days (F F' : Z -> Group) d0 t h (ds : list Z) :
  NoDup ds ->
  (forall d, d ∈ ds -> key_of_day d = key_of_day d0 -> d = d0) ->
  (forall d, d ∈ ds -> d <> d0 -> F' d = F d) ->
  (d0 ∈ ds -> F' d0 = mkGroup (temps (F d0) ++ [t]) (humids (F d0) ++ [h])) ->
  (d0 ∉ ds -> F' d0 = mkGroup [t] [h]) ->
  push_reading (key_of_day d0) t h ((fun d => (key_of_day d, F d)) <$> ds)
  = (fun d => (key_of_day d, F' d)) <$> (if decide (d0 ∈ ds) then ds else ds ++ [d0]).
Proof.
  induction ds as [| d ds IH]; intros Hnd Hinj Hother Hin Hnin.
  - rewrite decide_False by apply not_elem_of_nil.
    cbn. rewrite Hnin by apply not_elem_of_nil. reflexivity.
  - apply NoDup_cons in Hnd as [Hd Hnd].
    rewrite fmap_cons. cbn [push_reading].
    destruct (String.eqb (key_of_day d) (key_of_day d0)) eqn:E.
    + apply String.eqb_eq in E.
      assert (d = d0) by (apply Hinj; [left | exact E]). subst d.
      rewrite decide_True by left. rewrite fmap_cons. f_equal.
      * rewrite Hin by left. reflexivity.
      * apply Forall_fmap_ext, Forall_forall. intros x Hx.
        rewrite Hother; [reflexivity | right; exact Hx |].
        intros ->. contradiction.
    + apply String.eqb_neq in E.
      assert (Hne : d <> d0) by (intros ->; apply E; reflexivity).
      rewrite IH; [| exact Hnd | | | |].
      * assert (Hd' : F' d = F d) by (apply Hother; [left | exact Hne]).
        destruct (decide (d0 ∈ ds)) as [Hds | Hds].
        -- rewrite decide_True by (right; exact Hds).
           rewrite fmap_cons, Hd'. reflexivity.
        -- rewrite decide_False.
           ++ rewrite <- app_comm_cons, fmap_cons, Hd'. reflexivity.
           ++ intros H. apply elem_of_cons in H as [H | H]; congruence.
      * intros x Hx. apply Hinj. right. exact Hx.
      * intros x Hx. apply Hother. right. exact Hx.
      * intros Hds. apply Hin. right. exact Hds.
      * intros Hds. apply Hnin. intros H.
        apply elem_of_cons in H as [H | H]; congruence.
Qed.

(** [groupedByDay] holds, for each day that has a reading and in the order
    the days first occur, the temperatures and humidities of that day's
    readings, in the order of the readings. *)
Lemma groupedByDay_spec tz recs :
  (forall r, r ∈ recs -> four_digit_year tz (timestamp r)) ->
  groupedByDay tz recs
  = (fun d => (key_of_day d, group_of_day tz recs d)) <$> days_with_readings tz recs.
Proof.
  induction recs as [| r recs IH] using rev_ind; intros Hyears; [reflexivity |].
  assert (Hrecs : forall r', r' ∈ recs -> four_digit_year tz (timestamp r'))
    by (intros r' Hr'; apply Hyears, elem_of_app; left; exact Hr').
  assert (Hr : four_digit_year tz (timestamp r))
    by (apply Hyears, elem_of_app; right; left).
  unfold groupedByDay. rewrite foldl_app. cbn [foldl].
  fold (groupedByDay tz recs). rewrite (IH Hrecs), format_key.
  fold (day_of_reading tz r). rewrite days_with_readings_snoc.
  apply push_reading_days.
  - apply NoDup_first_occurrences.
  - intros d Hd. apply key_of_day_inj; [| exact Hr].
    apply elem_of_days_with_readings in Hd as (r' & Hr' & <-).
    apply Hrecs. exact Hr'.
  - intros d _ Hne. unfold group_of_day. rewrite readings_of_day_snoc.
    rewrite decide_False by congruence. rewrite app_nil_r. reflexivity.
  - intros _. unfold group_of_day. rewrite readings_of_day_snoc.
    rewrite decide_True by reflexivity. rewrite !fmap_app. reflexivity.
  - intros Hnin. unfold group_of_day. rewrite readings_of_day_snoc.
    rewrite decide_True by reflexivity.
    rewrite (readings_of_day_empty tz _ recs Hnin). reflexivity.
Qed.

(** Every group becomes the point of its day. *)
Lemma mapM_point_of tz recs (ds : list Z) :
  (forall d, d ∈ ds -> -719528 <= d <= 2932896) ->
  mapM (point_of tz) ((fun d => (key_of_day d, group_of_day tz recs d)) <$> ds)
  = Some (daily_point tz recs <$> ds).
Proof.
  induction ds as [| d ds IH]; intros Hr; [reflexivity |].
  rewrite !fmap_cons. cbn [mapM]. rewrite IH by (intros x Hx; apply Hr; right; exact Hx).
  unfold point_of at 1. cbn [fst snd].
  rewrite Date_parse_key by (apply Hr; left). reflexivity.
Qed.

(** ** Rounding *)

Section Rounding.
Local Open Scope Q_scope.

(** The tenths that [toFixed(1)] prints are nearest to the number. *)
Lemma toFixed_1_nearest x :
  Qabs (inject_Z (toFixed_1 x) - x * 10) <= 1 # 2.
Proof.
  unfold toFixed_1. destruct (Qle_bool (0 # 1) x) eqn:E.
  - pose proof (Qfloor_le (x * (10 # 1) + (1 # 2))) as H1.
    pose proof (Qlt_floor (x * (10 # 1) + (1 # 2))) as H2.
    rewrite inject_Z_plus in H2. change (inject_Z 1) with 1 in H2.
    apply Qabs_Qle_condition. split; lra.
  - pose proof (Qfloor_le ((- x) * (10 # 1) + (1 # 2))) as H1.
    pose proof (Qlt_floor ((- x) * (10 # 1) + (1 # 2))) as H2.
    rewrite inject_Z_plus in H2. change (inject_Z 1) with 1 in H2.
    rewrite inject_Z_opp.
    apply Qabs_Qle_condition. split; lra.
Qed.

Lemma Qfloor_unique z n : inject_Z n <= z -> z < inject_Z n + 1 -> Qfloor z = n.
Proof.
  intros H1 H2.
  pose proof (Qfloor_le z) as F1. pose proof (Qlt_floor z) as F2.
  rewrite inject_Z_plus in F2. change (inject_Z 1) with 1 in F2.
  assert (Qfloor z < n + 1)%Z.
  { rewrite Zlt_Qlt, inject_Z_plus. change (inject_Z 1) with 1. lra. }
  assert (n < Qfloor z + 1)%Z.
  { rewrite Zlt_Qlt, inject_Z_plus. change (inject_Z 1) with 1. lra. }
  lia.
Qed.

Lemma toFixed_1_near x n : Qabs (x * 10 - inject_Z n) < 1 # 2 -> toFixed_1 x = n.
Proof.
  intros H. apply Qabs_Qlt_condition in H. destruct H as [Hl Hu].
  unfold toFixed_1. destruct (Qle_bool (0 # 1) x).
  - apply Qfloor_unique; lra.
  - rewrite (Qfloor_unique _ (- n)); [lia | |]; rewrite inject_Z_opp; lra.
Qed.

(** An integer that is a double comes back from [toFixed(1)]. *)
Lemma integer_back x X :
  x == inject_Z X -> nearest (toFixed_1 x # 10) = nearest x.
Proof.
  intros H. apply nearest_Qeq.
  rewrite (toFixed_1_near x (10 * X)).
  - rewrite H. unfold Qeq, inject_Z. cbn [Qnum Qden]. lia.
  - rewrite H, inject_Z_mult. change (inject_Z 10) with 10.
    setoid_replace (inject_Z X * 10 - 10 * inject_Z X) with 0
      using relation Qeq by ring.
    reflexivity.
Qed.

Lemma tenths_back a :
  nearest (toFixed_1 (nearest (a # 10)) # 10) = nearest (a # 10).
Proof.
  destruct (Z.eq_dec a 0%Z) as [-> | Ha]; [vm_compute; reflexivity |].
  set (t := a # 10).
  assert (Ht : ~ t == 0) by (unfold t, Qeq; cbn; lia).
  pose proof (nearest_error t) as Herr.
  pose proof (nearest_eq t) as Hx.
  set (e := ulp_exponent t) in *.
  destruct (Z_le_gt_dec e (-4)) as [He | He].
  - (* fine spacing: the tenths printed are those of [a] *)
    assert (H32 : pow2 (e - 1) <= 1 # 32).
    { change (1 # 32) with (pow2 (-5)). apply pow2_le. lia. }
    rewrite (toFixed_1_near (nearest t) a); [reflexivity |].
    apply Qabs_Qle_condition in Herr. apply Qabs_Qlt_condition.
    assert (Ea : inject_Z a == t * 10) by (unfold t, Qeq, inject_Z; cbn; lia).
    split; lra.
  - (* coarse spacing *)
    assert (Hmag : (mag t = e + 52)%Z) by (unfold e, ulp_exponent in *; lia).
    destruct (mag_spec t Ht) as [M1 M2]. rewrite Hmag in M1, M2.
    pose proof (pow2_pos e) as Pe.
    set (s := t / pow2 e) in *.
    set (m := round_ties_even s) in *.
    assert (Hs : t == s * pow2 e) by (unfold s; field; lra).
    assert (P52 : pow2 (e + 52) == inject_Z (2 ^ 52) * pow2 e).
    { rewrite <- (pow2_inject 52) by lia. rewrite <- pow2_add.
      replace (52 + e)%Z with (e + 52)%Z by lia. reflexivity. }
    assert (P53 : pow2 (e + 52 + 1) == inject_Z (2 ^ 53) * pow2 e).
    { rewrite <- (pow2_inject 53) by lia. rewrite <- pow2_add.
      replace (53 + e)%Z with (e + 52 + 1)%Z by lia. reflexivity. }
    rewrite P52 in M1. rewrite P53 in M2.
    assert (Hm : (2 ^ 52 <= m <= 2 ^ 53 \/ - 2 ^ 53 <= m <= - 2 ^ 52)%Z).
    { destruct (Qlt_le_dec t 0) as [Hneg | Hpos].
      - right. rewrite (Qabs_neg t) in M1, M2 by lra.
        assert (s <= inject_Z (- 2 ^ 52)) by (rewrite inject_Z_opp; nra).
        assert (inject_Z (- 2 ^ 53) <= s) by (rewrite inject_Z_opp; nra).
        split; [apply round_ties_even_ge | apply round_ties_even_le]; assumption.
      - left. rewrite (Qabs_pos t) in M1, M2 by lra.
        assert (inject_Z (2 ^ 52) <= s) by nra.
        assert (s <= inject_Z (2 ^ 53)) by nra.
        split; [apply round_ties_even_ge | apply round_ties_even_le]; assumption. }
    destruct (Z_le_gt_dec 0 e) as [He0 | He0].
    { (* the double is an integer *)
      rewrite (integer_back (nearest t) (m * 2 ^ e)); [apply nearest_idem |].
      rewrite Hx, inject_Z_mult, pow2_inject by lia. reflexivity. }
    assert (He3 : e = (-3)%Z \/ e = (-2)%Z \/ e = (-1)%Z) by lia.
    assert (Hedge : (Z.abs m = 2 ^ 52 \/ Z.abs m = 2 ^ 53
                     \/ 2 ^ 52 < Z.abs m < 2 ^ 53)%Z) by lia.
    destruct Hedge as [Hedge | [Hedge | Hin]].
    { rewrite (integer_back (nearest t) (m / 8 * 2 ^ (e + 3))); [apply nearest_idem |].
      rewrite Hx.
      assert (m = 2 ^ 52 \/ m = - 2 ^ 52)%Z as [-> | ->] by lia;
        destruct He3 as [-> | [-> | ->]]; vm_compute; reflexivity. }
    { rewrite (integer_back (nearest t) (m / 8 * 2 ^ (e + 3))); [apply nearest_idem |].
      rewrite Hx.
      assert (m = 2 ^ 53 \/ m = - 2 ^ 53)%Z as [-> | ->] by lia;
        destruct He3 as [-> | [-> | ->]]; vm_compute; reflexivity. }
    (* strictly inside a binade: the numeral printed rounds back *)
    pose proof (toFixed_1_nearest (nearest t)) as Hn.
    set (n := toFixed_1 (nearest t)) in *.
    assert (Hy : n # 10 == inject_Z n * (1 # 10)) by (unfold Qeq; simpl; lia).
    set (y := n # 10) in *.
    assert (H8 : 1 # 8 <= pow2 e).
    { change (1 # 8) with (pow2 (-3)). apply pow2_le. lia. }
    assert (Hyx : Qabs (y - inject_Z m * pow2 e) <= 1 # 20).
    { rewrite <- Hx. apply Qabs_Qle_condition in Hn. apply Qabs_Qle_condition.
      split; lra. }
    apply Qabs_Qle_condition in Hyx.
    assert (HmQ : inject_Z (2 ^ 52) + 1 <= Qabs (inject_Z m)
                  /\ Qabs (inject_Z m) <= inject_Z (2 ^ 53) - 1).
    { assert (Qabs (inject_Z m) = inject_Z (Z.abs m)) as -> by reflexivity.
      change 1 with (inject_Z 1). unfold Qminus.
      rewrite <- inject_Z_opp, <- !inject_Z_plus, <- !Zle_Qle. lia. }
    change (inject_Z (2 ^ 52)) with 4503599627370496 in *.
    change (inject_Z (2 ^ 53)) with 9007199254740992 in *.
    assert (Hmagy : mag y = (e + 52)%Z).
    { apply mag_unique; rewrite ?P52, ?P53;
        destruct (Qlt_le_dec (inject_Z m) 0) as [Hneg | Hpos].
      - rewrite (Qabs_neg (inject_Z m)) in HmQ by lra.
        assert (Hy0 : y <= 0) by nra. rewrite (Qabs_neg y Hy0). nra.
      - rewrite (Qabs_pos (inject_Z m)) in HmQ by lra.
        assert (Hy0 : 0 <= y) by nra. rewrite (Qabs_pos y Hy0). nra.
      - rewrite (Qabs_neg (inject_Z m)) in HmQ by lra.
        assert (Hy0 : y <= 0) by nra. rewrite (Qabs_neg y Hy0). nra.
      - rewrite (Qabs_pos (inject_Z m)) in HmQ by lra.
        assert (Hy0 : 0 <= y) by nra. rewrite (Qabs_pos y Hy0). nra. }
    unfold nearest.
    assert (Hey : ulp_exponent y = e).
    { unfold ulp_exponent. rewrite Hmagy. unfold e, ulp_exponent in *. lia. }
    rewrite Hey.
    rewrite (round_ties_even_near (y / pow2 e) m); [reflexivity |].
    apply Qabs_Qlt_condition.
    assert (Hdiv : y / pow2 e - inject_Z m == (y - inject_Z m * pow2 e) / pow2 e)
      by (field; lra).
    rewrite Hdiv.
    split.
    + apply Qlt_shift_div_l; [exact Pe |]. nra.
    + apply Qlt_shift_div_r; [exact Pe |]. nra.
Qed.

(** A number of tenths, read as a number, is charted as it is: rounding it
    to one decimal gives the same double back. *)
Lemma round1_tenths a : round1 (of_Q (a # 10)) = of_Q (a # 10).
Proof.
  destruct (of_Q_cases (a # 10)) as [H | [s H]]; rewrite H; [| reflexivity].
  cbn [round1].
  destruct (Qle_bool (inject_Z (10 ^ 21)) (Qabs (nearest (a # 10))));
    [reflexivity |].
  unfold parseFloat_tenths. rewrite <- H. unfold of_Q.
  rewrite tenths_back. reflexivity.
Qed.

(** The mean of a single number is that number. *)
Lemma average_single q : average [of_Q q] = of_Q q.
Proof.
  unfold average, sum. cbn [foldl length]. rewrite add_zero_l. apply div_one.
Qed.

End Rounding.

(** ** The chart *)

(** The chart is the list of the daily points, sorted by label. *)
Lemma chartData_spec tz recs :
  (forall r, r ∈ recs -> four_digit_year tz (timestamp r)) ->
  chartData tz recs = Some (sort_by by_date (daily_means tz recs)).
Proof.
  intros Hyears. destruct recs as [| r recs]; [reflexivity |].
  unfold chartData. rewrite (groupedByDay_spec tz _ Hyears).
  rewrite mapM_point_of; [reflexivity |].
  intros d Hd. apply elem_of_days_with_readings in Hd as (r' & Hr' & <-).
  apply Hyears. exact Hr'.
Qed.

(** C4, on the code: west of UTC the point of a day carries the date of
    the day before.  Three readings of 20, 22 and 24 degrees taken on
    15 March 2024 in Brasília (UTC-3) and one of 18 degrees taken on the
    16th are grouped under the keys of their local days, but the chart
    shows the mean 22 at 14/03 and the 18 of the 16th at 15/03: the key
    [yyyy-MM-dd] of a day is read back by [new Date] as midnight UTC, which
    in local time is still the evening before.  On a device on UTC the
    same readings are charted at 15/03 and 16/03. *)
Theorem chartData_labels_day_before :
  (format_dd_MM Samples.brt <$> (timestamp <$> Samples.march_readings_brt)
   = ["15/03"; "15/03"; "15/03"; "16/03"]%string)
  /\ (fst <$> groupedByDay Samples.brt Samples.march_readings_brt
      = ["2024-03-15"; "2024-03-16"]%string)
  /\ Date_parse "2024-03-15" = Some (Date_of_fields 0 2024 2 15 0 0 0 0)
  /\ format_dd_MM Samples.brt (Date_of_fields 0 2024 2 15 0 0 0 0) = "14/03"%string
  /\ chartData Samples.brt Samples.march_readings_brt
     = Some [ mkPoint "14/03" (Finite (22 # 1)) (Finite (52 # 1));
              mkPoint "15/03" (Finite (18 # 1)) (Finite (60 # 1)) ]
  /\ chartData Samples.utc Samples.march_readings
     = Some [ mkPoint "15/03" (Finite (22 # 1)) (Finite (52 # 1));
              mkPoint "16/03" (Finite (18 # 1)) (Finite (60 # 1)) ].
Proof. repeat split; vm_compute; reflexivity. Qed.

(** The means are those of binary64 arithmetic.  Of two readings of 22.4
    and 22.5 degrees the exact mean is 22.45, but the sum of the two doubles
    is rounded to the double just below 44.9, its half lies below 22.45, and
    the chart shows 22.4 (the double nearest to it). *)
Example mean_of_a_tie :
  chartData Samples.utc Samples.tie_readings
  = Some [mkPoint "15/03" (of_Q (224 # 10)) (Finite (50 # 1))]
  /\ of_Q (224 # 10) = Finite (3152519739159347 # 140737488355328)
  /\ average [of_Q (224 # 10); of_Q (225 # 10)]
     = Finite (6319113227154227 # 281474976710656)
  /\ (6319113227154227 # 281474976710656 < 2245 # 100)%Q.
Proof. repeat split; vm_compute; reflexivity. Qed.

(** C6, on the code: of three readings on 31 January and one on 1 February
    the chart puts the point of 1 February first, because the points are
    sorted by their labels [dd/MM] read as text. *)
Theorem chartData_across_month_boundary :
  days_with_readings Samples.utc Samples.four_readings = [19753; 19754]
  /\ key_of_day 19753 = "2024-01-31"%string
  /\ key_of_day 19754 = "2024-02-01"%string
  /\ chartData Samples.utc Samples.four_readings
     = Some [ daily_point Samples.utc Samples.four_readings 19754;
              daily_point Samples.utc Samples.four_readings 19753 ]
  /\ daily_point Samples.utc Samples.four_readings 19754
     = mkPoint "01/02" (Finite (18 # 1)) (Finite (60 # 1))
  /\ daily_point Samples.utc Samples.four_readings 19753
     = mkPoint "31/01" (Finite (22 # 1)) (Finite (52 # 1)).
Proof. repeat split; vm_compute; reflexivity. Qed.

End HistoryFacts.

(* ===================================================================== *)
(** * Facts about the CSV export                                          *)
(* ===================================================================== *)

Module CsvFacts.
Import Time JSArray Csv JSArrayFacts.








End CsvFacts.

(* ===================================================================== *)
(** * Facts about ordered queries                                         *)
(* ===================================================================== *)

Module QueryFacts.
Import JSArray Query JSArrayFacts.

(** The order of texts is transitive. *)
Lemma string_compare_trans (a b c : string) :
  String.compare a b <> Gt -> String.compare b c <> Gt -> String.compare a c <> Gt.
Proof.
  revert b c. induction a as [| x a IH]; intros [| y b] [| z c]; simpl;
    try congruence.
  unfold Ascii.compare.
  destruct (N.compare_spec (N_of_ascii x) (N_of_ascii y)) as [Hxy | Hxy | Hxy];
    destruct (N.compare_spec (N_of_ascii y) (N_of_ascii z)) as [Hyz | Hyz | Hyz];
    intros H1 H2; try congruence.
  - rewrite Hxy, Hyz, N.compare_refl. eapply IH; eassumption.
  - replace (N_of_ascii x ?= N_of_ascii z)%N with Lt; [discriminate |].
    symmetry. apply N.compare_lt_iff. lia.
  - replace (N_of_ascii x ?= N_of_ascii z)%N with Lt; [discriminate |].
    symmetry. apply N.compare_lt_iff. lia.
  - replace (N_of_ascii x ?= N_of_ascii z)%N with Lt; [discriminate |].
    symmetry. apply N.compare_lt_iff. lia.
Qed.

Lemma comparison_sign_le c : comparison_sign c <= 0 <-> c <> Gt.
Proof. destruct c; simpl; split; intros; try lia; congruence. Qed.

Lemma by_time_then_id_total a b :
  by_time_then_id a b <= 0 \/ by_time_then_id b a <= 0.
Proof.
  unfold by_time_then_id.
  destruct (Z.eqb_spec (timestamp a.2) (timestamp b.2)) as [E | E].
  - rewrite E, Z.eqb_refl. rewrite !comparison_sign_le.
    rewrite (String.compare_antisym b.1 a.1).
    destruct (String.compare a.1 b.1); simpl; [left | left | right]; congruence.
  - replace (timestamp b.2 =? timestamp a.2) with false
      by (symmetry; apply Z.eqb_neq; congruence).
    lia.
Qed.

Lemma by_time_then_id_trans a b c :
  by_time_then_id a b <= 0 -> by_time_then_id b c <= 0 -> by_time_then_id a c <= 0.
Proof.
  unfold by_time_then_id.
  destruct (Z.eqb_spec (timestamp a.2) (timestamp b.2)) as [E1 | E1];
    destruct (Z.eqb_spec (timestamp b.2) (timestamp c.2)) as [E2 | E2];
    destruct (Z.eqb_spec (timestamp a.2) (timestamp c.2)) as [E3 | E3];
    rewrite ?comparison_sign_le; intros H1 H2; try lia.
  eapply string_compare_trans; eassumption.
Qed.

Lemma by_time_then_id_time a b :
  by_time_then_id a b <= 0 -> timestamp a.2 <= timestamp b.2.
Proof.
  unfold by_time_then_id.
  destruct (Z.eqb_spec (timestamp a.2) (timestamp b.2)); lia.
Qed.

Lemma StronglySorted_weaken' {A : Type} (R R' : A -> A -> Prop) (l : list A) :
  (forall a b, R a b -> R' a b) ->
  StronglySorted R l -> StronglySorted R' l.
Proof.
  intros HR. induction 1 as [| a l Hs IH Ha]; constructor; [exact IH |].
  eapply Forall_impl; [exact Ha |]. intros b. apply HR.
Qed.

Section Ordered.
Variable P : RecordDoc -> bool.
Variable recs : gmap string RecordDoc.

(** The snapshot holds the documents that pass the filter, each once. *)
Lemma elem_of_ordered_docs k r :
  (k, r) ∈ ordered_docs P recs <-> recs !! k = Some r /\ P r = true.
Proof.
  unfold ordered_docs. rewrite sort_by_Permutation, elem_of_map_to_list.
  apply map_lookup_filter_Some.
Qed.

Lemma NoDup_ordered_docs_ids : NoDup (fst <$> ordered_docs P recs).
Proof.
  unfold ordered_docs.
  rewrite (fmap_Permutation fst _ _ (sort_by_Permutation by_time_then_id _)).
  apply NoDup_fst_map_to_list.
Qed.

(** The snapshot is in ascending order of timestamp. *)
Lemma ordered_docs_sorted :
  StronglySorted (fun a b => timestamp a.2 <= timestamp b.2) (ordered_docs P recs).
Proof.
  apply (StronglySorted_weaken' (fun a b => by_time_then_id a b <= 0)).
  - apply by_time_then_id_time.
  - apply sort_by_sorted.
    + apply by_time_then_id_total.
    + apply by_time_then_id_trans.
Qed.

Lemma ordered_records_sorted :
  StronglySorted (fun a b => timestamp a <= timestamp b)
                 (snd <$> ordered_docs P recs).
Proof.
  pose proof ordered_docs_sorted as H.
  induction H as [| a l Hs IH Ha]; [constructor |].
  rewrite fmap_cons. constructor; [exact IH |].
  apply Forall_fmap. exact Ha.
Qed.

Lemma elem_of_ordered_records r :
  r ∈ snd <$> ordered_docs P recs
  <-> exists k, recs !! k = Some r /\ P r = true.
Proof.
  rewrite list_elem_of_fmap. split.
  - intros ([k r'] & -> & H). exists k. apply elem_of_ordered_docs. exact H.
  - intros (k & H). exists (k, r). split; [reflexivity |].
    apply elem_of_ordered_docs. exact H.
Qed.
End Ordered.

End QueryFacts.

(* ===================================================================== *)
(** * More facts about the submission page                                *)
(* ===================================================================== *)

Module SubmissionMore.
Import Time Num Submission TimeFacts SubmissionFacts.

(** A submission that ends with the success toast went through both store
    calls and found no match. *)
Lemma onSubmit_saved_inv e s f values (recs : gmap string RecordDoc) :
  fst (onSubmit e (Some s) f values recs) = Saved ->
  getDocs_ok e = true
  /\ snapshot_empty (duplicateQuery e s values recs) = true
  /\ addDoc_ok e = true
  /\ snd (onSubmit e (Some s) f values recs)
     = <[new_id e := dataToSave e s f values]> recs.
Proof.
  unfold onSubmit.
  destruct (getDocs_ok e); simpl; [| discriminate].
  destruct (snapshot_empty _); simpl; [| discriminate].
  destruct (addDoc_ok e); simpl; [| discriminate].
  intros _. repeat split.
Qed.

(** X1.  A submission that does not end with the success toast (no sector,
    duplicate, store failure) leaves the store exactly as it was; one that
    does adds one document and changes no other: with a fresh id, every
    stored reading is still there and the store has grown by one. *)
Theorem onSubmit_frame e sector f values (recs : gmap string RecordDoc) :
  recs !! new_id e = None ->
  (fst (onSubmit e sector f values recs) <> Saved ->
   snd (onSubmit e sector f values recs) = recs)
  /\ (fst (onSubmit e sector f values recs) = Saved ->
      size (snd (onSubmit e sector f values recs)) = S (size recs))
  /\ (forall k r, recs !! k = Some r ->
        snd (onSubmit e sector f values recs) !! k = Some r).
Proof.
  intros Hfresh. destruct sector as [s|].
  2:{ simpl. split; [reflexivity |]. split; [discriminate | auto]. }
  destruct (onSubmit_cases e s f values recs) as [Hsaved | [Hns Hsame]].
  - rewrite Hsaved. simpl. split; [congruence |]. split.
    + intros _. apply map_size_insert_None. exact Hfresh.
    + intros k r Hk. rewrite lookup_insert_ne; [exact Hk | congruence].
  - rewrite Hsame. split; [reflexivity |]. split; [contradiction | auto].
Qed.

Lemma onSubmit_frame_witness :
  size (snd (onSubmit Samples.env_10h (Some Samples.lab) Samples.form_night
               Samples.values_night Samples.one_morning))
  = S (size Samples.one_morning).
Proof.
  apply (onSubmit_frame Samples.env_10h (Some Samples.lab) Samples.form_night
           Samples.values_night Samples.one_morning); reflexivity.
Defined.

(** X2.  Two submissions in a row: once a reading is saved, a second
    submission for the same sector and shift is rejected as a duplicate and
    writes nothing, provided the server time of the first lies on the local
    day of the second and before its last 999 ms. *)
Theorem second_submission_rejected e1 e2 s f1 f2 v1 v2
    (recs recs1 : gmap string RecordDoc) :
  onSubmit e1 (Some s) f1 v1 recs = (Saved, recs1) ->
  getDocs_ok e2 = true ->
  v_turno v2 = v_turno v1 ->
  start_of_local_day (tz e2) (now e2) <= server_time e1
    <= end_of_local_day (tz e2) (now e2) - 999 ->
  onSubmit e2 (Some s) f2 v2 recs1 = (DuplicateShift, recs1).
Proof.
  intros Hfirst Hget Hturno Hwin.
  assert (Hsaved : fst (onSubmit e1 (Some s) f1 v1 recs) = Saved)
    by (rewrite Hfirst; reflexivity).
  apply onSubmit_saved_inv in Hsaved as (_ & _ & _ & Hstore).
  rewrite Hfirst in Hstore. simpl in Hstore. subst recs1.
  apply onSubmit_rejects_match; [exact Hget |].
  exists (new_id e1), (dataToSave e1 s f1 v1).
  split; [apply lookup_insert_eq |]. split; [reflexivity |].
  split; [symmetry; exact Hturno |].
  rewrite check_startOfDay_spec, check_endOfDay_spec. exact Hwin.
Qed.

Lemma second_submission_rejected_witness :
  onSubmit Samples.env_10h (Some Samples.lab) Samples.form_ok Samples.values_ok
    (<[ "new"%string := dataToSave Samples.env_10h Samples.lab Samples.form_ok
                          Samples.values_ok ]> ∅)
  = (DuplicateShift,
     <[ "new"%string := dataToSave Samples.env_10h Samples.lab Samples.form_ok
                          Samples.values_ok ]> ∅).
Proof.
  apply (second_submission_rejected Samples.env_10h Samples.env_10h Samples.lab
           Samples.form_ok Samples.form_ok Samples.values_ok Samples.values_ok ∅).
  - reflexivity.
  - reflexivity.
  - reflexivity.
  - split; apply Z.leb_le; vm_compute; reflexivity.
Defined.

(** X3.  The rule of one reading per sector and shift in the window of the
    check is kept by a submission whose server time falls in that window:
    if no two stored readings of one sector and shift lie in the window
    before, none do after. *)
Theorem onSubmit_keeps_one_per_shift e sector f values
    (recs : gmap string RecordDoc) :
  startOfDay e <= server_time e <= endOfDay e ->
  (forall k1 k2 r1 r2,
     recs !! k1 = Some r1 -> recs !! k2 = Some r2 ->
     sector_id r1 = sector_id r2 -> turno r1 = turno r2 ->
     startOfDay e <= timestamp r1 <= endOfDay e ->
     startOfDay e <= timestamp r2 <= endOfDay e -> k1 = k2) ->
  forall k1 k2 r1 r2,
    snd (onSubmit e sector f values recs) !! k1 = Some r1 ->
    snd (onSubmit e sector f values recs) !! k2 = Some r2 ->
    sector_id r1 = sector_id r2 -> turno r1 = turno r2 ->
    startOfDay e <= timestamp r1 <= endOfDay e ->
    startOfDay e <= timestamp r2 <= endOfDay e -> k1 = k2.
Proof.
  intros Hserver Hinv k1 k2 r1 r2 H1 H2 Hsec Htur Hw1 Hw2.
  destruct sector as [s|]; [| simpl in H1, H2; eauto].
  destruct (onSubmit_cases e s f values recs) as [Hsaved | [_ Hsame]].
  2:{ rewrite Hsame in H1, H2. eauto. }
  assert (Hfst : fst (onSubmit e (Some s) f values recs) = Saved)
    by (rewrite Hsaved; reflexivity).
  apply onSubmit_saved_inv in Hfst as (_ & Hempty & _ & Hstore).
  rewrite Hstore in H1, H2.
  pose proof (proj1 (snapshot_empty_iff e s values recs) Hempty) as Hnone.
  destruct (decide (k1 = new_id e)) as [-> | Hn1];
    destruct (decide (k2 = new_id e)) as [-> | Hn2]; [reflexivity | | |].
  - rewrite lookup_insert_eq in H1. rewrite lookup_insert_ne in H2 by congruence.
    injection H1 as <-. exfalso. apply (Hnone k2 r2 H2).
    simpl in Hsec, Htur. split; [congruence |]. split; [congruence | exact Hw2].
  - rewrite lookup_insert_eq in H2. rewrite lookup_insert_ne in H1 by congruence.
    injection H2 as <-. exfalso. apply (Hnone k1 r1 H1).
    simpl in Hsec, Htur. split; [congruence |]. split; [congruence | exact Hw1].
  - rewrite lookup_insert_ne in H1, H2 by congruence. eauto.
Qed.

Lemma onSubmit_keeps_one_per_shift_witness :
  snd (onSubmit Samples.env_10h (Some Samples.lab) Samples.form_night
         Samples.values_night Samples.one_morning) !! "r1"%string
  = Some Samples.morning_8h
  /\ snd (onSubmit Samples.env_10h (Some Samples.lab) Samples.form_night
            Samples.values_night Samples.one_morning) !! "new"%string
     = Some (dataToSave Samples.env_10h Samples.lab Samples.form_night
               Samples.values_night)
  /\ turno Samples.morning_8h
     <> turno (dataToSave Samples.env_10h Samples.lab Samples.form_night
                 Samples.values_night).
Proof.
  split; [reflexivity |]. split; [reflexivity |]. intros Ht.
  assert (H : "r1"%string = "new"%string); [| discriminate H].
  apply (onSubmit_keeps_one_per_shift Samples.env_10h (Some Samples.lab)
           Samples.form_night Samples.values_night Samples.one_morning)
    with (r1 := Samples.morning_8h)
         (r2 := dataToSave Samples.env_10h Samples.lab Samples.form_night
                  Samples.values_night).
  - split; apply Z.leb_le; vm_compute; reflexivity.
  - intros k1 k2 r1 r2 H1 H2 _ _ _ _. unfold Samples.one_morning in H1, H2.
    apply lookup_singleton_Some in H1 as [<- _].
    apply lookup_singleton_Some in H2 as [<- _]. reflexivity.
  - reflexivity.
  - reflexivity.
  - reflexivity.
  - exact Ht.
  - split; apply Z.leb_le; vm_compute; reflexivity.
  - split; apply Z.leb_le; vm_compute; reflexivity.
Defined.

(** What validation hands on when it accepts. *)
Lemma formSchema_Some f values :
  formSchema f = Some values ->
  Number (f_temperature f) = Some (v_temperature values)
  /\ Number (f_humidity f) = Some (v_humidity values)
  /\ f_turno f = Some (v_turno values)
  /\ v_observation values = f_observation f
  /\ within (0 # 1) (100 # 1) (v_humidity values) = true
  /\ (forall o, f_observation f = Some o -> (length_utf16 o <= 500)%nat).
Proof.
  unfold formSchema, coerce_number.
  destruct (Number (f_temperature f)) as [t|]; [| discriminate].
  destruct (Number (f_humidity f)) as [h|]; [| discriminate].
  destruct (f_turno f) as [sh|]; [| discriminate].
  destruct (within (0 # 1) (100 # 1) h) eqn:Hh; [| discriminate].
  destruct (f_observation f) as [o|] eqn:Ho; cbn [andb].
  - destruct (Nat.leb (length_utf16 o) 500) eqn:Hlen; [| discriminate].
    intros [= <-]. cbn. repeat split; try assumption.
    intros o' [= <-]. apply Nat.leb_le. exact Hlen.
  - intros [= <-]. cbn. repeat split; try assumption. discriminate.
Qed.

(** X4.  A numeric field left empty is submitted as zero and flagged OK:
    the reading saved for a form whose temperature (humidity) field is
    empty has temperature (humidity) 0 and [is_temp_ok] ([is_humidity_ok])
    true, whatever the bounds of the sector. *)
Theorem empty_field_saved_as_zero_and_ok e s f (recs recs' : gmap string RecordDoc) :
  handleSubmit e (Some s) f recs = Some (Saved, recs') ->
  exists r,
    recs' !! new_id e = Some r
    /\ (f_temperature f = FEmpty ->
        temperature r = (0 # 1)%Q /\ is_temp_ok r = true)
    /\ (f_humidity f = FEmpty ->
        humidity r = (0 # 1)%Q /\ is_humidity_ok r = true).
Proof.
  intros Hsub. apply handleSubmit_saved in Hsub as (values & Hval & ->).
  apply formSchema_Some in Hval as (Ht & Hh & _).
  exists (dataToSave e s f values). split; [apply lookup_insert_eq |].
  split; intros Hempty.
  - rewrite Hempty in Ht. cbn in Ht. injection Ht as Ht.
    cbn [dataToSave temperature is_temp_ok]. unfold isTempOutOfRange.
    rewrite Hempty, <- Ht. split; reflexivity.
  - rewrite Hempty in Hh. cbn in Hh. injection Hh as Hh.
    cbn [dataToSave humidity is_humidity_ok]. unfold isHumidityOutOfRange.
    rewrite Hempty, <- Hh. split; reflexivity.
Qed.

Lemma empty_field_saved_as_zero_and_ok_witness :
  exists r,
    (<[ "new"%string := dataToSave Samples.env_10h Samples.lab Samples.form_untouched
                          (mkValues (0 # 1)%Q (0 # 1)%Q Manha None) ]>
       (∅ : gmap string RecordDoc)) !! new_id Samples.env_10h = Some r
    /\ temperature r = (0 # 1)%Q /\ is_temp_ok r = true
    /\ within (temp_min Samples.lab) (temp_max Samples.lab) (temperature r) = false.
Proof.
  destruct (empty_field_saved_as_zero_and_ok Samples.env_10h Samples.lab
              Samples.form_untouched ∅
              (<[ "new"%string := dataToSave Samples.env_10h Samples.lab
                                    Samples.form_untouched
                                    (mkValues (0 # 1)%Q (0 # 1)%Q Manha None) ]> ∅))
    as (r & Hr & Ht & _); [vm_compute; reflexivity |].
  exists r. split; [exact Hr |].
  destruct (Ht eq_refl) as [H0 Hok]. split; [exact H0 |]. split; [exact Hok |].
  rewrite H0. reflexivity.
Defined.

(** X5.  Every reading saved through the form carries a humidity between 0
    and 100, an observation of at most 500 UTF-16 code units, the length
    that [max(500)] counts (the empty text when none was given), the shift
    that was chosen, the sector of the page and the time of the server, not
    of the device. *)
Theorem saved_reading_is_valid e s f (recs recs' : gmap string RecordDoc) :
  handleSubmit e (Some s) f recs = Some (Saved, recs') ->
  exists r,
    recs' !! new_id e = Some r
    /\ (0 <= humidity r /\ humidity r <= 100)%Q
    /\ (length_utf16 (observation r) <= 500)%nat
    /\ (f_observation f = None -> observation r = "")
    /\ f_turno f = Some (turno r)
    /\ sector_id r = s_id s
    /\ timestamp r = server_time e.
Proof.
  intros Hsub. apply handleSubmit_saved in Hsub as (values & Hval & ->).
  apply formSchema_Some in Hval as (_ & _ & Hturno & Hobs & Hhum & Hlen).
  exists (dataToSave e s f values). split; [apply lookup_insert_eq |].
  cbn [dataToSave humidity observation turno sector_id timestamp].
  split; [apply within_true; exact Hhum |].
  rewrite Hobs. split; [| split; [intros ->; reflexivity | auto]].
  destruct (f_observation f) as [o|]; simpl; [apply Hlen; reflexivity | lia].
Qed.

Lemma saved_reading_is_valid_witness :
  exists r,
    (<[ "new"%string := dataToSave Samples.env_10h Samples.lab Samples.form_accented
                          Samples.values_accented ]> (∅ : gmap string RecordDoc))
      !! new_id Samples.env_10h = Some r
    /\ (0 <= humidity r /\ humidity r <= 100)%Q
    /\ (length_utf16 (observation r) <= 500)%nat
    /\ String.length (observation r) = 520%nat
    /\ timestamp r = server_time Samples.env_10h.
Proof.
  destruct (saved_reading_is_valid Samples.env_10h Samples.lab
              Samples.form_accented ∅
              (<[ "new"%string := dataToSave Samples.env_10h Samples.lab
                                    Samples.form_accented
                                    Samples.values_accented ]> ∅))
    as (r & Hr & Hh & Hlen & _ & _ & _ & Ht); [vm_compute; reflexivity |].
  exists r. split; [exact Hr |]. split; [exact Hh |]. split; [exact Hlen |].
  split; [| exact Ht].
  rewrite lookup_insert_eq in Hr. injection Hr as <-. vm_compute. reflexivity.
Defined.

End SubmissionMore.

(* ===================================================================== *)
(** * Facts about loading the submission page                             *)
(* ===================================================================== *)

Module RecordPageLoadFacts.
Import Time Submission Query RecordPageLoad TimeFacts QueryFacts.

Lemma today_of_sector_true tz now sid r :
  today_of_sector tz now sid r = true
  <-> sector_id r = sid
      /\ start_of_local_day tz now <= timestamp r <= end_of_local_day tz now.
Proof.
  unfold today_of_sector.
  rewrite andb_true_iff, bool_decide_eq_true, DashboardFacts.in_window_true.
  rewrite DashboardFacts.today_startOfDay_spec, DashboardFacts.today_endOfDay_spec.
  reflexivity.
Qed.

(** X6.  The table 'Registros de Hoje' lists exactly the readings of the
    sector whose timestamp lies on the local day of the device, each once,
    in ascending order of timestamp; a reading the page has just saved is in
    it when the server time lies on that day. *)
Theorem dailyRecords_today tz now sid (recs : gmap string RecordDoc) :
  (forall k r, (k, r) ∈ dailyRecords tz now sid recs
     <-> recs !! k = Some r /\ sector_id r = sid
         /\ start_of_local_day tz now <= timestamp r <= end_of_local_day tz now)
  /\ NoDup (fst <$> dailyRecords tz now sid recs)
  /\ StronglySorted (fun a b => timestamp a.2 <= timestamp b.2)
                    (dailyRecords tz now sid recs)
  /\ (forall e s f values,
        s_id s = sid ->
        fst (onSubmit e (Some s) f values recs) = Saved ->
        start_of_local_day tz now <= server_time e <= end_of_local_day tz now ->
        (new_id e, dataToSave e s f values)
          ∈ dailyRecords tz now sid (snd (onSubmit e (Some s) f values recs))).
Proof.
  assert (Hmem : forall (m : gmap string RecordDoc) k r,
            (k, r) ∈ dailyRecords tz now sid m
            <-> m !! k = Some r /\ sector_id r = sid
                /\ start_of_local_day tz now <= timestamp r
                     <= end_of_local_day tz now).
  { intros m k r. unfold dailyRecords.
    rewrite elem_of_ordered_docs, today_of_sector_true. reflexivity. }
  split; [apply Hmem |].
  split; [apply NoDup_ordered_docs_ids |].
  split; [apply ordered_docs_sorted |].
  intros e s f values Hsid Hsaved Hday.
  apply SubmissionMore.onSubmit_saved_inv in Hsaved as (_ & _ & _ & ->).
  apply Hmem. split; [apply lookup_insert_eq |]. split; [exact Hsid | exact Hday].
Qed.

Lemma dailyRecords_today_witness :
  ("new"%string,
   dataToSave Samples.env_10h Samples.lab Samples.form_ok Samples.values_ok)
    ∈ dailyRecords Samples.brt (Samples.mar15 12 0 0 0) "sec1"
        (snd (onSubmit Samples.env_10h (Some Samples.lab) Samples.form_ok
                Samples.values_ok ∅)).
Proof.
  destruct (dailyRecords_today Samples.brt (Samples.mar15 12 0 0 0) "sec1"%string ∅)
    as (_ & _ & _ & Hnew).
  apply (Hnew Samples.env_10h Samples.lab Samples.form_ok Samples.values_ok).
  - reflexivity.
  - reflexivity.
  - split; apply Z.leb_le; vm_compute; reflexivity.
Defined.

End RecordPageLoadFacts.

(* ===================================================================== *)
(** * More facts about the dashboard                                      *)
(* ===================================================================== *)

Module DashboardMore.
Import Time Dashboard DashboardQuery TimeFacts DashboardFacts.

Lemma shifts_ext (a b : Shifts) :
  (forall t, get_shift t a = true <-> get_shift t b = true) -> a = b.
Proof.
  intros H. destruct a as [a1 a2 a3], b as [b1 b2 b3].
  pose proof (H Manha) as H1. pose proof (H Tarde) as H2. pose proof (H Noite) as H3.
  simpl in *.
  f_equal; apply eq_true_iff_eq; assumption.
Qed.

(** X7.  The status does not depend on the order in which the snapshots of
    the sectors arrive, nor on how often one arrives: two deliveries that
    cover the same sectors give the same status. *)
Theorem sectorsStatus_delivery_order tz now sectorsData
    (recs : gmap string RecordDoc) (delivered delivered' : list Sector) :
  (forall k, (exists s, s ∈ delivered /\ s_id s = k)
             <-> (exists s, s ∈ delivered' /\ s_id s = k)) ->
  sectorsStatus tz now sectorsData recs delivered
  = sectorsStatus tz now sectorsData recs delivered'.
Proof.
  intros Hsame. apply map_eq. intros k.
  pose proof (sectorsStatus_invariant tz now sectorsData recs delivered k) as H1.
  pose proof (sectorsStatus_invariant tz now sectorsData recs delivered' k) as H2.
  destruct (initialStatus sectorsData !! k) as [e0|]; [| congruence].
  destruct H1 as ([n1 sh1] & -> & Hn1 & Hs1).
  destruct H2 as ([n2 sh2] & -> & Hn2 & Hs2).
  simpl in *. f_equal. f_equal; [congruence |].
  apply shifts_ext. intros t. rewrite Hs1, Hs2, (Hsame k). reflexivity.
Qed.

Lemma sectorsStatus_delivery_order_witness :
  sectorsStatus Samples.brt (Samples.mar15 10 0 0 0) [Samples.lab]
    Samples.one_morning [Samples.lab; Samples.lab]
  = sectorsStatus Samples.brt (Samples.mar15 10 0 0 0) [Samples.lab]
      Samples.one_morning [Samples.lab].
Proof.
  apply sectorsStatus_delivery_order. intros k. split.
  - intros (s & Hs & Hk). exists s. split; [| exact Hk].
    apply elem_of_cons in Hs as [-> | Hs]; [left | exact Hs].
  - intros (s & Hs & Hk). exists s. split; [right; exact Hs | exact Hk].
Defined.

(** X8.  From the form to the dashboard: once a reading is saved with a
    server time on the local day of the dashboard, the dashboard of the
    sector's administrator shows the shift of the reading as done. *)
Theorem saved_reading_marks_shift e s f values (recs : gmap string RecordDoc)
    tz now sectorsData delivered s' :
  fst (Submission.onSubmit e (Some s) f values recs) = Submission.Saved ->
  s' ∈ sectorsData -> s' ∈ delivered -> s_id s' = s_id s ->
  start_of_local_day tz now <= Submission.server_time e <= end_of_local_day tz now ->
  exists entry,
    sectorsStatus tz now sectorsData
      (snd (Submission.onSubmit e (Some s) f values recs)) delivered !! s_id s
      = Some entry
    /\ get_shift (Submission.v_turno values) (shifts entry) = true.
Proof.
  intros Hsaved Hin Hdel Hid Hday.
  apply SubmissionMore.onSubmit_saved_inv in Hsaved as (_ & _ & _ & ->).
  set (recs' := <[Submission.new_id e := Submission.dataToSave e s f values]> recs).
  pose proof (sectorsStatus_invariant tz now sectorsData recs' delivered (s_id s))
    as Hinv.
  destruct (initialStatus_lookup sectorsData s' Hin) as (e0 & He0 & _).
  rewrite Hid in He0. rewrite He0 in Hinv.
  destruct Hinv as (entry & Hentry & _ & Hshifts).
  exists entry. split; [exact Hentry |]. apply Hshifts. split.
  - exists s'. split; assumption.
  - exists (Submission.new_id e), (Submission.dataToSave e s f values).
    split; [apply lookup_insert_eq |]. split; [reflexivity |].
    split; [reflexivity | exact Hday].
Qed.

Lemma saved_reading_marks_shift_witness :
  exists entry,
    sectorsStatus Samples.brt (Samples.mar15 12 0 0 0) [Samples.lab]
      (snd (Submission.onSubmit Samples.env_10h (Some Samples.lab) Samples.form_ok
              Samples.values_ok ∅)) [Samples.lab] !! s_id Samples.lab
      = Some entry
    /\ get_shift (Submission.v_turno Samples.values_ok) (shifts entry) = true.
Proof.
  apply (saved_reading_marks_shift Samples.env_10h Samples.lab Samples.form_ok
           Samples.values_ok ∅ Samples.brt (Samples.mar15 12 0 0 0)
           [Samples.lab] [Samples.lab] Samples.lab).
  - reflexivity.
  - left.
  - left.
  - reflexivity.
  - split; apply Z.leb_le; vm_compute; reflexivity.
Defined.

(** Whether a sector of the store is the user's can be decided. *)
Lemma classic_own uid db k :
  (exists s, sectors db !! k = Some s /\ admin_uid s = uid)
  \/ ~ (exists s, sectors db !! k = Some s /\ admin_uid s = uid).
Proof.
  destruct (sectors db !! k) as [s|] eqn:E.
  - destruct (decide (admin_uid s = uid)) as [Hu | Hu].
    + left. exists s. auto.
    + right. intros (s' & [= <-] & H). contradiction.
  - right. intros (s' & H & _). discriminate.
Qed.

(** The sectors of the dashboard are the user's own. *)
Lemma elem_of_sectorsData uid db s :
  s ∈ sectorsData (Some uid) db
  <-> exists s0, sectors db !! s_id s = Some s0 /\ admin_uid s0 = uid
        /\ s = RecordPageLoad.with_id (s_id s) s0.
Proof.
  unfold sectorsData. rewrite list_elem_of_fmap. split.
  - intros ([k s0] & -> & Hin). apply elem_of_map_to_list in Hin.
    apply map_lookup_filter_Some in Hin as [Hk Huid]. exists s0. auto.
  - intros (s0 & Hk & Huid & Heq). exists (s_id s, s0). split; [exact Heq |].
    apply elem_of_map_to_list. apply map_lookup_filter_Some. auto.
Qed.

(** X9.  The status of the dashboard has an entry for a sector exactly when
    the sector belongs to the signed-in user; the sectors of other
    administrators never appear, and without a user the status is empty. *)
Theorem dashboard_shows_own_sectors db tz now :
  (forall uid delivered k,
     is_Some (sectorsStatus tz now (sectorsData (Some uid) db) (records db)
                delivered !! k)
     <-> exists s, sectors db !! k = Some s /\ admin_uid s = uid)
  /\ (forall delivered k,
        sectorsStatus tz now (sectorsData None db) (records db) delivered !! k
        = None).
Proof.
  split.
  - intros uid delivered k. split.
    + intros [entry Hentry].
      destruct (classic_own uid db k) as [Hown | Hnot]; [exact Hown |].
      rewrite sectorsStatus_no_other_entry in Hentry; [discriminate |].
      intros s Hs Hid. apply elem_of_sectorsData in Hs as (s0 & Hk & Huid & _).
      apply Hnot. exists s0. rewrite <- Hid. auto.
    + intros (s0 & Hk & Huid).
      pose proof (sectorsStatus_invariant tz now (sectorsData (Some uid) db)
                    (records db) delivered k) as Hinv.
      assert (Hin : RecordPageLoad.with_id k s0 ∈ sectorsData (Some uid) db).
      { apply elem_of_sectorsData. exists s0. auto. }
      destruct (initialStatus_lookup _ _ Hin) as (e0 & He0 & _).
      change (s_id (RecordPageLoad.with_id k s0)) with k in He0.
      rewrite He0 in Hinv. destruct Hinv as (entry & -> & _).
      eexists. reflexivity.
  - intros delivered k. apply sectorsStatus_no_other_entry.
    intros s Hs. simpl in Hs. apply elem_of_nil in Hs. contradiction.
Qed.

(** What [deleteSector] leaves behind, in every outcome. *)
Lemma deleteSector_records fl sid db k :
  getDocs_fails fl = false ->
  records (snd (deleteSector fl sid db)) !! k
  = if decide (k ∈ recordsOfSector sid (records db)
               /\ deleteRecord_fails fl k = false)
    then None else records db !! k.
Proof.
  intros Hget. unfold deleteSector. rewrite Hget.
  destruct (existsb _ _); [apply delete_all_lookup |].
  destruct (deleteSectorDoc_fails fl); apply delete_all_lookup.
Qed.

Lemma deleteSector_Deleted_inv fl sid db :
  fst (deleteSector fl sid db) = Deleted ->
  getDocs_fails fl = false
  /\ (forall k, k ∈ recordsOfSector sid (records db) ->
                deleteRecord_fails fl k = false)
  /\ sectors (snd (deleteSector fl sid db)) = delete sid (sectors db).
Proof.
  unfold deleteSector.
  destruct (getDocs_fails fl); [discriminate |].
  destruct (existsb _ _) eqn:Hex; [discriminate |].
  destruct (deleteSectorDoc_fails fl); [discriminate |].
  intros _. split; [reflexivity |]. split; [| reflexivity].
  intros k Hk. destruct (deleteRecord_fails fl k) eqn:E; [| reflexivity].
  assert (Htrue : existsb (deleteRecord_fails fl)
                    (recordsOfSector sid (records db)) = true).
  { apply existsb_exists. exists k. split; [apply list_elem_of_In; exact Hk | exact E]. }
  congruence.
Qed.

Lemma deleteSector_no_reading_left fl sid db k r :
  fst (deleteSector fl sid db) = Deleted ->
  records (snd (deleteSector fl sid db)) !! k = Some r ->
  sector_id r <> sid.
Proof.
  intros Hdel Hk Hsid.
  apply deleteSector_Deleted_inv in Hdel as (Hget & Hok & _).
  rewrite deleteSector_records in Hk by exact Hget.
  case_decide as Hn; [discriminate |].
  apply Hn. assert (Hin : k ∈ recordsOfSector sid (records db))
    by (apply elem_of_recordsOfSector; exists r; split; assumption).
  split; [exact Hin | exact (Hok k Hin)].
Qed.

(** X10.  Whatever the outcome of [deleteSector], the other sectors and
    the readings of other sectors stay as they were, nothing is added, and
    the sector document is removed only together with all its readings:
    when the deletion fails the sector document is still there, and when
    the sector document is gone no reading refers to it. *)
Theorem deleteSector_frame fl sid db :
  (forall k, k <> sid ->
     sectors (snd (deleteSector fl sid db)) !! k = sectors db !! k)
  /\ (forall k r, records db !! k = Some r -> sector_id r <> sid ->
        records (snd (deleteSector fl sid db)) !! k = Some r)
  /\ (forall k r, records (snd (deleteSector fl sid db)) !! k = Some r ->
        records db !! k = Some r)
  /\ (fst (deleteSector fl sid db) = DeleteFailed ->
      sectors (snd (deleteSector fl sid db)) = sectors db)
  /\ (fst (deleteSector fl sid db) = Deleted ->
      sectors (snd (deleteSector fl sid db)) !! sid = None
      /\ forall k r, records (snd (deleteSector fl sid db)) !! k = Some r ->
           sector_id r <> sid).
Proof.
  split; [| split; [| split; [| split]]].
  - intros k Hne. unfold deleteSector.
    destruct (getDocs_fails fl); [reflexivity |].
    destruct (existsb _ _); [reflexivity |].
    destruct (deleteSectorDoc_fails fl); [reflexivity |].
    apply lookup_delete_ne. congruence.
  - intros k r Hk Hsid. destruct (getDocs_fails fl) eqn:Hget.
    + unfold deleteSector. rewrite Hget. exact Hk.
    + rewrite deleteSector_records by exact Hget.
      rewrite decide_False; [exact Hk |].
      intros [Hin _]. apply elem_of_recordsOfSector in Hin as (r' & Hk' & Hsid').
      congruence.
  - intros k r Hk. destruct (getDocs_fails fl) eqn:Hget.
    + unfold deleteSector in Hk. rewrite Hget in Hk. exact Hk.
    + rewrite deleteSector_records in Hk by exact Hget.
      case_decide; [discriminate | exact Hk].
  - unfold deleteSector.
    destruct (getDocs_fails fl); [reflexivity |].
    destruct (existsb _ _); [reflexivity |].
    destruct (deleteSectorDoc_fails fl); [reflexivity | discriminate].
  - intros Hdel. split.
    + apply deleteSector_Deleted_inv in Hdel as (_ & _ & ->).
      apply lookup_delete_eq.
    + intros k r. apply deleteSector_no_reading_left. exact Hdel.
Qed.

Lemma deleteSector_frame_witness :
  sectors (snd (deleteSector (mkFaults false (fun _ => true) false) "sec1"
                  (mkDb {[ "sec1"%string := Samples.lab ]} Samples.one_morning)))
  = {[ "sec1"%string := Samples.lab ]}.
Proof.
  destruct (deleteSector_frame (mkFaults false (fun _ => true) false) "sec1"%string
              (mkDb {[ "sec1"%string := Samples.lab ]} Samples.one_morning))
    as (_ & _ & _ & Hfail & _).
  apply Hfail. vm_compute. reflexivity.
Defined.

(** X11.  Deleting a sector a second time changes nothing: after a
    successful deletion, another [deleteSector] of the same id whose store
    calls succeed ends with the success toast and leaves the store as it
    is. *)
Theorem deleteSector_again fl fl' sid db :
  fst (deleteSector fl sid db) = Deleted ->
  getDocs_fails fl' = false ->
  deleteSectorDoc_fails fl' = false ->
  deleteSector fl' sid (snd (deleteSector fl sid db))
  = (Deleted, snd (deleteSector fl sid db)).
Proof.
  intros Hdel Hget Hsec.
  assert (Hnone : recordsOfSector sid (records (snd (deleteSector fl sid db))) = []).
  { destruct (recordsOfSector sid _) as [| k l] eqn:E; [reflexivity |].
    exfalso.
    assert (Hk : k ∈ recordsOfSector sid (records (snd (deleteSector fl sid db))))
      by (rewrite E; left).
    apply elem_of_recordsOfSector in Hk as (r & Hk & Hsid).
    exact (deleteSector_no_reading_left fl sid db k r Hdel Hk Hsid). }
  apply deleteSector_Deleted_inv in Hdel as (_ & _ & Hsectors).
  unfold deleteSector at 1. rewrite Hget, Hnone, Hsec. cbn [existsb foldl].
  rewrite Hsectors, delete_delete_eq, <- Hsectors.
  destruct (snd (deleteSector fl sid db)). reflexivity.
Qed.

Lemma deleteSector_again_witness :
  deleteSector (mkFaults false (fun _ => false) false) "sec1"
    (snd (deleteSector (mkFaults false (fun _ => false) false) "sec1"
            (mkDb {[ "sec1"%string := Samples.lab ]} Samples.one_morning)))
  = (Deleted,
     snd (deleteSector (mkFaults false (fun _ => false) false) "sec1"
            (mkDb {[ "sec1"%string := Samples.lab ]} Samples.one_morning))).
Proof.
  apply deleteSector_again.
  - vm_compute. reflexivity.
  - reflexivity.
  - reflexivity.
Defined.

(** X12.  After a sector is deleted, its submission link no longer loads a
    sector and a submission from a freshly loaded page writes nothing; but a
    page that had loaded the sector before the deletion still saves its
    reading, which then refers to a sector that no longer exists. *)
Theorem submission_after_deleteSector fl sid db e f values :
  fst (deleteSector fl sid db) = Deleted ->
  RecordPageLoad.fetchSector true sid (snd (deleteSector fl sid db))
    = RecordPageLoad.NotFound
  /\ Submission.onSubmit e
       (RecordPageLoad.sector_state
          (RecordPageLoad.fetchSector true sid (snd (deleteSector fl sid db))))
       f values (records (snd (deleteSector fl sid db)))
     = (Submission.NoSector, records (snd (deleteSector fl sid db)))
  /\ (forall s,
        RecordPageLoad.fetchSector true sid db = RecordPageLoad.Loaded s ->
        Submission.getDocs_ok e = true -> Submission.addDoc_ok e = true ->
        Submission.onSubmit e (Some s) f values
          (records (snd (deleteSector fl sid db)))
        = (Submission.Saved,
           <[Submission.new_id e := Submission.dataToSave e s f values]>
             (records (snd (deleteSector fl sid db))))
        /\ sector_id (Submission.dataToSave e s f values) = sid
        /\ sectors (snd (deleteSector fl sid db)) !! sid = None).
Proof.
  intros Hdel.
  assert (Hgone : sectors (snd (deleteSector fl sid db)) !! sid = None).
  { pose proof Hdel as H. apply deleteSector_Deleted_inv in H as (_ & _ & ->).
    apply lookup_delete_eq. }
  assert (Hload : RecordPageLoad.fetchSector true sid (snd (deleteSector fl sid db))
                  = RecordPageLoad.NotFound).
  { unfold RecordPageLoad.fetchSector. rewrite Hgone. reflexivity. }
  split; [exact Hload |]. split; [rewrite Hload; reflexivity |].
  intros s Hs Hget Hadd.
  assert (Hid : s_id s = sid).
  { unfold RecordPageLoad.fetchSector in Hs.
    destruct (sectors db !! sid); [| discriminate]. injection Hs as <-. reflexivity. }
  split; [| split; [exact Hid | exact Hgone]].
  apply SubmissionFacts.onSubmit_saves_fresh; [exact Hget | | exact Hadd].
  intros k r Hk (Hsid & _).
  apply (deleteSector_no_reading_left fl sid db k r Hdel Hk). congruence.
Qed.

Lemma submission_after_deleteSector_witness :
  RecordPageLoad.fetchSector true "sec1"
    (snd (deleteSector (mkFaults false (fun _ => false) false) "sec1"
            (mkDb {[ "sec1"%string := Samples.lab ]} Samples.one_morning)))
  = RecordPageLoad.NotFound.
Proof.
  apply (submission_after_deleteSector (mkFaults false (fun _ => false) false)
           "sec1"%string (mkDb {[ "sec1"%string := Samples.lab ]} Samples.one_morning)
           Samples.env_10h Samples.form_ok Samples.values_ok).
  vm_compute. reflexivity.
Defined.

End DashboardMore.

(* ===================================================================== *)
(** * Facts about the sector form                                         *)
(* ===================================================================== *)

Module SectorFormFacts.
Import Num SectorForm.

Lemma Qltb_true a b : Qltb a b = true <-> (a < b)%Q.
Proof.
  unfold Qltb. rewrite negb_true_iff. split.
  - intros H. apply Qnot_le_lt. intros Hle.
    apply Qle_bool_iff in Hle. congruence.
  - intros H. destruct (Qle_bool b a) eqn:E; [| reflexivity].
    apply Qle_bool_iff in E. exfalso. exact (Qlt_not_le _ _ H E).
Qed.

Lemma min1_true s : min1 s = true <-> s <> "".
Proof.
  unfold min1. destruct s; simpl; split; intros H; congruence.
Qed.

(** What [sectorSchema] accepts. *)
Lemma sectorSchema_Some f v :
  sectorSchema f = Some v ->
  v_name v = f_name f /\ v_location v = f_location f
  /\ v_responsible_name v = f_responsible_name f
  /\ Submission.Number (f_temp_min f) = Some (v_temp_min v)
  /\ Submission.Number (f_temp_max f) = Some (v_temp_max v)
  /\ Submission.Number (f_humidity_min f) = Some (v_humidity_min v)
  /\ Submission.Number (f_humidity_max f) = Some (v_humidity_max v)
  /\ forall uid, valid_sector (doc_of_values v uid).
Proof.
  unfold sectorSchema, Submission.coerce_number.
  destruct (Submission.Number (f_temp_min f)) as [tmin|]; [| discriminate].
  destruct (Submission.Number (f_temp_max f)) as [tmax|]; [| discriminate].
  destruct (Submission.Number (f_humidity_min f)) as [hmin|]; [| discriminate].
  destruct (Submission.Number (f_humidity_max f)) as [hmax|]; [| discriminate].
  destruct (_ && _) eqn:Hchk; [| discriminate].
  intros [= <-]. cbn.
  repeat (apply andb_true_iff in Hchk as [Hchk ?]).
  do 7 (split; [reflexivity |]).
  intros uid. unfold valid_sector. cbn.
  repeat match goal with
         | H : within _ _ _ = true |- _ => apply SubmissionFacts.within_true in H
         | H : Qltb _ _ = true |- _ => apply Qltb_true in H
         | H : min1 _ = true |- _ => apply min1_true in H
         end.
  tauto.
Qed.

(** A valid document passes the schema when it is put back into the form. *)
Lemma sectorSchema_form_of_sector d :
  valid_sector d ->
  sectorSchema (form_of_sector d)
  = Some (mkValues (d_name d) (d_location d) (d_responsible_name d)
                   (d_temp_min d) (d_temp_max d) (d_humidity_min d)
                   (d_humidity_max d)).
Proof.
  intros (Ht & Hh & Hlo & Hhi & Hn & Hl & Hr).
  unfold sectorSchema, form_of_sector, Submission.coerce_number.
  cbn [Submission.Number f_name f_location f_responsible_name f_temp_min
       f_temp_max f_humidity_min f_humidity_max].
  apply min1_true in Hn, Hl, Hr. rewrite Hn, Hl, Hr.
  assert (H1 : within (0 # 1) (100 # 1) (d_humidity_min d) = true).
  { apply SubmissionFacts.within_true. split; [exact Hlo |].
    apply Qlt_le_weak. eapply Qlt_le_trans; eassumption. }
  assert (H2 : within (0 # 1) (100 # 1) (d_humidity_max d) = true).
  { apply SubmissionFacts.within_true. split; [| exact Hhi].
    apply Qlt_le_weak. eapply Qle_lt_trans; eassumption. }
  rewrite H1, H2. apply Qltb_true in Ht, Hh. rewrite Ht, Hh. reflexivity.
Qed.

(** What [onSubmit] does to the collection. *)
Lemma sector_onSubmit_cases e v p (secs : gmap string SectorDoc) :
  (exists uid k, user e = Some uid
     /\ (editingSector p = Some k /\ is_Some (secs !! k)
           /\ fst (fst (onSubmit e v p secs)) = Updated
         \/ editingSector p = None /\ k = new_id e
           /\ fst (fst (onSubmit e v p secs)) = Added)
     /\ snd (fst (onSubmit e v p secs)) = handleFormOpenChange false p
     /\ snd (onSubmit e v p secs) = <[k := doc_of_values v uid]> secs)
  \/ ((fst (fst (onSubmit e v p secs)) = NotSignedIn
       \/ fst (fst (onSubmit e v p secs)) = Failed)
      /\ snd (fst (onSubmit e v p secs)) = p
      /\ snd (onSubmit e v p secs) = secs).
Proof.
  unfold onSubmit. destruct (user e) as [uid|]; [| right; auto].
  destruct (editingSector p) as [k|] eqn:Hed.
  - destruct (secs !! k) eqn:Hk; [| right; auto].
    destruct (store_ok e); [| right; auto].
    left. exists uid, k. split; [reflexivity |]. split; [| auto].
    left. split; [reflexivity |]. split; [rewrite Hk; eexists; reflexivity | reflexivity].
  - destruct (store_ok e); [| right; auto].
    left. exists uid, (new_id e). split; [reflexivity |]. split; [| auto].
    right. auto.
Qed.

(** X13.  The sector form only ever writes valid sectors: whatever document
    a submission adds or changes has a minimum temperature below its
    maximum, a minimum humidity below its maximum, both between 0 and 100,
    a name, a location and a responsible person that are not empty, and the
    signed-in user as owner; it is the edited sector or a new one, every
    other sector stays as it was, and without a user or when the store call
    fails nothing changes at all. *)
Theorem sector_form_writes_valid e p (secs secs' : gmap string SectorDoc) o p' :
  handleSubmit e p secs = Some (o, p', secs') ->
  (forall k d, secs' !! k = Some d -> secs !! k <> Some d ->
     valid_sector d
     /\ user e = Some (d_admin_uid d)
     /\ (editingSector p = Some k /\ o = Updated
         \/ editingSector p = None /\ k = new_id e /\ o = Added))
  /\ (forall k d, secs !! k = Some d ->
        editingSector p <> Some k -> k <> new_id e -> secs' !! k = Some d)
  /\ (o = NotSignedIn \/ o = Failed -> secs' = secs /\ p' = p)
  /\ (user e = None -> o = NotSignedIn).
Proof.
  unfold handleSubmit. destruct (sectorSchema (form p)) as [v|] eqn:Hv;
    [| discriminate].
  intros Hsub. injection Hsub as Hsub.
  apply sectorSchema_Some in Hv as (_ & _ & _ & _ & _ & _ & _ & Hvalid).
  destruct (sector_onSubmit_cases e v p secs)
    as [(uid & k0 & Huser & Hkind & Hpage & Hstore) | (Hout & Hpage & Hstore)];
    rewrite Hsub in *; cbn [fst snd] in *; subst secs'.
  - split; [| split; [| split]].
    + intros k d Hk Hnew.
      destruct (decide (k = k0)) as [-> | Hne].
      * rewrite lookup_insert_eq in Hk. injection Hk as <-.
        split; [apply Hvalid |]. split; [exact Huser |].
        destruct Hkind as [(He & _ & Ho) | (He & Hk0 & Ho)]; [left | right]; auto.
      * rewrite lookup_insert_ne in Hk by congruence. contradiction.
    + intros k d Hk Hed Hid. rewrite lookup_insert_ne; [exact Hk |].
      destruct Hkind as [(He & _) | (_ & Hk0 & _)]; congruence.
    + intros [Ho | Ho]; destruct Hkind as [(_ & _ & H) | (_ & _ & H)]; congruence.
    + intros Hnone. congruence.
  - split; [| split; [| split]].
    + intros k d Hk Hnew. contradiction.
    + auto.
    + auto.
    + intros Hnone. unfold onSubmit in Hsub. rewrite Hnone in Hsub.
      congruence.
Qed.

Lemma sector_form_writes_valid_witness :
  valid_sector Scenarios.cold_room_doc
  /\ user Scenarios.owner = Some (d_admin_uid Scenarios.cold_room_doc).
Proof.
  destruct (sector_form_writes_valid Scenarios.owner Scenarios.adding
              Scenarios.one_sector
              (<[ "sec2"%string := Scenarios.cold_room_doc ]> Scenarios.one_sector)
              Added (handleFormOpenChange false Scenarios.adding))
    as (Hnew & _); [reflexivity |].
  destruct (Hnew "sec2"%string Scenarios.cold_room_doc) as (Hv & Hu & _).
  - reflexivity.
  - discriminate.
  - split; assumption.
Defined.

(** X14.  Opening a sector for editing and saving it unchanged leaves the
    collection as it is: for a valid sector owned by the signed-in user the
    form filled by [handleEditClick] passes validation, the update succeeds
    and writes back the same document; afterwards the form is closed and
    reset, and no sector is being edited. *)
Theorem edit_without_change e p k d (secs : gmap string SectorDoc) :
  secs !! k = Some d ->
  valid_sector d ->
  user e = Some (d_admin_uid d) ->
  store_ok e = true ->
  handleSubmit e (handleEditClick k d p) secs
  = Some (Updated, mkPage None defaultFormValues false, secs).
Proof.
  intros Hk Hvalid Huser Hok.
  unfold handleSubmit, handleEditClick. cbn [form].
  rewrite (sectorSchema_form_of_sector d Hvalid).
  unfold onSubmit. rewrite Huser. cbn [editingSector]. rewrite Hk, Hok.
  cbn [handleFormOpenChange]. do 2 f_equal.
  apply insert_id. rewrite Hk. destruct d. reflexivity.
Qed.

Lemma edit_without_change_witness :
  handleSubmit Scenarios.owner
    (handleEditClick "sec1" Scenarios.lab_doc Scenarios.adding) Scenarios.one_sector
  = Some (Updated, mkPage None defaultFormValues false, Scenarios.one_sector).
Proof.
  apply edit_without_change.
  - reflexivity.
  - unfold valid_sector. cbn.
    repeat split; try reflexivity; try discriminate.
  - reflexivity.
  - reflexivity.
Defined.

End SectorFormFacts.

(* ===================================================================== *)
(** * More facts about the history page                                   *)
(* ===================================================================== *)

Module HistoryMore.
Import Time JSArray Double History HistoryQuery TimeFacts JSArrayFacts QueryFacts
       DoubleFacts HistoryFacts.

(** Setting the day of the month back by [n] moves the date back [n] days,
    across the ends of months and years. *)
Lemma days_from_civil_back y m d n :
  days_from_civil y m (d - n) = days_from_civil y m d - n.
Proof. unfold days_from_civil. destruct (m <=? 2), (2 <? m); lia. Qed.

Lemma time_of_day_fields tz t :
  getHours tz t * ms_per_hour + getMinutes tz t * ms_per_minute
  + getSeconds tz t * ms_per_second + getMilliseconds tz t
  = ms_of_day tz t.
Proof.
  unfold getHours, getMinutes, getSeconds, getMilliseconds, ms_per_hour,
    ms_per_minute, ms_per_second.
  generalize (ms_of_day tz t). intros x. zdiv.
Qed.

Lemma Date_of_fields_eq tz y mi d hh mm ss ms :
  Date_of_fields tz y mi d hh mm ss ms
  = days_from_civil y (mi + 1) d * ms_per_day
    + hh * ms_per_hour + mm * ms_per_minute + ss * ms_per_second + ms - tz.
Proof. reflexivity. Qed.

Lemma subDays_spec tz t n : subDays tz t n = t - n * ms_per_day.
Proof.
  unfold subDays.
  pose proof (Date_of_fields_same_day tz t (getHours tz t) (getMinutes tz t)
                (getSeconds tz t) (getMilliseconds tz t)) as H.
  rewrite Date_of_fields_eq in H. rewrite Date_of_fields_eq, days_from_civil_back.
  pose proof (time_of_day_fields tz t) as Hf.
  assert (Ht : local_day tz t * ms_per_day + ms_of_day tz t = t + tz).
  { unfold local_day, ms_of_day, ms_per_day. zdiv. }
  set (D := days_from_civil (getFullYear tz t) (getMonth tz t + 1) (getDate tz t)) in *.
  set (a := getHours tz t * ms_per_hour) in *.
  set (b := getMinutes tz t * ms_per_minute) in *.
  set (c := getSeconds tz t * ms_per_second) in *.
  set (d := getMilliseconds tz t) in *.
  set (L := local_day tz t) in *. set (o := ms_of_day tz t) in *.
  clearbody D a b c d L o. unfold ms_per_day in *. lia.
Qed.

(** The history starts at local midnight, [days - 1] days before today. *)
Lemma startDate_spec tz now p :
  startDate tz now p = start_of_local_day tz now - (days p - 1) * ms_per_day.
Proof.
  unfold startDate, startOfDay. rewrite setHours_spec, subDays_spec.
  unfold start_of_local_day, local_day, ms_per_day, ms_per_hour, ms_per_minute,
    ms_per_second.
  generalize (days p - 1). intros k. zdiv.
Qed.

Lemma since_true tz now p sid r :
  since tz now p sid r = true
  <-> sector_id r = sid
      /\ local_day tz now - (days p - 1) <= local_day tz (timestamp r).
Proof.
  unfold since. rewrite andb_true_iff, bool_decide_eq_true, Z.leb_le.
  rewrite startDate_spec.
  unfold start_of_local_day, local_day, ms_per_day.
  generalize (days p - 1). intros k. split; intros [H1 H2]; (split; [exact H1 |]); zdiv.
Qed.

(** X15.  The history of a sector holds exactly its readings taken on one
    of the last [days] local calendar days (7 or 30, today included) or
    later, in ascending order of timestamp; the query starts at local
    midnight [days - 1] days before today, and every reading of the weekly
    history is in the monthly one. *)
Theorem history_records_window tz now sid (recs : gmap string RecordDoc) :
  (forall p r, r ∈ records tz now p sid recs
     <-> exists k, recs !! k = Some r /\ sector_id r = sid
           /\ local_day tz now - (days p - 1) <= local_day tz (timestamp r))
  /\ (forall p, StronglySorted (fun a b => timestamp a <= timestamp b)
                  (records tz now p sid recs))
  /\ (forall p, startDate tz now p
                = start_of_local_day tz now - (days p - 1) * ms_per_day)
  /\ (forall r, r ∈ records tz now week sid recs ->
                r ∈ records tz now month sid recs).
Proof.
  assert (Hmem : forall p r, r ∈ records tz now p sid recs
     <-> exists k, recs !! k = Some r /\ sector_id r = sid
           /\ local_day tz now - (days p - 1) <= local_day tz (timestamp r)).
  { intros p r. unfold records. rewrite elem_of_ordered_records.
    split; intros (k & Hk & H); exists k; (split; [exact Hk |]);
      apply since_true; exact H. }
  split; [exact Hmem |].
  split; [intros p; apply ordered_records_sorted |].
  split; [intros p; apply startDate_spec |].
  intros r Hr. apply Hmem in Hr as (k & Hk & Hsid & Hday). apply Hmem.
  exists k. split; [exact Hk |]. split; [exact Hsid |]. simpl in *. lia.
Qed.

(** Distinct integers of an interval are no more than the interval holds. *)
Lemma NoDup_interval_length (l : list Z) a n :
  NoDup l -> (forall x, x ∈ l -> a <= x < a + n) ->
  (length l <= Z.to_nat n)%nat.
Proof.
  intros Hnd Hin. rewrite <- (length_seqZ a n).
  apply submseteq_length, NoDup_submseteq; [exact Hnd |].
  intros x Hx. apply elem_of_seqZ. apply Hin. exact Hx.
Qed.

(** X16.  The chart of the history has at most one point per day of the
    period: at most 7 points for the week and 30 for the month, as long as
    no reading of the sector is dated later than today. *)
Theorem chart_of_history_size tz now p sid (recs : gmap string RecordDoc) :
  (forall k r, recs !! k = Some r -> sector_id r = sid ->
     four_digit_year tz (timestamp r)
     /\ timestamp r <= end_of_local_day tz now) ->
  exists pts,
    chartData tz (records tz now p sid recs) = Some pts
    /\ (length pts <= Z.to_nat (days p))%nat.
Proof.
  intros Hrecs.
  assert (Hmem : forall r, r ∈ records tz now p sid recs ->
            four_digit_year tz (timestamp r)
            /\ local_day tz now - (days p - 1) <= local_day tz (timestamp r)
                 <= local_day tz now).
  { intros r Hr. unfold records in Hr.
    apply elem_of_ordered_records in Hr as (k & Hk & Hs).
    apply since_true in Hs as [Hsid Hlo].
    destruct (Hrecs k r Hk Hsid) as [Hy Hhi]. split; [exact Hy |].
    split; [exact Hlo |].
    unfold end_of_local_day, start_of_local_day, local_day, ms_per_day in *. zdiv. }
  exists (sort_by by_date (daily_means tz (records tz now p sid recs))).
  split; [apply chartData_spec; intros r Hr; apply Hmem; exact Hr |].
  rewrite sort_by_length. unfold daily_means. rewrite length_fmap.
  apply (NoDup_interval_length _ (local_day tz now - (days p - 1))).
  - apply NoDup_first_occurrences.
  - intros d Hd. apply elem_of_days_with_readings in Hd as (r & Hr & <-).
    unfold day_of_reading. destruct (Hmem r Hr) as (_ & H1 & H2). lia.
Qed.

Lemma chart_of_history_size_witness :
  exists pts,
    chartData Samples.brt
      (records Samples.brt (Samples.mar15 10 0 0 0) week "sec1" Samples.one_morning)
    = Some pts
    /\ (length pts <= Z.to_nat (days week))%nat.
Proof.
  apply chart_of_history_size.
  intros k r Hk _. unfold Samples.one_morning in Hk.
  apply lookup_singleton_Some in Hk as [_ <-].
  split; [unfold four_digit_year |]; repeat split; apply Z.leb_le; vm_compute;
    reflexivity.
Defined.

(** The label depends on the local day only. *)
Lemma format_dd_MM_local_day tz t u :
  local_day tz t = local_day tz u -> format_dd_MM tz t = format_dd_MM tz u.
Proof. unfold format_dd_MM, getDate, getMonth. intros ->. reflexivity. Qed.

(** The point of the day of a reading is in the chart. *)
Lemma daily_point_in_chart tz recs r :
  (forall r', r' ∈ recs -> four_digit_year tz (timestamp r')) ->
  r ∈ recs ->
  exists pts,
    chartData tz recs = Some pts
    /\ daily_point tz recs (day_of_reading tz r) ∈ pts.
Proof.
  intros Hyears Hr. exists (sort_by by_date (daily_means tz recs)).
  split; [apply chartData_spec; exact Hyears |].
  rewrite sort_by_Permutation. unfold daily_means. apply list_elem_of_fmap.
  exists (day_of_reading tz r). split; [reflexivity |].
  apply elem_of_days_with_readings. exists r. split; [exact Hr | reflexivity].
Qed.

(** X17.  The label of a point: the chart reads the key [yyyy-MM-dd] of a
    day back as midnight UTC and prints it in local time, so on a device on
    or east of UTC the point that holds the means of a reading's day is
    labelled with the date of that day, and on a device west of UTC with the
    date of the day before.  The means are those of the day's readings as
    the chart computes them: the sum and the quotient in binary64
    arithmetic, then [toFixed(1)] read back. *)
Theorem chart_label_of_day tz recs r :
  (forall r', r' ∈ recs -> four_digit_year tz (timestamp r')) ->
  r ∈ recs ->
  exists pts p,
    chartData tz recs = Some pts /\ p ∈ pts
    /\ Temperatura p
       = round1 (average (temperature_of
                            <$> readings_of_day tz (local_day tz (timestamp r)) recs))
    /\ Umidade p
       = round1 (average (humidity_of
                            <$> readings_of_day tz (local_day tz (timestamp r)) recs))
    /\ (0 <= tz < ms_per_day -> date p = format_dd_MM tz (timestamp r))
    /\ (- ms_per_day <= tz < 0 ->
        date p = format_dd_MM tz (timestamp r - ms_per_day)).
Proof.
  intros Hyears Hr.
  destruct (daily_point_in_chart tz recs r Hyears Hr) as (pts & Hpts & Hin).
  exists pts, (daily_point tz recs (day_of_reading tz r)).
  split; [exact Hpts |]. split; [exact Hin |].
  split; [reflexivity |]. split; [reflexivity |].
  unfold daily_point, day_of_reading. cbn [date].
  split; intros Htz; apply format_dd_MM_local_day;
    unfold local_day, ms_per_day in *; zdiv.
Qed.

Lemma chart_label_of_day_witness :
  exists pts p,
    chartData Samples.brt [Samples.morning_8h] = Some pts /\ p ∈ pts
    /\ date p = format_dd_MM Samples.brt (timestamp Samples.morning_8h - ms_per_day).
Proof.
  destruct (chart_label_of_day Samples.brt [Samples.morning_8h] Samples.morning_8h)
    as (pts & p & Hpts & Hin & _ & _ & _ & Hwest).
  - intros r' Hr'. apply list_elem_of_singleton in Hr'. subst r'.
    unfold four_digit_year. split; apply Z.leb_le; vm_compute; reflexivity.
  - left.
  - exists pts, p. split; [exact Hpts |]. split; [exact Hin |].
    apply Hwest. split; [apply Z.leb_le | apply Z.ltb_lt]; vm_compute; reflexivity.
Defined.

(** X18.  A day with a single reading whose temperature and humidity have
    at most one decimal is charted with exactly these two numbers, the
    doubles nearest to the decimals: the sum, the quotient and the rounding
    to one decimal leave them as they are. *)
Theorem single_reading_day tz recs r a b :
  (forall r', r' ∈ recs -> four_digit_year tz (timestamp r')) ->
  readings_of_day tz (local_day tz (timestamp r)) recs = [r] ->
  (temperature r == a # 10)%Q ->
  (humidity r == b # 10)%Q ->
  exists pts p,
    chartData tz recs = Some pts /\ p ∈ pts
    /\ Temperatura p = temperature_of r
    /\ Umidade p = humidity_of r
    /\ temperature_of r = of_Q (a # 10)
    /\ humidity_of r = of_Q (b # 10).
Proof.
  intros Hyears Hday Ha Hb.
  assert (Hr : r ∈ recs).
  { assert (H : r ∈ readings_of_day tz (local_day tz (timestamp r)) recs)
      by (rewrite Hday; left).
    unfold readings_of_day in H. apply list_elem_of_filter in H as [_ H]. exact H. }
  destruct (daily_point_in_chart tz recs r Hyears Hr) as (pts & Hpts & Hin).
  exists pts, (daily_point tz recs (day_of_reading tz r)).
  split; [exact Hpts |]. split; [exact Hin |].
  unfold daily_point, day_of_reading. cbn [Temperatura Umidade].
  rewrite Hday. cbn [fmap list_fmap].
  assert (Ht : temperature_of r = of_Q (a # 10)) by (apply of_Q_Qeq; exact Ha).
  assert (Hh : humidity_of r = of_Q (b # 10)) by (apply of_Q_Qeq; exact Hb).
  rewrite Ht, Hh, !average_single, !round1_tenths.
  repeat split; reflexivity.
Qed.

Lemma single_reading_day_witness :
  exists pts p,
    chartData Samples.brt [Samples.R2] = Some pts /\ p ∈ pts
    /\ Temperatura p = temperature_of Samples.R2
    /\ Umidade p = humidity_of Samples.R2
    /\ temperature_of Samples.R2 = of_Q (305 # 10)
    /\ humidity_of Samples.R2 = of_Q (400 # 10).
Proof.
  apply (single_reading_day Samples.brt [Samples.R2] Samples.R2 305 400).
  - intros r' Hr'. apply list_elem_of_singleton in Hr'. subst r'.
    unfold four_digit_year. split; apply Z.leb_le; vm_compute; reflexivity.
  - vm_compute. reflexivity.
  - reflexivity.
  - reflexivity.
Defined.

(** X24.  The chart has exactly one point per local calendar day that has
    a reading, and no other: it is a rearrangement of the points of these
    days.  The point of a day holds the means of the readings of that day,
    computed in binary64 arithmetic and rounded by [toFixed(1)]; its label
    is the local date of midnight UTC of the day. *)
Theorem chart_one_point_per_day tz recs :
  (forall r, r ∈ recs -> four_digit_year tz (timestamp r)) ->
  (exists pts,
     chartData tz recs = Some pts
     /\ pts ≡ₚ daily_point tz recs <$> days_with_readings tz recs
     /\ length pts = length (days_with_readings tz recs))
  /\ NoDup (days_with_readings tz recs)
  /\ (forall d, d ∈ days_with_readings tz recs
        <-> exists r, r ∈ recs /\ local_day tz (timestamp r) = d)
  /\ (forall d,
        daily_point tz recs d
        = mkPoint
            (format_dd_MM tz (d * ms_per_day))
            (round1 (div (sum (temperature_of <$> readings_of_day tz d recs))
                         (of_nat (length (readings_of_day tz d recs)))))
            (round1 (div (sum (humidity_of <$> readings_of_day tz d recs))
                         (of_nat (length (readings_of_day tz d recs)))))
        /\ (forall r, r ∈ readings_of_day tz d recs
              <-> r ∈ recs /\ local_day tz (timestamp r) = d)).
Proof.
  intros Hyears. split; [| split; [| split]].
  - exists (sort_by by_date (daily_means tz recs)).
    split; [apply chartData_spec; exact Hyears |].
    split; [apply sort_by_Permutation |].
    rewrite sort_by_length. unfold daily_means. apply length_fmap.
  - apply NoDup_first_occurrences.
  - intros d. apply elem_of_days_with_readings.
  - intros d. unfold daily_point, average.
    rewrite !length_fmap. split; [reflexivity |].
    intros r. unfold readings_of_day, day_of_reading.
    rewrite list_elem_of_filter. tauto.
Qed.

Lemma chart_one_point_per_day_witness :
  exists pts,
    chartData Samples.brt Samples.march_readings_brt = Some pts
    /\ pts ≡ₚ daily_point Samples.brt Samples.march_readings_brt
                <$> days_with_readings Samples.brt Samples.march_readings_brt
    /\ length pts
       = length (days_with_readings Samples.brt Samples.march_readings_brt).
Proof.
  apply (chart_one_point_per_day Samples.brt Samples.march_readings_brt).
  intros r Hr. unfold Samples.march_readings_brt in Hr.
  repeat (apply elem_of_cons in Hr as [-> | Hr]);
    [ | | | | apply elem_of_nil in Hr; contradiction ];
    unfold four_digit_year; split; apply Z.leb_le; vm_compute; reflexivity.
Defined.

End HistoryMore.

(* ===================================================================== *)
(** * Facts about the records dialog and its export                       *)
(* ===================================================================== *)

Module CsvMore.
Import Time JSArray Csv CsvReader RecordsDialog TimeFacts JSArrayFacts QueryFacts.

Lemma append_nil_l (a : string) : "" +:+ a = a.
Proof. reflexivity. Qed.

Lemma append_cons x (a b : string) : String x a +:+ b = String x (a +:+ b).
Proof. reflexivity. Qed.

Lemma append_nil_r (a : string) : a +:+ "" = a.
Proof.
  induction a as [| x a IH]; [reflexivity |].
  rewrite append_cons, IH. reflexivity.
Qed.

Lemma append_assoc (a b c : string) : (a +:+ b) +:+ c = a +:+ (b +:+ c).
Proof.
  induction a as [| x a IH]; [reflexivity |].
  rewrite !append_cons, IH. reflexivity.
Qed.

(** ** The records of the chosen day *)






(** ** Reading a row back *)

Lemma plain_app (a b : string) : plain (a +:+ b) = plain a && plain b.
Proof.
  induction a as [| x a IH]; [reflexivity |].
  rewrite append_cons. cbn [plain]. rewrite IH, andb_assoc. reflexivity.
Qed.

Lemma plain_digit n : plain_char (digit n) = true.
Proof.
  unfold digit.
  assert (Hr : 0 <= n mod 10 < 10) by (apply Z.mod_pos_bound; lia).
  assert (H : n mod 10 = 0 \/ n mod 10 = 1 \/ n mod 10 = 2 \/ n mod 10 = 3
              \/ n mod 10 = 4 \/ n mod 10 = 5 \/ n mod 10 = 6 \/ n mod 10 = 7
              \/ n mod 10 = 8 \/ n mod 10 = 9) by lia.
  repeat (destruct H as [H | H]; [rewrite H; reflexivity |]).
  rewrite H. reflexivity.
Qed.

Lemma plain_pad2 n : plain (pad2 n) = true.
Proof. unfold pad2. cbn [plain]. rewrite !plain_digit. reflexivity. Qed.

Lemma plain_pad4 n : plain (pad4 n) = true.
Proof. unfold pad4. cbn [plain]. rewrite !plain_digit, plain_pad2. reflexivity. Qed.

Lemma plain_format_timestamp tz t : plain (format_timestamp tz t) = true.
Proof.
  unfold format_timestamp, format_yyyy_MM_dd, format_HH_mm_ss.
  rewrite !plain_app, plain_pad4, !plain_pad2. reflexivity.
Qed.

Lemma plain_pretty_N_char y : plain_char (pretty_N_char y) = true.
Proof.
  unfold pretty_N_char.
  destruct y as [| p]; [reflexivity |].
  repeat (destruct p as [p | p |]; try reflexivity).
Qed.

Lemma plain_pretty_N_go x : forall s, plain s = true -> plain (pretty_N_go x s) = true.
Proof.
  induction (N.lt_wf_0 x) as [x _ IH]. intros s Hs.
  destruct (decide (x = 0%N)) as [-> | Hx].
  - rewrite pretty_N_go_0. exact Hs.
  - rewrite pretty_N_go_step by lia. apply IH.
    + apply N.div_lt; lia.
    + cbn [plain]. rewrite plain_pretty_N_char, Hs. reflexivity.
Qed.

Lemma plain_pretty_Z (z : Z) : plain (pretty z) = true.
Proof.
  destruct z as [| p | p].
  - reflexivity.
  - change (pretty (Z.pos p)) with (pretty (N.pos p)).
    unfold pretty, pretty_N. destruct (decide _); [reflexivity |].
    apply plain_pretty_N_go. reflexivity.
  - change (pretty (Z.neg p)) with ("-" +:+ pretty (N.pos p)).
    rewrite plain_app. unfold pretty at 1, pretty_N.
    destruct (decide _); [reflexivity |].
    rewrite plain_pretty_N_go; reflexivity.
Qed.

Lemma plain_digits w v : plain (Double.digits w v) = true.
Proof.
  induction w as [| w IH]; [reflexivity |].
  cbn [Double.digits plain]. rewrite plain_digit, IH. reflexivity.
Qed.

Lemma plain_zeros n : plain (Double.zeros n) = true.
Proof. induction n as [| n IH]; [reflexivity |]. cbn [Double.zeros plain]. exact IH. Qed.

Lemma plain_decimal_text s k n : plain (Double.decimal_text s k n) = true.
Proof.
  unfold Double.decimal_text.
  repeat match goal with
         | |- context [if ?b then _ else _] => destruct b
         | |- context [match ?k with O => _ | S _ => _ end] => destruct k
         end;
    rewrite ?plain_app, ?plain_digits, ?plain_zeros, ?plain_pretty_Z; reflexivity.
Qed.

Lemma plain_toString x : plain (Double.toString x) = true.
Proof.
  destruct x as [q | [|] |]; try reflexivity.
  unfold Double.toString. destruct (Qeq_bool q (0 # 1)); [reflexivity |].
  destruct (Double.shortest _ _ _ _) as [[s k] n].
  rewrite plain_app, plain_decimal_text. destruct (Double.negative q); reflexivity.
Qed.

Lemma plain_Number_toString x : plain (Number_toString x) = true.
Proof. apply plain_toString. Qed.

Lemma plain_Turno_str t : plain (Turno_str t) = true.
Proof. destruct t; reflexivity. Qed.

Lemma plain_Boolean_toString b : plain (Boolean_toString b) = true.
Proof. destruct b; reflexivity. Qed.

(** A plain cell followed by a comma is read as that cell. *)
Lemma split_row_plain (c : string) : forall cur rest,
  plain c = true ->
  split_row false cur (c +:+ rest) = split_row false (cur +:+ c) rest.
Proof.
  induction c as [| x c IH]; intros cur rest Hc.
  - rewrite append_nil_l, append_nil_r. reflexivity.
  - cbn [plain] in Hc. apply andb_true_iff in Hc as [Hx Hc].
    unfold plain_char in Hx. apply andb_true_iff in Hx as [Hx1 Hx2].
    apply negb_true_iff in Hx1, Hx2.
    rewrite append_cons. cbn [split_row]. rewrite Hx1, Hx2.
    rewrite IH by exact Hc. rewrite append_assoc. reflexivity.
Qed.

Lemma split_row_cell (c : string) rest :
  plain c = true ->
  split_row false "" (c +:+ String comma rest) = c :: split_row false "" rest.
Proof.
  intros Hc. rewrite split_row_plain by exact Hc. rewrite append_nil_l.
  reflexivity.
Qed.

(** A quoted cell that ends the row is read as the text it quotes. *)
Lemma split_row_quoted (o : string) : forall cur,
  split_row true cur (double_quotes o +:+ String dquote "") = [cur +:+ o].
Proof.
  induction o as [| x o IH]; intros cur.
  - cbn [double_quotes]. rewrite append_nil_l, append_nil_r.
    cbn [split_row]. rewrite Ascii.eqb_refl. reflexivity.
  - cbn [double_quotes]. destruct (Ascii.eqb x dquote) eqn:E.
    + apply Ascii.eqb_eq in E. subst x.
      rewrite !append_cons. cbn [split_row]. rewrite Ascii.eqb_refl.
      rewrite IH, append_assoc. reflexivity.
    + rewrite append_cons. cbn [split_row]. rewrite E.
      rewrite IH, append_assoc. reflexivity.
Qed.

(** X20.  A row of the export can be read back: a reader of CSV splits it
    into exactly seven cells, the six plain ones as they were written and
    the seventh the observation itself, whatever commas and quotation marks
    the observation holds. *)
Theorem read_row_of_row tz r :
  read_row (row tz r)
  = [ format_timestamp tz (timestamp r);
      Turno_str (turno r);
      Number_toString (temperature r);
      Boolean_toString (is_temp_ok r);
      Number_toString (humidity r);
      Boolean_toString (is_humidity_ok r);
      observation r ].
Proof.
  unfold read_row, row, cells. cbn [join].
  change ","%string with (String comma "").
  rewrite ?append_assoc, ?append_cons, ?append_nil_l.
  rewrite split_row_cell by apply plain_format_timestamp.
  rewrite split_row_cell by apply plain_Turno_str.
  rewrite split_row_cell by apply plain_Number_toString.
  rewrite split_row_cell by apply plain_Boolean_toString.
  rewrite split_row_cell by apply plain_Number_toString.
  rewrite split_row_cell by apply plain_Boolean_toString.
  unfold quoted. cbn [split_row].
  replace (Ascii.eqb dquote comma) with false by reflexivity.
  rewrite Ascii.eqb_refl. rewrite split_row_quoted. reflexivity.
Qed.

End CsvMore.

(* ===================================================================== *)
(** * Facts that relate the pages                                         *)
(* ===================================================================== *)

Module CrossPageFacts.
Import Time Submission RecordPageLoad TimeFacts SubmissionFacts QueryFacts.

Lemma elem_of_dailyRecords tz now sid (recs : gmap string RecordDoc) k r :
  (k, r) ∈ dailyRecords tz now sid recs
  <-> recs !! k = Some r /\ sector_id r = sid
      /\ start_of_local_day tz now <= timestamp r <= end_of_local_day tz now.
Proof.
  unfold dailyRecords.
  rewrite elem_of_ordered_docs, RecordPageLoadFacts.today_of_sector_true.
  reflexivity.
Qed.

(** X21.  The duplicate check and the table of today's readings agree up
    to the last 999 ms of the day: when the query succeeds, a submission
    is rejected as a duplicate exactly when the table 'Registros de Hoje'
    of the same device shows a reading of the chosen shift taken no later
    than 23:59:59.000. *)
Theorem rejected_iff_table_shows_shift e s f values (recs : gmap string RecordDoc) :
  getDocs_ok e = true ->
  (fst (onSubmit e (Some s) f values recs) = DuplicateShift
   <-> exists k r,
         (k, r) ∈ dailyRecords (tz e) (now e) (s_id s) recs
         /\ turno r = v_turno values
         /\ timestamp r <= end_of_local_day (tz e) (now e) - 999).
Proof.
  intros Hget. split.
  - intros Hdup. unfold onSubmit in Hdup. rewrite Hget in Hdup. simpl in Hdup.
    destruct (snapshot_empty (duplicateQuery e s values recs)) eqn:Hemp.
    + simpl in Hdup. destruct (addDoc_ok e); discriminate.
    + unfold snapshot_empty in Hemp. apply Nat.eqb_neq in Hemp.
      assert (Hne : duplicateQuery e s values recs <> ∅)
        by (intros H; apply Hemp; rewrite H; apply map_size_empty).
      apply map_choose in Hne as (k & r & Hk).
      unfold duplicateQuery in Hk.
      apply map_lookup_filter_Some in Hk as [Hk Hm].
      apply matches_true in Hm as (Hsid & Htur & Hwin).
      rewrite check_startOfDay_spec, check_endOfDay_spec in Hwin.
      cbn [snd] in Hsid, Htur, Hwin.
      exists k, r. split; [| split; [exact Htur | lia]].
      apply elem_of_dailyRecords. split; [exact Hk |]. split; [exact Hsid | lia].
  - intros (k & r & Hin & Htur & Hlate).
    apply elem_of_dailyRecords in Hin as (Hk & Hsid & Hwin).
    rewrite onSubmit_rejects_match; [reflexivity | exact Hget |].
    exists k, r. split; [exact Hk |]. split; [exact Hsid |]. split; [exact Htur |].
    rewrite check_startOfDay_spec, check_endOfDay_spec. lia.
Qed.

Lemma rejected_iff_table_shows_shift_witness :
  fst (onSubmit Samples.env_10h (Some Samples.lab) Samples.form_ok Samples.values_ok
         Samples.one_morning) = DuplicateShift.
Proof.
  apply (rejected_iff_table_shows_shift Samples.env_10h Samples.lab Samples.form_ok
           Samples.values_ok Samples.one_morning eq_refl).
  exists "r1"%string, Samples.morning_8h.
  split; [| split; [reflexivity | apply Z.leb_le; vm_compute; reflexivity]].
  apply elem_of_dailyRecords. split; [reflexivity |]. split; [reflexivity |].
  split; apply Z.leb_le; vm_compute; reflexivity.
Defined.

(** X22.  The dashboard and the submission page agree: once the snapshot
    of a sector has been delivered, the badge of a shift reads 'Realizado'
    exactly when the table 'Registros de Hoje' of that sector, on a device
    with the same clock, shows a reading of that shift. *)
Theorem badge_iff_table tz now sectorsData (recs : gmap string RecordDoc)
    delivered s t :
  s ∈ sectorsData ->
  (exists d, d ∈ delivered /\ s_id d = s_id s) ->
  exists entry,
    Dashboard.sectorsStatus tz now sectorsData recs delivered !! s_id s = Some entry
    /\ (Dashboard.get_shift t (Dashboard.shifts entry) = true
        <-> exists k r, (k, r) ∈ dailyRecords tz now (s_id s) recs /\ turno r = t).
Proof.
  intros Hs Hdel.
  pose proof (DashboardFacts.sectorsStatus_invariant tz now sectorsData recs
                delivered (s_id s)) as Hinv.
  destruct (DashboardFacts.initialStatus_lookup sectorsData s Hs) as (e0 & He0 & _).
  rewrite He0 in Hinv. destruct Hinv as (entry & Hentry & _ & Hshifts).
  exists entry. split; [exact Hentry |]. rewrite Hshifts. split.
  - intros (_ & k & r & Hk & Hsid & Ht & Hwin). exists k, r.
    split; [| exact Ht]. apply elem_of_dailyRecords. auto.
  - intros (k & r & Hin & Ht).
    apply elem_of_dailyRecords in Hin as (Hk & Hsid & Hwin).
    split; [exact Hdel |]. exists k, r. auto.
Qed.

Lemma badge_iff_table_witness :
  exists entry,
    Dashboard.sectorsStatus Samples.brt (Samples.mar15 10 0 0 0) [Samples.lab]
      Samples.one_morning [Samples.lab] !! s_id Samples.lab = Some entry
    /\ (Dashboard.get_shift Noite (Dashboard.shifts entry) = true
        <-> exists k r,
              (k, r) ∈ dailyRecords Samples.brt (Samples.mar15 10 0 0 0)
                         (s_id Samples.lab) Samples.one_morning
              /\ turno r = Noite).
Proof.
  apply badge_iff_table.
  - left.
  - exists Samples.lab. split; [left | reflexivity].
Defined.

End CrossPageFacts.

(* ===================================================================== *)
(** * The order of the chart                                              *)
(* ===================================================================== *)

Module ChartOrder.
Import Time JSArray History TimeFacts JSArrayFacts QueryFacts HistoryFacts.

Lemma localeCompare_le a b : localeCompare a b <= 0 <-> String.compare a b <> Gt.
Proof. unfold localeCompare. destruct (String.compare a b); split; intros; try lia; congruence. Qed.

Lemma by_date_total p q : by_date p q <= 0 \/ by_date q p <= 0.
Proof.
  unfold by_date. rewrite !localeCompare_le.
  rewrite (String.compare_antisym (date q) (date p)).
  destruct (String.compare (date p) (date q)); simpl; [left | left | right];
    congruence.
Qed.

Lemma by_date_trans p q r : by_date p q <= 0 -> by_date q r <= 0 -> by_date p r <= 0.
Proof. unfold by_date. rewrite !localeCompare_le. apply string_compare_trans. Qed.

(** Digits compare as the numbers they stand for. *)
Lemma digit_compare a b :
  Ascii.compare (digit a) (digit b) = (a mod 10 ?= b mod 10).
Proof.
  unfold digit.
  assert (Ha : 0 <= a mod 10 < 10) by (apply Z.mod_pos_bound; lia).
  assert (Hb : 0 <= b mod 10 < 10) by (apply Z.mod_pos_bound; lia).
  generalize dependent (b mod 10). generalize dependent (a mod 10).
  intros x Hx y Hy.
  assert (Ex : x = 0 \/ x = 1 \/ x = 2 \/ x = 3 \/ x = 4 \/ x = 5 \/ x = 6
               \/ x = 7 \/ x = 8 \/ x = 9) by lia.
  assert (Ey : y = 0 \/ y = 1 \/ y = 2 \/ y = 3 \/ y = 4 \/ y = 5 \/ y = 6
               \/ y = 7 \/ y = 8 \/ y = 9) by lia.
  clear Hx Hy.
  repeat (destruct Ex as [Ex | Ex]; [subst x;
    repeat (destruct Ey as [Ey | Ey]; [subst y; reflexivity |]);
    subst y; reflexivity |]).
  subst x. repeat (destruct Ey as [Ey | Ey]; [subst y; reflexivity |]).
  subst y. reflexivity.
Qed.

(** Of two labels of one month, the one of the later day is the greater
    text. *)
Lemma label_compare_same_month d1 d2 m :
  0 <= d1 <= 99 -> 0 <= d2 <= 99 -> d2 < d1 ->
  String.compare (pad2 d1 +:+ "/" +:+ pad2 m) (pad2 d2 +:+ "/" +:+ pad2 m) = Gt.
Proof.
  intros H1 H2 Hlt. unfold pad2. cbv [append]. cbn [String.compare].
  rewrite !digit_compare.
  destruct (Z.compare_spec ((d1 / 10) mod 10) ((d2 / 10) mod 10)) as [E | E | E].
  - replace (d1 mod 10 ?= d2 mod 10) with Gt; [reflexivity |].
    symmetry. apply Z.compare_gt_iff. zdiv.
  - exfalso. zdiv.
  - reflexivity.
Qed.

(** X23.  The chart is in ascending order of the text of its labels
    [dd/MM], the day of the month first: of two points whose labels name
    the same month, the one with the smaller day of the month comes first,
    whereas labels of different months are not put in the order of their
    dates. *)
Theorem chart_sorted_by_label tz recs :
  (forall r, r ∈ recs -> four_digit_year tz (timestamp r)) ->
  exists pts,
    chartData tz recs = Some pts
    /\ StronglySorted
         (fun p q =>
            String.compare (date p) (date q) <> Gt
            /\ forall d1 d2 m,
                 0 <= d1 <= 99 -> 0 <= d2 <= 99 ->
                 date p = pad2 d1 +:+ "/" +:+ pad2 m ->
                 date q = pad2 d2 +:+ "/" +:+ pad2 m ->
                 d1 <= d2)
         pts.
Proof.
  intros Hyears. exists (sort_by by_date (daily_means tz recs)).
  split; [apply chartData_spec; exact Hyears |].
  apply (StronglySorted_weaken' (fun p q => by_date p q <= 0)).
  - intros p q Hpq. unfold by_date in Hpq. apply localeCompare_le in Hpq.
    split; [exact Hpq |].
    intros d1 d2 m H1 H2 Hp Hq.
    destruct (Z.le_gt_cases d1 d2) as [Hle | Hgt]; [exact Hle |].
    exfalso. apply Hpq. rewrite Hp, Hq.
    apply label_compare_same_month; assumption.
  - apply sort_by_sorted; [apply by_date_total | apply by_date_trans].
Qed.

Lemma chart_sorted_by_label_witness :
  exists pts,
    chartData Samples.utc Samples.march_readings = Some pts
    /\ StronglySorted
         (fun p q =>
            String.compare (date p) (date q) <> Gt
            /\ forall d1 d2 m,
                 0 <= d1 <= 99 -> 0 <= d2 <= 99 ->
                 date p = pad2 d1 +:+ "/" +:+ pad2 m ->
                 date q = pad2 d2 +:+ "/" +:+ pad2 m ->
                 d1 <= d2)
         pts.
Proof.
  apply chart_sorted_by_label.
  intros r Hr. unfold Samples.march_readings in Hr.
  repeat (apply elem_of_cons in Hr as [-> | Hr]);
    [ | | | | apply elem_of_nil in Hr; contradiction ];
    unfold four_digit_year; split; apply Z.leb_le; vm_compute; reflexivity.
Defined.

End ChartOrder.

(* ===================================================================== *)
(** * The means of the chart and the exact means                          *)
(* ===================================================================== *)

Module ChartMeans.
Import Time JSArray Double History TimeFacts JSArrayFacts DoubleFacts HistoryFacts
       HistoryMore.

Section Accuracy.
Local Open Scope Q_scope.

(** Rounding a number below [2^K] moves it by at most [2^(K-54)]. *)
Lemma nearest_error_below q K :
  (-1021 <= K)%Z -> Qabs q < pow2 K -> Qabs (nearest q - q) <= pow2 (K - 54).
Proof.
  intros HK Hq. destruct (Qeq_dec q 0) as [H0 | H0].
  - rewrite (nearest_zero q H0).
    assert (E : 0 - q == 0) by (rewrite H0; ring).
    rewrite E. apply Qlt_le_weak, pow2_pos.
  - eapply Qle_trans; [apply nearest_error |]. apply pow2_le.
    destruct (mag_spec q H0) as [M1 _].
    assert (mag q < K)%Z by (apply pow2_lt_inv; lra).
    unfold ulp_exponent. lia.
Qed.

Lemma of_Q_finite q : Qabs (nearest q) < pow2 1024 -> of_Q q = Finite (nearest q).
Proof.
  intros H. unfold of_Q.
  destruct (Qle_bool (pow2 1024) (Qabs (nearest q))) eqn:E; [| reflexivity].
  apply Qle_bool_iff in E. lra.
Qed.

Lemma pow2_1024_large : 4194304 < pow2 1024.
Proof. change 4194304 with (pow2 22). apply pow2_lt. lia. Qed.

(** A number below [2^21] rounds to a finite double at most [2^-33] away. *)
Lemma of_Q_small q :
  Qabs q <= 2097151 ->
  of_Q q = Finite (nearest q) /\ Qabs (nearest q - q) <= 1 # 8589934592.
Proof.
  intros Hq.
  assert (E : Qabs (nearest q - q) <= 1 # 8589934592).
  { change (1 # 8589934592) with (pow2 (21 - 54)).
    apply nearest_error_below; [lia |].
    change (pow2 21) with 2097152. lra. }
  split; [| exact E]. apply of_Q_finite.
  pose proof pow2_1024_large as L.
  apply Qabs_Qle_condition in Hq. apply Qabs_Qle_condition in E.
  apply Qabs_Qlt_condition. split; lra.
Qed.

Lemma inject_nat_nonneg (n : nat) : 0 <= inject_Z (Z.of_nat n).
Proof. change 0 with (inject_Z 0). rewrite <- Zle_Qle. lia. Qed.

Lemma inject_nat_succ (n : nat) :
  inject_Z (Z.of_nat (S n)) == inject_Z (Z.of_nat n) + 1.
Proof. rewrite Nat2Z.inj_succ, <- Z.add_1_r, inject_Z_plus. reflexivity. Qed.

Lemma inject_nat_le (n m : nat) :
  (n <= m)%nat -> inject_Z (Z.of_nat n) <= inject_Z (Z.of_nat m).
Proof. intros H. rewrite <- Zle_Qle. lia. Qed.

(** The sum as the chart computes it stays next to the exact sum: each
    reading adds at most [2^-32] to the distance. *)
Lemma foldl_add_error l : forall a A (j : nat),
  (forall t, t ∈ l -> Qabs t <= 1024) ->
  Qabs (a - A) <= inject_Z (Z.of_nat j) * (1 # 4294967296) ->
  Qabs A <= inject_Z (Z.of_nat j) * 1024 ->
  (j + length l <= 1024)%nat ->
  exists s,
    foldl add (Finite a) (of_Q <$> l) = Finite s
    /\ Qabs (s - (A + foldr Qplus 0 l))
       <= inject_Z (Z.of_nat (j + length l)) * (1 # 4294967296).
Proof.
  induction l as [| t l IH]; intros a A j Hl Ha HA Hj.
  - exists a. split; [reflexivity |]. cbn [foldr length].
    rewrite Nat.add_0_r.
    assert (E : a - (A + 0) == a - A) by ring. rewrite E. exact Ha.
  - rewrite fmap_cons. cbn [foldl foldr length] in *.
    assert (Ht : Qabs t <= 1024) by (apply Hl; left).
    pose proof (inject_nat_nonneg j) as J0.
    assert (J1 : inject_Z (Z.of_nat j) + 1 <= 1024).
    { rewrite <- inject_nat_succ. change 1024 with (inject_Z (Z.of_nat 1024)).
      apply inject_nat_le. lia. }
    set (J := inject_Z (Z.of_nat j)) in *.
    destruct (of_Q_small t) as [Et1 Et2].
    { apply Qabs_Qle_condition in Ht. apply Qabs_Qle_condition. split; lra. }
    rewrite Et1. cbn [add].
    apply Qabs_Qle_condition in Ht, Ha, HA, Et2.
    destruct (of_Q_small (a + nearest t)) as [Ea1 Ea2].
    { apply Qabs_Qle_condition. split; lra. }
    rewrite Ea1. apply Qabs_Qle_condition in Ea2.
    destruct (IH (nearest (a + nearest t)) (A + t) (S j)) as (s & Hs & Hbound).
    + intros t' Ht'. apply Hl. right. exact Ht'.
    + rewrite inject_nat_succ. fold J. apply Qabs_Qle_condition. split; lra.
    + rewrite inject_nat_succ. fold J. apply Qabs_Qle_condition. split; lra.
    + lia.
    + exists s. split; [exact Hs |].
      replace (j + S (length l))%nat with (S j + length l)%nat by lia.
      assert (E : s - (A + (t + foldr Qplus 0 l)) == s - (A + t + foldr Qplus 0 l))
        by ring.
      rewrite E. exact Hbound.
Qed.

(** The mean the chart shows is a number of tenths that is next to the
    exact mean. *)
Lemma mean_accuracy (l : list Q) :
  l <> [] ->
  (length l <= 1024)%nat ->
  (forall t, t ∈ l -> Qabs t <= 1024) ->
  exists n : Z,
    round1 (average (of_Q <$> l)) = of_Q (n # 10)
    /\ Qabs ((n # 10) - exact_mean l) <= (1 # 20) + (1 # 1000000).
Proof.
  intros Hne Hlen Hl.
  destruct (foldl_add_error l 0 0 0%nat Hl) as (s & Hs & Hsum).
  { change (inject_Z (Z.of_nat 0)) with 0.
    apply Qabs_Qle_condition. split; lra. }
  { change (inject_Z (Z.of_nat 0)) with 0.
    apply Qabs_Qle_condition. split; lra. }
  { lia. }
  cbn [Nat.add] in Hsum.
  unfold average, sum. rewrite Hs, length_fmap.
  set (N := inject_Z (Z.of_nat (length l))) in *.
  assert (HN1 : 1 <= N).
  { unfold N. change 1 with (inject_Z (Z.of_nat 1)). apply inject_nat_le.
    destruct l; [congruence | cbn; lia]. }
  assert (HN2 : N <= 1024).
  { unfold N. change 1024 with (inject_Z (Z.of_nat 1024)). apply inject_nat_le.
    exact Hlen. }
  set (Sx := foldr Qplus 0 l) in *.
  assert (HSx : Qabs Sx <= N * 1024).
  { unfold Sx, N. clear -Hl. induction l as [| t l IH].
    - cbn [foldr length]. change (inject_Z (Z.of_nat 0)) with 0.
      change (Qabs 0) with 0. lra.
    - cbn [foldr length]. rewrite inject_nat_succ.
      assert (Ht : Qabs t <= 1024) by (apply Hl; left).
      assert (IH' : Qabs (foldr Qplus 0 l) <= inject_Z (Z.of_nat (length l)) * 1024)
        by (apply IH; intros t' Ht'; apply Hl; right; exact Ht').
      apply Qabs_Qle_condition in Ht, IH'. apply Qabs_Qle_condition. split; lra. }
  (* the count is a double *)
  assert (HNd : nearest N == N).
  { apply nearest_of_representable. exists (Z.of_nat (length l)), 0%Z.
    split; [lia |]. split; [| unfold N; change (pow2 0) with 1; ring].
    rewrite Z.abs_eq by lia. assert (Z.of_nat (length l) <= 1024)%Z by lia.
    assert (1024 <= 2 ^ 53)%Z by (vm_compute; discriminate). lia. }
  assert (HoN : of_nat (length l) = Finite (nearest N)).
  { unfold of_nat. fold N. apply of_Q_finite. rewrite HNd.
    pose proof pow2_1024_large. rewrite Qabs_pos by lra. lra. }
  rewrite HoN. cbn [div].
  assert (Hnz : Qeq_bool (nearest N) 0 = false).
  { destruct (Qeq_bool (nearest N) 0) eqn:E; [| reflexivity].
    apply Qeq_bool_iff in E. rewrite HNd in E. lra. }
  rewrite Hnz.
  apply Qabs_Qle_condition in Hsum, HSx.
  assert (HA0 : 0 + Sx == Sx) by ring. rewrite HA0 in Hsum.
  set (d := s / nearest N).
  assert (Hd : d * N == s) by (unfold d; rewrite HNd; field; lra).
  assert (Hdb : Qabs d <= 2097151).
  { apply Qabs_Qle_condition. split; nra. }
  destruct (of_Q_small d Hdb) as [Ed1 Ed2]. rewrite Ed1.
  set (avg := nearest d) in *.
  apply Qabs_Qle_condition in Ed2, Hdb.
  cbn [round1].
  assert (Hbig : Qle_bool (inject_Z (10 ^ 21)) (Qabs avg) = false).
  { destruct (Qle_bool (inject_Z (10 ^ 21)) (Qabs avg)) eqn:E; [| reflexivity].
    apply Qle_bool_iff in E.
    change (inject_Z (10 ^ 21)) with 1000000000000000000000 in E.
    assert (Qabs avg <= 2097152) by (apply Qabs_Qle_condition; split; lra).
    lra. }
  rewrite Hbig. exists (toFixed_1 avg). split; [reflexivity |].
  pose proof (toFixed_1_nearest avg) as Hn. apply Qabs_Qle_condition in Hn.
  assert (Hq : toFixed_1 avg # 10 == inject_Z (toFixed_1 avg) * (1 # 10))
    by (unfold Qeq; simpl; lia).
  unfold exact_mean. fold Sx. fold N.
  set (M := Sx / N).
  assert (HM : M * N == Sx) by (unfold M; field; lra).
  rewrite Hq. apply Qabs_Qle_condition.
  assert (HdM : - (1 # 4294967296) <= d - M /\ d - M <= 1 # 4294967296).
  { split; nra. }
  destruct HdM. split; lra.
Qed.

(** X25.  The means of the chart are the arithmetic means of the
    specification up to rounding: for a history of at most 1024 readings
    with temperatures and humidities of magnitude at most 1024, the point
    of the day of a reading shows two numbers of tenths (the doubles
    nearest to [nt / 10] and [nh / 10]) that are within half a tenth, and
    one millionth for the binary64 arithmetic, of the exact means of the
    temperatures and of the humidities of that day's readings. *)
Theorem chart_means_near_exact tz recs r :
  (forall r', r' ∈ recs -> four_digit_year tz (timestamp r')) ->
  r ∈ recs ->
  (length recs <= 1024)%nat ->
  (forall r', r' ∈ recs ->
     Qabs (temperature r') <= 1024 /\ Qabs (humidity r') <= 1024) ->
  exists pts p nt nh,
    chartData tz recs = Some pts /\ p ∈ pts
    /\ Temperatura p = of_Q (nt # 10)
    /\ Qabs ((nt # 10)
             - exact_mean (temperature
                             <$> readings_of_day tz (local_day tz (timestamp r)) recs))
       <= (1 # 20) + (1 # 1000000)
    /\ Umidade p = of_Q (nh # 10)
    /\ Qabs ((nh # 10)
             - exact_mean (humidity
                             <$> readings_of_day tz (local_day tz (timestamp r)) recs))
       <= (1 # 20) + (1 # 1000000).
Proof.
  intros Hyears Hr Hlen Hb.
  destruct (daily_point_in_chart tz recs r Hyears Hr) as (pts & Hpts & Hin).
  set (L := readings_of_day tz (local_day tz (timestamp r)) recs).
  assert (HrL : r ∈ L).
  { unfold L, readings_of_day. apply list_elem_of_filter. split; [reflexivity | exact Hr]. }
  assert (HLrecs : forall r', r' ∈ L -> r' ∈ recs).
  { intros r' H. unfold L, readings_of_day in H.
    apply list_elem_of_filter in H as [_ H]. exact H. }
  assert (HLlen : (length L <= 1024)%nat).
  { unfold L, readings_of_day. etransitivity; [apply length_filter | exact Hlen]. }
  assert (HLne : forall (f : RecordDoc -> Q), f <$> L <> []).
  { intros f H. apply fmap_nil_inv in H. rewrite H in HrL.
    apply elem_of_nil in HrL. exact HrL. }
  destruct (mean_accuracy (temperature <$> L)) as (nt & Ht1 & Ht2).
  { apply HLne. }
  { rewrite length_fmap. exact HLlen. }
  { intros t Ht. apply list_elem_of_fmap in Ht as (r' & -> & Hr').
    apply Hb, HLrecs, Hr'. }
  destruct (mean_accuracy (humidity <$> L)) as (nh & Hh1 & Hh2).
  { apply HLne. }
  { rewrite length_fmap. exact HLlen. }
  { intros t Ht. apply list_elem_of_fmap in Ht as (r' & -> & Hr').
    apply Hb, HLrecs, Hr'. }
  exists pts, (daily_point tz recs (day_of_reading tz r)), nt, nh.
  split; [exact Hpts |]. split; [exact Hin |].
  unfold daily_point, day_of_reading. cbn [Temperatura Umidade]. fold L.
  rewrite <- list_fmap_compose in Ht1, Hh1.
  split; [exact Ht1 |]. split; [exact Ht2 |]. split; [exact Hh1 | exact Hh2].
Qed.

Lemma chart_means_near_exact_witness :
  exists pts p nt nh,
    chartData Samples.brt Samples.march_readings_brt = Some pts /\ p ∈ pts
    /\ Temperatura p = of_Q (nt # 10)
    /\ Qabs ((nt # 10)
             - exact_mean (temperature
                             <$> readings_of_day Samples.brt
                                   (local_day Samples.brt (Samples.mar15 8 0 0 0))
                                   Samples.march_readings_brt))
       <= (1 # 20) + (1 # 1000000)
    /\ Umidade p = of_Q (nh # 10)
    /\ Qabs ((nh # 10)
             - exact_mean (humidity
                             <$> readings_of_day Samples.brt
                                   (local_day Samples.brt (Samples.mar15 8 0 0 0))
                                   Samples.march_readings_brt))
       <= (1 # 20) + (1 # 1000000).
Proof.
  apply (chart_means_near_exact Samples.brt Samples.march_readings_brt
           (Samples.reading (20 # 1) (50 # 1) Manha "" (Samples.mar15 8 0 0 0))).
  - intros r Hr. unfold Samples.march_readings_brt in Hr.
    repeat (apply elem_of_cons in Hr as [-> | Hr]);
      [ | | | | apply elem_of_nil in Hr; contradiction ];
      unfold four_digit_year; split; apply Z.leb_le; vm_compute; reflexivity.
  - left.
  - cbn. lia.
  - intros r Hr. unfold Samples.march_readings_brt in Hr.
    repeat (apply elem_of_cons in Hr as [-> | Hr]);
      [ | | | | apply elem_of_nil in Hr; contradiction ];
      split; apply Qle_bool_iff; vm_compute; reflexivity.
Defined.

End Accuracy.

End ChartMeans.
